(** * Diabetes assistant: time-segmented coefficients and the dosing engine

    A shallow embedding of the Go services [insulin], [models], [storage],
    [handlers], [ai] and [libre] and of the period validator of
    [web/app.js].

    Numbers are IEEE 754 binary64 values, as Go's [float64] and JavaScript's
    [Number] are: Rocq's primitive floats, with the operations of Go's
    [math] package written out from their reference implementations.  Go's
    [int] is a 64-bit signed integer, kept in [Z] with its wrap-around
    written out. *)

From Stdlib Require Import ZArith List Bool Ascii String Lia Floats Uint63.
From stdpp Require Import gmap strings.
Import ListNotations.

#[local] Set Warnings "-inexact-float".
#[local] Open Scope Z_scope.

(** ** Go's runtime: integers, conversions, [math], [strconv], [strings] *)

Module Go.

Definition minInt64 : Z := - 2 ^ 63.
Definition maxInt64 : Z := 2 ^ 63 - 1.

(** Two's-complement wrap-around of [int] arithmetic. *)
Definition wrap64 (z : Z) : Z := (z + 2 ^ 63) mod 2 ^ 64 - 2 ^ 63.

Definition int_add (a b : Z) : Z := wrap64 (a + b).

(** [int(f)]: the fraction is discarded.  A value outside [int]'s range
    (also an infinity or a NaN) converts to the "integer indefinite"
    value of the amd64 conversion instruction. *)
Definition int_of_float64 (f : float) : Z :=
  match Prim2SF f with
  | S754_zero _ => 0
  | S754_finite s m e =>
      let v := cond_Zopp s (Z.shiftl (Zpos m) e) in
      if (minInt64 <=? v) && (v <=? maxInt64) then v else minInt64
  | S754_infinity _ | S754_nan => minInt64
  end.

(** [float64(n)] for a slice length [n]; a slice holds fewer than 2^63
    elements. *)
Definition float64_of_len (n : nat) : float :=
  PrimFloat.of_uint63 (Uint63.of_Z (Z.of_nat n)).

(** [float64(n)] for a small non-negative integer constant. *)
Definition float64_of_Z (z : Z) : float :=
  PrimFloat.of_uint63 (Uint63.of_Z z).

Definition MaxFloat64 : float := 0x1.fffffffffffffp1023%float.

(** [math.IsNaN], [math.IsInf], [math.Signbit], [math.Abs]. *)
Definition IsNaN (f : float) : bool := negb (f =? f)%float.

Definition IsInf (f : float) (sign : Z) : bool :=
  ((0 <=? sign) && (MaxFloat64 <? f)%float)
  || ((sign <=? 0) && (f <? - MaxFloat64)%float).

Definition Signbit (f : float) : bool := PrimFloat.get_sign f.

Definition Abs (f : float) : float := PrimFloat.abs f.

(** [math.Max]. *)
Definition Max (x y : float) : float :=
  if IsInf x 1 || IsInf y 1 then infinity
  else if IsNaN x || IsNaN y then nan
  else if (x =? 0)%float && (x =? y)%float then
    (if Signbit x then y else x)
  else if (y <? x)%float then x
  else y.

(** [math.Min]. *)
Definition Min (x y : float) : float :=
  if IsInf x (-1) || IsInf y (-1) then neg_infinity
  else if IsNaN x || IsNaN y then nan
  else if (x =? 0)%float && (x =? y)%float then
    (if Signbit x then x else y)
  else if (x <? y)%float then x
  else y.

(** [strings.Split(s, ":")[0]]: the text before the first colon. *)
Fixpoint before_colon (s : string) : string :=
  match s with
  | EmptyString => EmptyString
  | String c r =>
      if Ascii.eqb c ":"%char then EmptyString else String c (before_colon r)
  end.

Definition digit_of (c : ascii) : option Z :=
  let n := Z.of_nat (nat_of_ascii c) in
  if (48 <=? n) && (n <=? 57) then Some (n - 48) else None.

Definition maxUint64 : Z := 2 ^ 64 - 1.

(** What the digit loop of [strconv.ParseUint(s, 10, 64)] makes of a
    text: the value of its digits, a range error as soon as the value
    leaves [uint64], or a syntax error at the first byte that is no
    digit, whichever the loop meets first. *)
Inductive parsed : Type :=
| Digits (n : Z)
| OutOfRange
| BadSyntax.

Fixpoint parse_digits (s : string) (n : Z) : parsed :=
  match s with
  | EmptyString => Digits n
  | String c r =>
      match digit_of c with
      | None => BadSyntax
      | Some d =>
          if maxUint64 / 10 + 1 <=? n then OutOfRange
          else if maxUint64 <? n * 10 + d then OutOfRange
          else parse_digits r (n * 10 + d)
      end
  end.

(** The value [strconv.Atoi] returns, its error dropped: 0 on a syntax
    error, the nearest bound of [int] on a range error.  Texts of fewer
    than 19 bytes take a loop of their own, which yields the same value
    for them. *)
Definition Atoi (s : string) : Z :=
  match s with
  | EmptyString => 0
  | String c r =>
      let neg := Ascii.eqb c "-"%char in
      let body := if neg || Ascii.eqb c "+"%char then r else s in
      match body with
      | EmptyString => 0
      | _ =>
          match parse_digits body 0 with
          | BadSyntax => 0
          | OutOfRange => if neg then minInt64 else maxInt64
          | Digits n =>
              if neg then Z.max (- n) minInt64 else Z.min n maxInt64
          end
      end
  end.

(** Whether [strconv.Atoi] returns a nil error: an optional sign, then
    decimal digits only, and a number that fits [int]. *)
Definition Atoi_ok (s : string) : bool :=
  match s with
  | EmptyString => false
  | String c r =>
      let neg := Ascii.eqb c "-"%char in
      let body := if neg || Ascii.eqb c "+"%char then r else s in
      match body with
      | EmptyString => false
      | _ =>
          match parse_digits body 0 with
          | Digits n => if neg then n <=? 2 ^ 63 else n <=? maxInt64
          | OutOfRange | BadSyntax => false
          end
      end
  end.

End Go.

(** ** [time.Time], at the resolution the services use *)

Module time.

(** Nanoseconds of wall-clock time since the zero [Time], in the
    server's location. *)
Record Time : Type := mkTime { wall : Z }.

Definition nanosPerHour : Z := 3600 * 10 ^ 9.

Definition Hour (t : Time) : Z := (wall t / nanosPerHour) mod 24.
Definition After (t u : Time) : bool := wall u <? wall t.
Definition Equal (t u : Time) : bool := wall t =? wall u.
Definition IsZero (t : Time) : bool := wall t =? 0.

(** [t.AddDate(0, 0, days)]. *)
Definition AddDays (t : Time) (days : Z) : Time :=
  mkTime (wall t + days * 24 * nanosPerHour).

(** Day [d], [h] o'clock. *)
Definition at_hour (d h : Z) : Time := mkTime ((d * 24 + h) * nanosPerHour).

(** [t.Add(d)], [d] a [time.Duration] in nanoseconds. *)
Definition Add (t : Time) (d : Z) : Time := mkTime (wall t + d).

End time.

(** ** [internal/models] *)

Module models.

Record BloodSugarReading : Type := mkReading {
  Value : float;
  Timestamp : time.Time;
  Source : string
}.

Record BaseInsulinCoefficients : Type := mkBase {
  Morning : float;
  Afternoon : float;
  Evening : float;
  Night : float
}.

Record InsulinPeriod : Type := mkInsulinPeriod {
  StartTime : string;
  Coefficient : float;
  Hours : float
}.

Record SensitivityPeriod : Type := mkSensitivityPeriod {
  sStartTime : string;
  Sensitivity : float;
  sHours : float
}.

Record CarbRatioPeriod : Type := mkCarbRatioPeriod {
  cStartTime : string;
  Ratio : float;
  cHours : float
}.

Record Settings : Type := mkSettings {
  ID : string;
  UserID : string;
  TargetMin : float;
  TargetMax : float;
  IOBDuration : float;
  InsulinPeriods : list InsulinPeriod;
  SensitivityPeriods : list SensitivityPeriod;
  CarbRatioPeriods : list CarbRatioPeriod;
  UpdatedAt : time.Time
}.

Record User : Type := mkUser {
  uUserID : string;
  uSettings : Settings;
  BloodSugarReadings : list BloodSugarReading
}.

Definition with_InsulinPeriods (s : Settings) (ps : list InsulinPeriod)
  : Settings :=
  mkSettings (ID s) (UserID s) (TargetMin s) (TargetMax s) (IOBDuration s)
    ps (SensitivityPeriods s) (CarbRatioPeriods s) (UpdatedAt s).

(** [CreateDefaultSettings]; [now] is the value of [time.Now()]. *)
Definition CreateDefaultSettings (userID : string) (now : time.Time)
  : Settings :=
  {| ID := "";
     UserID := userID;
     TargetMin := 4.0;
     TargetMax := 8.0;
     IOBDuration := 4.0;
     InsulinPeriods := [ mkInsulinPeriod "00:00" 1.0 24 ];
     SensitivityPeriods := [ mkSensitivityPeriod "00:00" 2.0 24 ];
     CarbRatioPeriods := [ mkCarbRatioPeriod "00:00" 1.0 24 ];
     UpdatedAt := now |}.

Definition ConvertToInsulinPeriods (b : BaseInsulinCoefficients)
  : list InsulinPeriod :=
  [ mkInsulinPeriod "00:00" (Night b) 6;
    mkInsulinPeriod "06:00" (Morning b) 6;
    mkInsulinPeriod "12:00" (Afternoon b) 6;
    mkInsulinPeriod "18:00" (Evening b) 6 ].

(** The hour a period starts at, as both converters and the resolver
    read it: [strconv.Atoi(strings.Split(p.StartTime, ":")[0])]. *)
Definition startHourOf (startTime : string) : Z :=
  Go.Atoi (Go.before_colon startTime).

(** One iteration of the loop of [InsulinPeriodsToBaseCoefficients]. *)
Definition placePeriod (result : BaseInsulinCoefficients)
    (period : InsulinPeriod) : BaseInsulinCoefficients :=
  let startHour := startHourOf (StartTime period) in
  let endHour := Go.int_add startHour (Go.int_of_float64 (Hours period)) in
  if (0 <=? startHour) && (startHour <? 6) && (endHour <=? 6) then
    mkBase (Morning result) (Afternoon result) (Evening result)
      (Coefficient period)
  else if (6 <=? startHour) && (startHour <? 12) && (endHour <=? 12) then
    mkBase (Coefficient period) (Afternoon result) (Evening result)
      (Night result)
  else if (12 <=? startHour) && (startHour <? 18) && (endHour <=? 18) then
    mkBase (Morning result) (Coefficient period) (Evening result)
      (Night result)
  else if (18 <=? startHour) && (startHour <? 24) && (endHour <=? 24) then
    mkBase (Morning result) (Afternoon result) (Coefficient period)
      (Night result)
  else result.

Definition InsulinPeriodsToBaseCoefficients (periods : list InsulinPeriod)
  : BaseInsulinCoefficients :=
  fold_left placePeriod periods (mkBase 1.0 1.0 1.0 1.0).

Definition DefaultBaseCoefficients : list InsulinPeriod :=
  [ mkInsulinPeriod "00:00" 1.0 6;
    mkInsulinPeriod "06:00" 1.2 6;
    mkInsulinPeriod "12:00" 1.0 6;
    mkInsulinPeriod "18:00" 0.8 6 ].

End models.

(** ** [internal/services/insulin] *)

Module insulin.
Import models.
#[local] Open Scope float_scope.

Definition CalculateMealInsulin (carbGrams carbRatio timeCoefficient : float)
  : float :=
  let baseInsulin := carbGrams / carbRatio in
  baseInsulin * timeCoefficient.

Definition CalculateCorrectionInsulin
    (currentBG targetBG sensitivityFactor : float) : float :=
  let bgDifference := currentBG - targetBG in
  bgDifference / sensitivityFactor.

Definition CalculateTotalInsulin
    (mealInsulin correctionInsulin insulinOnBoard : float) : float :=
  let totalDose := mealInsulin + correctionInsulin - insulinOnBoard in
  Go.Max 0 totalDose.

Definition CalculateSensitivityFactor (totalDailyInsulin : float) : float :=
  100 / totalDailyInsulin / 18.

(** [calculateAverage]: the values are summed left to right from 0.0. *)
Definition calculateAverage (values : list float) : float :=
  match values with
  | [] => 0
  | _ =>
      let sum := fold_left PrimFloat.add values 0 in
      sum / Go.float64_of_len (length values)
  end.

Definition adjustCoefficient (avgBG targetBG currentCoefficient : float)
  : float :=
  if Go.Abs (avgBG - targetBG) <? 1.0 then currentCoefficient
  else
    let adjustmentFactor := targetBG / avgBG in
    let limitedAdjustment := Go.Max 0.8 (Go.Min 1.2 adjustmentFactor) in
    currentCoefficient * limitedAdjustment.

(** The four slices the grouping loop of [AdjustInsulinCoefficients]
    fills, in the order of the readings. *)
Record Buckets : Type := mkBuckets {
  morningReadings : list float;
  afternoonReadings : list float;
  eveningReadings : list float;
  nightReadings : list float
}.

Definition groupReading (b : Buckets) (reading : BloodSugarReading)
  : Buckets :=
  let hour := time.Hour (Timestamp reading) in
  if ((6 <=? hour) && (hour <? 12))%Z then
    mkBuckets (morningReadings b ++ [Value reading]) (afternoonReadings b)
      (eveningReadings b) (nightReadings b)
  else if ((12 <=? hour) && (hour <? 18))%Z then
    mkBuckets (morningReadings b) (afternoonReadings b ++ [Value reading])
      (eveningReadings b) (nightReadings b)
  else if ((18 <=? hour) && (hour <? 22))%Z then
    mkBuckets (morningReadings b) (afternoonReadings b)
      (eveningReadings b ++ [Value reading]) (nightReadings b)
  else
    mkBuckets (morningReadings b) (afternoonReadings b)
      (eveningReadings b) (nightReadings b ++ [Value reading]).

Definition groupReadings (readings : list BloodSugarReading) : Buckets :=
  fold_left groupReading readings (mkBuckets [] [] [] []).

(** One of the four [if len(...) >= 3] blocks. *)
Definition adjustBucket (bucket : list float) (targetBG current : float)
  : float :=
  if (3 <=? length bucket)%nat then
    adjustCoefficient (calculateAverage bucket) targetBG current
  else current.

Definition AdjustInsulinCoefficients (readings : list BloodSugarReading)
    (targetBG : float) (currentCoefficients : BaseInsulinCoefficients)
  : BaseInsulinCoefficients :=
  if (length readings <? 5)%nat then currentCoefficients
  else
    let b := groupReadings readings in
    {| Morning :=
         adjustBucket (morningReadings b) targetBG
           (Morning currentCoefficients);
       Afternoon :=
         adjustBucket (afternoonReadings b) targetBG
           (Afternoon currentCoefficients);
       Evening :=
         adjustBucket (eveningReadings b) targetBG
           (Evening currentCoefficients);
       Night :=
         adjustBucket (nightReadings b) targetBG
           (Night currentCoefficients) |}.

Definition GetTimeBasedCoefficient (currentTime : time.Time)
    (coefficients : BaseInsulinCoefficients) : float :=
  let hour := time.Hour currentTime in
  if ((6 <=? hour) && (hour <? 12))%Z then Morning coefficients
  else if ((12 <=? hour) && (hour <? 18))%Z then Afternoon coefficients
  else if ((18 <=? hour) && (hour <? 22))%Z then Evening coefficients
  else Night coefficients.

End insulin.

(** ** [internal/storage]: the in-memory store *)

Module storage.
Import models.

(** [InMemoryStorage.users]. *)
Abbreviation Store := (gmap string User).

(** A call either fails with Go's [error] or returns a value and the
    store it leaves. *)
Inductive result (A : Type) : Type :=
| Ok (a : A) (st : Store)
| Err (msg : string).
Arguments Ok {A} a st.
Arguments Err {A} msg.

Definition GetUser (st : Store) (userID : string) : option User :=
  st !! userID.

Definition CreateUser (st : Store) (user : User) : result unit :=
  if String.eqb (uUserID user) "" then Err "user ID cannot be empty"
  else
    match st !! uUserID user with
    | Some _ => Err "user already exists"
    | None =>
        Ok tt (<[uUserID user := mkUser (uUserID user) (uSettings user) []]> st)
    end.

(** [ensureValidSettingsMemory]; [now] is the value of [time.Now()]. *)
Definition ensureValidSettingsMemory (now : time.Time) (s : Settings)
  : Settings :=
  let d := CreateDefaultSettings (UserID s) now in
  let ips :=
    match InsulinPeriods s with [] => InsulinPeriods d | ps => ps end in
  let sps :=
    match SensitivityPeriods s with
    | [] => SensitivityPeriods d
    | ps => ps
    end in
  let cps :=
    match CarbRatioPeriods s with [] => CarbRatioPeriods d | ps => ps end in
  let upd := if time.IsZero (UpdatedAt s) then now else UpdatedAt s in
  let zeroRange := ((TargetMin s =? 0) && (TargetMax s =? 0))%float in
  let tmin := if zeroRange then 4.0%float else TargetMin s in
  let tmax := if zeroRange then 8.0%float else TargetMax s in
  let iob := if (IOBDuration s =? 0)%float then 4.0%float else IOBDuration s in
  mkSettings (ID s) (UserID s) tmin tmax iob ips sps cps upd.

Definition UpdateUserSettings (now : time.Time) (st : Store)
    (userID : string) (settings : Settings) : result unit :=
  match st !! userID with
  | None => Err "user not found"
  | Some user =>
      Ok tt (<[userID := mkUser (uUserID user)
                            (ensureValidSettingsMemory now settings)
                            (BloodSugarReadings user)]> st)
  end.

(** The new reading goes to the front: newest first. *)
Definition AddBloodSugarReading (st : Store) (userID : string)
    (reading : BloodSugarReading) : result unit :=
  match st !! userID with
  | None => Err "user not found"
  | Some user =>
      Ok tt (<[userID := mkUser (uUserID user) (uSettings user)
                            (reading :: BloodSugarReadings user)]> st)
  end.

Definition GetRecentBloodSugarReadings (st : Store) (userID : string)
    (limit : Z) (startDate : time.Time) : result (list BloodSugarReading) :=
  match st !! userID with
  | None => Err "user not found"
  | Some user =>
      let filteredReadings :=
        List.filter (fun reading =>
                  time.After (Timestamp reading) startDate
                  || time.Equal (Timestamp reading) startDate)
               (BloodSugarReadings user) in
      let limited :=
        if (0 <? limit) && (limit <? Z.of_nat (length filteredReadings))
        then firstn (Z.to_nat limit) filteredReadings
        else filteredReadings in
      Ok limited st
  end.

Definition UpdateUser (st : Store) (user : User) : result unit :=
  if String.eqb (uUserID user) "" then Err "user ID is required"
  else
    match st !! uUserID user with
    | None => Err "user not found"
    | Some _ => Ok tt (<[uUserID user := user]> st)
    end.

(** [SaveUserSettings]: the settings are stored as they are given; a user
    that does not exist yet is created without readings. *)
Definition SaveUserSettings (st : Store) (settings : Settings)
  : result unit :=
  if String.eqb (UserID settings) "" then Err "user ID is required"
  else
    match st !! UserID settings with
    | None =>
        Ok tt (<[UserID settings := mkUser (UserID settings) settings []]> st)
    | Some user =>
        Ok tt (<[UserID settings := mkUser (uUserID user) settings
                                      (BloodSugarReadings user)]> st)
    end.

Definition GetUserSettings (st : Store) (userID : string)
  : result Settings :=
  match st !! userID with
  | None => Err "user not found"
  | Some user => Ok (uSettings user) st
  end.

(** The loop of [DeleteBloodSugarReading]: the slice without its first
    reading taken at [t]; [None] when [found] stays false. *)
Fixpoint removeReading (t : time.Time) (readings : list BloodSugarReading)
  : option (list BloodSugarReading) :=
  match readings with
  | [] => None
  | reading :: rest =>
      if time.Equal (Timestamp reading) t then Some rest
      else
        match removeReading t rest with
        | Some rest' => Some (reading :: rest')
        | None => None
        end
  end.

Section Delete.

(** [time.Parse(time.RFC3339, .)] of Go's library: the instant the text
    denotes, or the text of the error. *)
Variable Parse : string -> time.Time + string.

Definition DeleteBloodSugarReading (st : Store) (userID timestamp : string)
  : result unit :=
  match Parse timestamp with
  | inr err => Err ("invalid timestamp format: " ++ err)
  | inl t =>
      match st !! userID with
      | None => Err "user not found"
      | Some user =>
          match removeReading t (BloodSugarReadings user) with
          | None => Err "no reading found with the specified timestamp"
          | Some rest =>
              Ok tt (<[userID := mkUser (uUserID user) (uSettings user)
                                   rest]> st)
          end
      end
  end.

End Delete.

Definition GetBloodSugarReadings (st : Store) (userID : string)
  : result (list BloodSugarReading) :=
  match st !! userID with
  | None => Err "user not found"
  | Some user => Ok (BloodSugarReadings user) st
  end.

(** [SaveBloodSugarReading]; [ctxUserID] is the string stored under
    ["userID"] in the context, if there is one. *)
Definition SaveBloodSugarReading (st : Store) (ctxUserID : option string)
    (reading : BloodSugarReading) : result unit :=
  match ctxUserID with
  | None => Err "userID not found in context"
  | Some userID =>
      match st !! userID with
      | None => Err "user not found"
      | Some user =>
          Ok tt (<[userID := mkUser (uUserID user) (uSettings user)
                               (reading :: BloodSugarReadings user)]> st)
      end
  end.

End storage.

(** ** [internal/handlers] *)

Module handlers.
Import models.

(** The values [time.Now()] takes at its call sites within one request. *)
Record Clock : Type := mkClock {
  nowDefaults : time.Time;   (* in [CreateDefaultSettings] *)
  nowReading : time.Time;    (* the new reading's timestamp; the hour of a
                                dose request *)
  nowWindow : time.Time;     (* the end of the seven-day look-back window *)
  nowUpdate : time.Time      (* in [ensureValidSettingsMemory] *)
}.

(** Go's [!=] on [float64]. *)
Definition float_ne (a b : float) : bool := negb (a =? b)%float.

Fixpoint areInsulinPeriodsEqual (a b : list InsulinPeriod) : bool :=
  match a, b with
  | [], [] => true
  | x :: a', y :: b' =>
      if negb (String.eqb (StartTime x) (StartTime y))
         || float_ne (Hours x) (Hours y)
         || float_ne (Coefficient x) (Coefficient y)
      then false
      else areInsulinPeriodsEqual a' b'
  | _, _ => false
  end.

Record BloodSugarRequest : Type := mkRequest {
  reqUserID : string;
  reqValue : float
}.

Record BloodSugarResponse : Type := mkResponse {
  respValue : float;
  respStatus : string;
  respTimestamp : time.Time;
  coefficientsAdjusted : bool;
  targetLevel : float
}.

(** What the handler writes: an error with its HTTP status, or the
    success body. *)
Inductive reply (A : Type) : Type :=
| Respond (body : A)
| Fail (code : Z) (msg : string).
Arguments Respond {A} body.
Arguments Fail {A} code msg.

Definition statusOf (value : float) : string :=
  if (value <? 3.9)%float then "Low blood sugar (hypoglycemia)"
  else if (10.0 <? value)%float then "High blood sugar (hyperglycemia)"
  else if (7.0 <? value)%float then "Slightly elevated"
  else "Normal range".

(** [SaveBloodSugar], from the decoded request on.  [user] points into
    the store when the user exists and is a fresh value otherwise; its
    [Settings] field is the same in both cases until the handler assigns
    to it, and only that field is read again. *)
Definition SaveBloodSugar (clk : Clock) (st : storage.Store)
    (req : BloodSugarRequest)
  : reply BloodSugarResponse * storage.Store :=
  if String.eqb (reqUserID req) "" then (Fail 400 "Missing user ID", st)
  else if (reqValue req <=? 0)%float then
    (Fail 400 "Invalid blood sugar value", st)
  else
    let created :=
      match storage.GetUser st (reqUserID req) with
      | Some user => storage.Ok user st
      | None =>
          let user :=
            mkUser (reqUserID req)
              (CreateDefaultSettings (reqUserID req) (nowDefaults clk)) [] in
          match storage.CreateUser st user with
          | storage.Ok _ st1 => storage.Ok user st1
          | storage.Err e => storage.Err e
          end
      end in
    match created with
    | storage.Err e => (Fail 500 ("Error creating user: " ++ e), st)
    | storage.Ok user st1 =>
        let reading := mkReading (reqValue req) (nowReading clk) "" in
        match storage.AddBloodSugarReading st1 (reqUserID req) reading with
        | storage.Err e => (Fail 500 ("Error saving reading: " ++ e), st1)
        | storage.Ok _ st2 =>
            let status := statusOf (reqValue req) in
            let oneWeekAgo := time.AddDays (nowWindow clk) (-7) in
            match storage.GetRecentBloodSugarReadings st2 (reqUserID req) 0
                    oneWeekAgo with
            | storage.Err e =>
                (Fail 500 ("Error fetching readings: " ++ e), st2)
            | storage.Ok recentReadings _ =>
                let settings := uSettings user in
                let respond adjusted st' :=
                  (Respond (mkResponse (reqValue req) status
                              (Timestamp reading) adjusted
                              (TargetMin settings)), st') in
                if (5 <=? length recentReadings)%nat
                   && (0 <? TargetMin settings)%float
                then
                  let legacyCoefficients :=
                    InsulinPeriodsToBaseCoefficients
                      (InsulinPeriods settings) in
                  let adjustedLegacyCoefficients :=
                    insulin.AdjustInsulinCoefficients recentReadings
                      (TargetMin settings) legacyCoefficients in
                  let adjustedPeriods :=
                    ConvertToInsulinPeriods adjustedLegacyCoefficients in
                  if negb (areInsulinPeriodsEqual (InsulinPeriods settings)
                             adjustedPeriods)
                  then
                    match storage.UpdateUserSettings (nowUpdate clk) st2
                            (reqUserID req)
                            (with_InsulinPeriods settings adjustedPeriods)
                    with
                    | storage.Err e =>
                        (Fail 500 ("Error updating settings: " ++ e), st2)
                    | storage.Ok _ st3 => respond true st3
                    end
                  else respond false st2
                else respond false st2
            end
        end
    end.

(** The period scan of [AnalyzeFood]: the loop over
    [userSettings.InsulinPeriods], leaving [periodCoefficient] at 1.0
    when no period contains [hour]. *)
Fixpoint periodCoefficient (periods : list InsulinPeriod) (hour : Z)
  : float :=
  match periods with
  | [] => 1.0%float
  | period :: rest =>
      let startHour := startHourOf (StartTime period) in
      if (startHour <=? hour)
         && (hour <? Go.int_add startHour (Go.int_of_float64 (Hours period)))
      then Coefficient period
      else periodCoefficient rest hour
  end.

Record Dose : Type := mkDose {
  mealInsulin : float;
  correctionInsulin : float;
  totalInsulin : float;
  dosePeriodCoefficient : float
}.

(** The dose computation of [AnalyzeFood], from the analysed
    carbohydrates on.  [None] is Go's run-time panic on indexing an empty
    slice. *)
Definition computeDose (userSettings : Settings) (carbs : float) (hour : Z)
    (lastReading : list BloodSugarReading) : option Dose :=
  match CarbRatioPeriods userSettings with
  | [] => None
  | cr0 :: _ =>
      let mealInsulin0 := (carbs / Ratio cr0)%float in
      let coefficient := periodCoefficient (InsulinPeriods userSettings) hour in
      let mealInsulin := (mealInsulin0 * coefficient)%float in
      let correction : option float :=
        match lastReading with
        | [] => Some 0%float
        | last :: _ =>
            if (0 <? TargetMin userSettings)%float then
              match SensitivityPeriods userSettings with
              | [] => None
              | sp0 :: _ =>
                  if (0 <? Sensitivity sp0)%float then
                    let bloodSugarDiff :=
                      (Value last - TargetMin userSettings)%float in
                    if (0 <? bloodSugarDiff)%float
                    then Some (bloodSugarDiff / Sensitivity sp0)%float
                    else Some 0%float
                  else Some 0%float
              end
            else Some 0%float
        end in
      match correction with
      | None => None
      | Some correctionInsulin =>
          Some (mkDose mealInsulin correctionInsulin
                  (mealInsulin + correctionInsulin)%float coefficient)
      end
  end.

(** [AnalyzeFood] after the photo has been analysed: the user's settings
    (the defaults when the user is unknown), the current hour and the
    most recent reading of the last week feed [computeDose]. *)
Definition AnalyzeFood (clk : Clock) (st : storage.Store) (userId : string)
    (carbs : float) : option Dose :=
  let userSettings :=
    match storage.GetUser st userId with
    | Some user => uSettings user
    | None => CreateDefaultSettings userId (nowDefaults clk)
    end in
  let hour := time.Hour (nowReading clk) in
  let lastReading :=
    match storage.GetRecentBloodSugarReadings st userId 1
            (time.AddDays (nowWindow clk) (-7)) with
    | storage.Ok rs _ => rs
    | storage.Err _ => []
    end in
  computeDose userSettings carbs hour lastReading.

(** [GetUserSettings]. *)
Definition GetUserSettings (st : storage.Store) (userId : string)
  : reply Settings :=
  match storage.GetUser st userId with
  | None => Fail 404 "User not found"
  | Some user => Respond (uSettings user)
  end.

(** [SaveUserSettings], from the decoded body on: [decoded] is [None]
    when the JSON decoder fails.  The answer to a preflight request has
    no body. *)
Definition SaveUserSettings (now : time.Time) (st : storage.Store)
    (method userID : string) (decoded : option Settings)
  : reply (option string) * storage.Store :=
  if String.eqb method "OPTIONS" then (Respond None, st)
  else if String.eqb userID "" then (Fail 400 "User ID is required", st)
  else
    match decoded with
    | None => (Fail 400 "Invalid settings data", st)
    | Some body =>
        let settings :=
          mkSettings (ID body) userID (TargetMin body) (TargetMax body)
            (IOBDuration body) (InsulinPeriods body)
            (SensitivityPeriods body) (CarbRatioPeriods body) now in
        if ((TargetMin settings =? 0) || (TargetMax settings =? 0)
            || (IOBDuration settings =? 0))%float
        then
          (Fail 400 "Target blood sugar range and IOB duration are required",
           st)
        else if (length (InsulinPeriods settings) =? 0)%nat
                || (length (SensitivityPeriods settings) =? 0)%nat
                || (length (CarbRatioPeriods settings) =? 0)%nat
        then (Fail 400 "At least one period is required for each type", st)
        else
          match storage.SaveUserSettings st settings with
          | storage.Err _ => (Fail 500 "Error saving settings", st)
          | storage.Ok _ st1 =>
              (Respond (Some "Settings saved successfully"), st1)
          end
    end.

Section Parsers.

(** [time.Parse(time.RFC3339, .)] and [strconv.ParseFloat(., 64)] of Go's
    library; the latter's value when its error is nil. *)
Variable Parse : string -> time.Time + string.
Variable ParseFloat : string -> option float.

(** [GetBloodSugarReadings]; [limitStr] and [startDateStr] are the query
    parameters, empty when absent. *)
Definition GetBloodSugarReadings (now : time.Time) (st : storage.Store)
    (userId limitStr startDateStr : string)
  : reply (list BloodSugarReading) :=
  let limit :=
    if String.eqb limitStr "" then Some 0
    else if Go.Atoi_ok limitStr then Some (Go.Atoi limitStr)
    else None in
  match limit with
  | None => Fail 400 "Invalid limit parameter"
  | Some limit =>
      let startDate :=
        if String.eqb startDateStr "" then Some (time.AddDays now (-7))
        else
          match Parse startDateStr with
          | inl t => Some t
          | inr _ => None
          end in
      match startDate with
      | None => Fail 400 "Invalid startDate parameter"
      | Some startDate =>
          match storage.GetRecentBloodSugarReadings st userId limit
                  startDate with
          | storage.Err e => Fail 500 ("Error fetching readings: " ++ e)
          | storage.Ok readings _ => Respond readings
          end
      end
  end.

Record LibreRequest : Type := mkLibreRequest {
  libUserID : string;
  libMethod : string;
  libValue : string
}.

(** [SyncLibre], from the decoded request on. *)
Definition SyncLibre (now : time.Time) (st : storage.Store)
    (req : LibreRequest) : reply BloodSugarReading * storage.Store :=
  if String.eqb (libUserID req) "" || String.eqb (libMethod req) "" then
    (Fail 400 "Missing required fields", st)
  else
    match storage.GetUser st (libUserID req) with
    | None => (Fail 404 "User not found", st)
    | Some _ =>
        if negb (String.eqb (libMethod req) "manual") then
          (Fail 400 "Only manual entry is supported", st)
        else if String.eqb (libValue req) "" then
          (Fail 400 "Blood sugar value is required for manual entry", st)
        else
          match ParseFloat (libValue req) with
          | None => (Fail 400 "Invalid blood sugar value", st)
          | Some value =>
              let reading := mkReading value now "" in
              match storage.AddBloodSugarReading st (libUserID req)
                      reading with
              | storage.Err e =>
                  (Fail 500 ("Error saving reading: " ++ e), st)
              | storage.Ok _ st1 => (Respond reading, st1)
              end
          end
    end.

Record DeleteRequest : Type := mkDeleteRequest {
  delUserID : string;
  delTimestamp : string
}.

(** [DeleteBloodSugar], from the decoded request on. *)
Definition DeleteBloodSugar (st : storage.Store) (req : DeleteRequest)
  : reply string * storage.Store :=
  if String.eqb (delUserID req) "" then (Fail 400 "Missing user ID", st)
  else if String.eqb (delTimestamp req) "" then
    (Fail 400 "Missing or invalid timestamp", st)
  else
    match storage.DeleteBloodSugarReading Parse st (delUserID req)
            (delTimestamp req) with
    | storage.Err e =>
        if String.eqb e "user not found" then
          (Fail 404 "User not found", st)
        else if String.eqb e "no reading found with the specified timestamp"
        then (Fail 404 "Blood sugar reading not found", st)
        else (Fail 500 ("Error deleting reading: " ++ e), st)
    | storage.Ok _ st1 =>
        (Respond "Blood sugar reading successfully deleted", st1)
    end.

End Parsers.

End handlers.

(** ** [web/app.js]: the period validator *)

Module web.

(** A row of a period editor, as [getInsulinPeriods],
    [getSensitivityPeriods] and [getCarbRatioPeriods] return it. *)
Record Period : Type := mkPeriod {
  startHour : float;
  endHour : float;
  name : string;
  coefficient : float
}.

(** What the three getters read from the page. *)
Record Page : Type := mkPage {
  insulinPeriods : list Period;
  sensitivityPeriods : list Period;
  carbRatioPeriods : list Period
}.

(** The total-hours display element after the call, and the alert shown. *)
Record Shown : Type := mkShown {
  displayId : string;
  className : string;
  textContent : string;
  alert : option string
}.

(** [validatePeriods] returns a boolean, or throws a [TypeError] when
    [type] names no editor and the display element is [undefined]. *)
Inductive outcome : Type :=
| Returned (ok : bool) (shown : Shown)
| TypeError.

(** The accumulation of [periods.forEach]. *)
Definition totalHours (periods : list Period) : float :=
  fold_left (fun total period =>
               (total + (endHour period - startHour period))%float)
            periods 0%float.

Section Validator.

(** [Number.prototype.toFixed], a built-in of the JavaScript engine. *)
Variable toFixed : float -> Z -> string.

Definition validateWith (type displayId : string) (periods : list Period)
  : outcome :=
  let total := totalHours periods in
  if (total =? 24)%float then
    Returned true
      (mkShown displayId "text-success"
         "Сумма периодов: 24 часа (правильно)" None)
  else
    Returned false
      (mkShown displayId "text-danger"
         ("Текущая сумма: " ++ toFixed total 2
            ++ " часов из 24 необходимых")
         (Some ("Периоды " ++ type
                  ++ " не покрывают 24 часа. Текущая сумма: "
                  ++ toFixed total 2 ++ " часов")%string)).

Definition validatePeriods (page : Page) (type : string) : outcome :=
  if String.eqb type "insulin" then
    validateWith type "total-hours-display" (insulinPeriods page)
  else if String.eqb type "sensitivity" then
    validateWith type "sensitivity-total-hours-display"
      (sensitivityPeriods page)
  else if String.eqb type "carb-ratio" then
    validateWith type "carb-ratio-total-hours-display"
      (carbRatioPeriods page)
  else TypeError.

End Validator.

End web.

(** ** [internal/services/ai]: finding the JSON object in a reply *)

Module ai.

(** The variables of the loop of [extractJSONFromText]. *)
Record Scan : Type := mkScan {
  start : Z;
  braceCount : Z;
  inString : bool;
  escape : bool
}.

Definition quote : ascii := "034"%char.
Definition backslash : ascii := "092"%char.

(** The loop, from byte offset [i] on; the result is [start] and [end]
    as the loop leaves them.  The loop ranges over the runes of the text;
    the four characters it tests for are single bytes that occur in no
    longer rune, so that it does the same byte by byte. *)
Fixpoint scan (text : string) (i : Z) (s : Scan) : Z * Z :=
  match text with
  | EmptyString => (start s, -1)
  | String char rest =>
      let inString' :=
        if Ascii.eqb char quote && negb (escape s) then negb (inString s)
        else inString s in
      let escape' := Ascii.eqb char backslash && negb (escape s) in
      if negb inString' then
        if Ascii.eqb char "{"%char then
          let start' := if braceCount s =? 0 then i else start s in
          scan rest (i + 1) (mkScan start' (braceCount s + 1) inString' escape')
        else if Ascii.eqb char "}"%char then
          let braceCount' := braceCount s - 1 in
          if braceCount' =? 0 then (start s, i)
          else scan rest (i + 1) (mkScan (start s) braceCount' inString' escape')
        else scan rest (i + 1) (mkScan (start s) (braceCount s) inString' escape')
      else scan rest (i + 1) (mkScan (start s) (braceCount s) inString' escape')
  end.

(** [extractJSONFromText]: the object found, or the error. *)
Definition extractJSONFromText (text : string) : string + string :=
  let '(start, end_) := scan text 0 (mkScan (-1) 0 false false) in
  if (0 <=? start) && (start <? end_) then
    inl (substring (Z.to_nat start) (Z.to_nat (end_ + 1 - start)) text)
  else inr "no JSON object found in text".

End ai.

(** ** [internal/services/libre]: the simulated sources of readings *)

Module libre.
Import models.
#[local] Open Scope float_scope.

(** The reading appended in iteration [i] of the loop of
    [GetReadingsFromNightscout]; [now i] is the value of [time.Now()]
    there. *)
Definition nightscoutReading (now : Z -> time.Time) (i : Z)
  : BloodSugarReading :=
  let baseValue := 5.5 in
  let variation := Go.float64_of_Z (i mod 5) * 0.4 in
  mkReading (baseValue + variation)
    (time.Add (now i) (Go.wrap64 (Go.wrap64 (- i) * time.nanosPerHour))) "".

Definition GetReadingsFromNightscout (now : Z -> time.Time)
    (nightscoutURL apiSecret : string) (count : Z)
  : list BloodSugarReading + string :=
  if String.eqb nightscoutURL "" then inr "Nightscout URL is required"
  else
    let count := if (count <=? 0)%Z then 10%Z else count in
    inl (map (fun i => nightscoutReading now (Z.of_nat i))
           (seq 0 (Z.to_nat count))).

End libre.

(** * Vocabulary of the properties *)

Import models.

(** ** The period scan *)

(** Whether the scan of [AnalyzeFood] stops at [period] for [hour]. *)
Definition covers (hour : Z) (period : InsulinPeriod) : bool :=
  let startHour := startHourOf (StartTime period) in
  (startHour <=? hour)
  && (hour <? Go.int_add startHour (Go.int_of_float64 (Hours period))).

(** [float64(z)] for an [int] below 2^63 in magnitude. *)
Definition float64_of_int (z : Z) : float :=
  if z <? 0 then (- Go.float64_of_Z (- z))%float else Go.float64_of_Z z.

(** Whether [hour] lies in the declared range of [period], the duration
    taken as the fractional number of hours it is declared as. *)
Definition in_declared_range (hour : Z) (period : InsulinPeriod) : bool :=
  let startHour := startHourOf (StartTime period) in
  (startHour <=? hour)
  && (float64_of_int hour <? float64_of_int startHour + Hours period)%float.

(** The resolver in the specification's words: the first period whose
    declared range contains the hour, 1.0 when there is none. *)
Definition resolve_declared (periods : list InsulinPeriod) (hour : Z)
  : float :=
  match find (in_declared_range hour) periods with
  | Some period => Coefficient period
  | None => 1.0%float
  end.

Definition quadrantSet : list InsulinPeriod :=
  [ mkInsulinPeriod "00:00" 1.0 6; mkInsulinPeriod "06:00" 1.2 6;
    mkInsulinPeriod "12:00" 1.0 6; mkInsulinPeriod "18:00" 1.1 6 ].

Definition ninetyMinutes : list InsulinPeriod :=
  [ mkInsulinPeriod "06:00" 1.2 1.5 ].

(** The same hour-based lookup, applied to the carb-ratio and the
    sensitivity sets. *)
Definition hourIn (hour : Z) (startTime : string) (hours : float) : bool :=
  let startHour := startHourOf startTime in
  (startHour <=? hour)
  && (hour <? Go.int_add startHour (Go.int_of_float64 hours)).

Definition ratioAt (periods : list CarbRatioPeriod) (hour : Z)
  : option float :=
  option_map Ratio
    (find (fun p => hourIn hour (cStartTime p) (cHours p)) periods).

Definition sensitivityAt (periods : list SensitivityPeriod) (hour : Z)
  : option float :=
  option_map Sensitivity
    (find (fun p => hourIn hour (sStartTime p) (sHours p)) periods).

(** Settings that split the day in two for the carb ratio and for the
    sensitivity. *)
Definition halfDaySettings : Settings :=
  {| ID := ""; UserID := "u";
     TargetMin := 6.0; TargetMax := 8.0; IOBDuration := 4.0;
     InsulinPeriods := quadrantSet;
     SensitivityPeriods :=
       [ mkSensitivityPeriod "00:00" 2.0 12;
         mkSensitivityPeriod "12:00" 1.0 12 ];
     CarbRatioPeriods :=
       [ mkCarbRatioPeriod "00:00" 12.0 12;
         mkCarbRatioPeriod "12:00" 10.0 12 ];
     UpdatedAt := time.at_hour 1 0 |}.

(** ** The dose *)

(** [max(0, t)] on binary64: [t] when it is positive, 0 when it is zero
    or negative, and no number when [t] is none. *)
Definition max0 (t : float) : float :=
  if (0 <? t)%float then t else if (t <=? 0)%float then 0%float else nan.

(** ** The tuner *)

(** A reading taken on day 10 at the given hour. *)
Definition readingAt (value : float) (hour : Z) : BloodSugarReading :=
  mkReading value (time.at_hour 10 hour) "".

(** A bucket the tuner leaves alone: fewer than three readings, or a mean
    within 1.0 of the target. *)
Definition settled (targetBG : float) (bucket : list float) : Prop :=
  (3 <= length bucket)%nat ->
  (Go.Abs (insulin.calculateAverage bucket - targetBG) <? 1.0)%float = true.

Definition unit_coefficients : BaseInsulinCoefficients :=
  mkBase 1.0 1.0 1.0 1.0.

Definition fourReadings : list BloodSugarReading :=
  [ readingAt 9 8; readingAt 9.5 8; readingAt 10 9; readingAt 12 10 ].

(** Five morning readings with mean 6.5. *)
Definition nearTarget : list BloodSugarReading :=
  [ readingAt 6.5 8; readingAt 6.5 8; readingAt 6.5 9; readingAt 6.5 10;
    readingAt 6.5 11 ].

(** Three morning readings with mean 9.5 and two afternoon readings. *)
Definition highMorning : list BloodSugarReading :=
  [ readingAt 9 8; readingAt 9.5 8; readingAt 10 9; readingAt 6 13;
    readingAt 6 14 ].

(** [x] is a number: not a NaN. *)
Definition is_number (x : float) : Prop := (x =? x)%float = true.

(** [new] lies between 0.8 times and 1.2 times [old]; of the two, the
    second is the smaller one when [old] is negative. *)
Definition within_step (old new : float) : Prop :=
  ((old * 0.8 <=? new)%float = true /\ (new <=? old * 1.2)%float = true)
  \/ ((old * 1.2 <=? new)%float = true /\ (new <=? old * 0.8)%float = true).

(** [clamp(targetBG / avg, 0.8, 1.2)], as [adjustCoefficient] computes
    it. *)
Definition limitedAdjustment (targetBG avgBG : float) : float :=
  Go.Max 0.8 (Go.Min 1.2 (targetBG / avgBG)).

(** Whether the tuner rescales the coefficient of [bucket]: five readings
    in all, three in the bucket, and a mean at least 1.0 away from the
    target. *)
Definition rescales (readings : list BloodSugarReading) (targetBG : float)
    (bucket : list float) : bool :=
  (5 <=? length readings)%nat && (3 <=? length bucket)%nat
  && negb (Go.Abs (insulin.calculateAverage bucket - targetBG) <? 1.0)%float.

(** The coefficient the specification's summary states for a bucket:
    rescaled whenever the bucket holds three readings. *)
Definition stated_coefficient (targetBG : float) (bucket : list float)
    (old : float) : float :=
  if (3 <=? length bucket)%nat
  then (old * limitedAdjustment targetBG (insulin.calculateAverage bucket))%float
  else old.

(** What one invocation does to the coefficient of one bucket. *)
Definition tuned (readings : list BloodSugarReading) (targetBG : float)
    (bucket : list float) (old new : float) : Prop :=
  new = (if rescales readings targetBG bucket
         then (old * limitedAdjustment targetBG
                       (insulin.calculateAverage bucket))%float
         else old)
  /\ within_step old new.

Definition all_buckets (P : list float -> Prop) (b : insulin.Buckets) : Prop :=
  P (insulin.morningReadings b) /\ P (insulin.afternoonReadings b)
  /\ P (insulin.eveningReadings b) /\ P (insulin.nightReadings b).

Definition bucketTotal (b : insulin.Buckets) : nat :=
  (length (insulin.morningReadings b) + length (insulin.afternoonReadings b)
   + length (insulin.eveningReadings b) + length (insulin.nightReadings b))%nat.

(** ** Reading ingestion *)

Definition requestClock : handlers.Clock :=
  handlers.mkClock (time.at_hour 10 8) (time.at_hour 10 8)
    (time.at_hour 10 8) (time.at_hour 10 8).

(** A user still on the default settings, with four readings at the
    target of 4.0 taken an hour before the request. *)
Definition defaultUser : User :=
  mkUser "u" (CreateDefaultSettings "u" (time.at_hour 1 0))
    [ readingAt 4.0 7; readingAt 4.0 7; readingAt 4.0 7; readingAt 4.0 7 ].

Definition defaultStore : storage.Store := {[ "u" := defaultUser ]}.

Definition fifthReading : handlers.BloodSugarRequest :=
  handlers.mkRequest "u" 4.0.

Definition responseBody {A : Type} (r : handlers.reply A) : option A :=
  match r with
  | handlers.Respond body => Some body
  | handlers.Fail _ _ => None
  end.

(** ** The validator *)

(** What a call reports: its verdict and the text it leaves in the
    total-hours display. *)
Definition reported (o : web.outcome) : option (bool * string) :=
  match o with
  | web.Returned ok shown => Some (ok, web.textContent shown)
  | web.TypeError => None
  end.

Definition verdictText (toFixed : float -> Z -> string) (total : float)
  : string :=
  if (total =? 24)%float then "Сумма периодов: 24 часа (правильно)"
  else ("Текущая сумма: " ++ toFixed total 2
          ++ " часов из 24 необходимых")%string.

(** The sum of the periods' durations, each the end hour less the start
    hour, added one after the other to [total] in the order of the
    collection. *)
Fixpoint sumFrom (total : float) (periods : list web.Period) : float :=
  match periods with
  | [] => total
  | period :: rest =>
      sumFrom (total + (web.endHour period - web.startHour period))%float
        rest
  end.

Definition durationSum (periods : list web.Period) : float :=
  sumFrom 0%float periods.

(** Four rows that split the day at 6, 12 and 18 o'clock, and three rows
    that leave the night out. *)
Definition quadrantRows : list web.Period :=
  [ web.mkPeriod 0 6 "night" 1.0; web.mkPeriod 6 12 "morning" 1.2;
    web.mkPeriod 12 18 "afternoon" 1.0; web.mkPeriod 18 24 "evening" 1.1 ].

Definition dayRows : list web.Period :=
  [ web.mkPeriod 6 12 "morning" 1.2; web.mkPeriod 12 18 "afternoon" 1.0;
    web.mkPeriod 18 24 "evening" 1.1 ].

(** ** Binary64 magnitudes as integers *)

(** A positive finite magnitude [m * 2^e] with [e >= -2148] is kept as the
    integer [m * 2^(e + 2148)]: the exponent of a product of two binary64
    values is at least [2 * -1074]. *)
Definition scale : Z := 2148.

Definition sval (m : positive) (e : Z) : Z := Zpos m * 2 ^ (e + scale).

(** The magnitude of one binary64 value, as [m * 2^(e + 1074)]. *)
Definition hval (m : positive) (e : Z) : Z := Zpos m * 2 ^ (e + 1074).

(** [fexp] of the binary64 format. *)
Definition fexp64 (x : Z) : Z := Z.max (x - 53) (-1074).

(** The exponent of the grid a scaled magnitude rounds to: 53 significant
    bits, and no finer than the subnormal spacing. *)
Definition grid (X : Z) : Z := Z.max (Z.log2 X + 1 - 53) 1074.

(** [X / 2^k] rounded to the nearest integer, ties to even. *)
Definition rne (X k : Z) : Z :=
  let q := X / 2 ^ k in
  let r := X mod 2 ^ k in
  let h := 2 ^ (k - 1) in
  if r <? h then q
  else if r =? h then (if Z.even q then q else q + 1)
  else q + 1.

(** [X] rounded to its grid. *)
Definition rnd (X : Z) : Z := rne X (grid X) * 2 ^ grid X.

(** [o] is the binary64 value the scaled magnitude [X] rounds to: zero on
    underflow, the infinity on overflow. *)
Definition rounds_to (o : spec_float) (X : Z) : Prop :=
  match o with
  | S754_zero s => s = false /\ rnd X = 0
  | S754_finite s m e => s = false /\ -1074 <= e /\ sval m e = rnd X
  | S754_infinity s => s = false /\ 2 ^ (1024 + scale) <= rnd X
  | S754_nan => False
  end.

(** Zeros of either sign, positive finite values and the positive
    infinity: the values with [0 <= x]. *)
Definition sf_nonneg (x : spec_float) : Prop :=
  match x with
  | S754_zero _ | S754_infinity false | S754_finite false _ _ => True
  | _ => False
  end.

(** Case analysis on the binary64 value [t] against the constant 0. *)
Ltac sf_cases t :=
  rewrite ?FloatAxioms.ltb_spec, ?FloatAxioms.leb_spec,
    ?FloatAxioms.eqb_spec in *;
  change (Prim2SF 0) with (S754_zero false) in *;
  destruct (Prim2SF t) as [[]|[]| |[] ? ?]; simpl in *;
  try discriminate; try reflexivity.

(** ** The store *)

(** A reading taken at [startDate] or later. *)
Definition since (startDate : time.Time) (reading : BloodSugarReading)
  : Prop :=
  time.wall startDate <= time.wall (Timestamp reading).

(** No reading of the list was taken at [t]. *)
Definition none_at (t : time.Time) (readings : list BloodSugarReading)
  : Prop :=
  Forall (fun reading => time.Equal (Timestamp reading) t = false) readings.

(** A parser that reads every text as the instant [t]. *)
Definition parsesTo (t : time.Time) : string -> time.Time + string :=
  fun _ => inl t.

(** Settings the dose computation can index: no period set is empty. *)
Definition indexable (s : Settings) : Prop :=
  InsulinPeriods s <> [] /\ SensitivityPeriods s <> []
  /\ CarbRatioPeriods s <> [].


(** ** A reading request, step by step *)

(** The record [SaveBloodSugar] works on: the stored one, or a fresh one
    on the default settings for a user the store does not know. *)
Definition recordOf (clk : handlers.Clock) (st : storage.Store)
    (userID : string) : User :=
  match st !! userID with
  | Some user => user
  | None =>
      mkUser userID (CreateDefaultSettings userID (handlers.nowDefaults clk))
        []
  end.

Definition newReading (clk : handlers.Clock)
    (req : handlers.BloodSugarRequest) : BloodSugarReading :=
  mkReading (handlers.reqValue req) (handlers.nowReading clk) "".

(** The user's readings of the last seven days, the new one first. *)
Definition lastWeek (clk : handlers.Clock) (st : storage.Store)
    (req : handlers.BloodSugarRequest) : list BloodSugarReading :=
  let oneWeekAgo := time.AddDays (handlers.nowWindow clk) (-7) in
  List.filter (fun reading =>
                 time.After (Timestamp reading) oneWeekAgo
                 || time.Equal (Timestamp reading) oneWeekAgo)
    (newReading clk req
       :: BloodSugarReadings (recordOf clk st (handlers.reqUserID req))).

(** The coefficients the tuner returns for them. *)
Definition tunedCoefficients (clk : handlers.Clock) (st : storage.Store)
    (req : handlers.BloodSugarRequest) : BaseInsulinCoefficients :=
  let settings := uSettings (recordOf clk st (handlers.reqUserID req)) in
  insulin.AdjustInsulinCoefficients (lastWeek clk st req) (TargetMin settings)
    (InsulinPeriodsToBaseCoefficients (InsulinPeriods settings)).

(** Whether the request rewrites the stored period set. *)
Definition rewrites (clk : handlers.Clock) (st : storage.Store)
    (req : handlers.BloodSugarRequest) : bool :=
  let settings := uSettings (recordOf clk st (handlers.reqUserID req)) in
  (5 <=? length (lastWeek clk st req))%nat
  && (0 <? TargetMin settings)%float
  && negb (handlers.areInsulinPeriodsEqual (InsulinPeriods settings)
             (ConvertToInsulinPeriods (tunedCoefficients clk st req))).

(** The four coefficients are numbers. *)
Definition numbers (b : BaseInsulinCoefficients) : Prop :=
  is_number (Morning b) /\ is_number (Afternoon b)
  /\ is_number (Evening b) /\ is_number (Night b).

(** A user on quadrant settings (target 6.0) with five morning readings
    of 6.5. *)
Definition quadrantUser : User := mkUser "u" halfDaySettings nearTarget.

Definition quadrantStore : storage.Store := {[ "u" := quadrantUser ]}.

Definition sixthReading : handlers.BloodSugarRequest :=
  handlers.mkRequest "u" 6.5.

(** ** Quotients of binary64 values *)

(** The position of a remainder against one half, in quarters: 0 when
    there is none, 1 below one half, 2 at one half, 3 above. *)
Definition quarters (l : location) : Z :=
  match l with
  | loc_Exact => 0
  | loc_Inexact Lt => 1
  | loc_Inexact Eq => 2
  | loc_Inexact Gt => 3
  end.

(** ** The requests that change the store *)

Inductive request : Type :=
| PostSettings (now : time.Time) (method userID : string)
    (decoded : option Settings)
| PostBloodSugar (clk : handlers.Clock) (req : handlers.BloodSugarRequest)
| PostSyncLibre (now : time.Time) (req : handlers.LibreRequest)
| DeleteBloodSugar (req : handlers.DeleteRequest).

Section Server.

Variable Parse : string -> time.Time + string.
Variable ParseFloat : string -> option float.

(** The store a request leaves. *)
Definition serve (st : storage.Store) (r : request) : storage.Store :=
  match r with
  | PostSettings now method userID decoded =>
      snd (handlers.SaveUserSettings now st method userID decoded)
  | PostBloodSugar clk req => snd (handlers.SaveBloodSugar clk st req)
  | PostSyncLibre now req => snd (handlers.SyncLibre ParseFloat now st req)
  | DeleteBloodSugar req => snd (handlers.DeleteBloodSugar Parse st req)
  end.

(** The store after a sequence of requests to a server that starts
    empty. *)
Definition served (requests : list request) : storage.Store :=
  fold_left serve requests ∅.

End Server.

(** Every stored user has settings the dose computation can index. *)
Definition all_indexable (st : storage.Store) : Prop :=
  forall userID user,
    st !! userID = Some user -> indexable (uSettings user).

(** The settings a settings request stores: the decoded body under the
    user id of the path, stamped with the time of the request. *)
Definition stamped (now : time.Time) (userID : string) (body : Settings)
  : Settings :=
  mkSettings (ID body) userID (TargetMin body) (TargetMax body)
    (IOBDuration body) (InsulinPeriods body) (SensitivityPeriods body)
    (CarbRatioPeriods body) now.

(** The checks of a settings request: a user id, a target range and an
    insulin duration other than 0, and no empty period set. *)
Definition acceptable (userID : string) (body : Settings) : bool :=
  negb (String.eqb userID "")
  && negb ((TargetMin body =? 0) || (TargetMax body =? 0)
           || (IOBDuration body =? 0))%float
  && negb ((length (InsulinPeriods body) =? 0)%nat
           || (length (SensitivityPeriods body) =? 0)%nat
           || (length (CarbRatioPeriods body) =? 0)%nat).

(** The readings stored for a user; none for an unknown user. *)
Definition readingsOf (st : storage.Store) (userID : string)
  : list BloodSugarReading :=
  match st !! userID with
  | Some user => BloodSugarReadings user
  | None => []
  end.


(** ** Quadrants *)

(** A reading taken at an hour from [lo] up to, not including, [hi]. *)
Definition takenBetween (lo hi : Z) (reading : BloodSugarReading) : bool :=
  (lo <=? time.Hour (Timestamp reading))
  && (time.Hour (Timestamp reading) <? hi).

(** A period that starts in the quadrant from [lo] to [hi] and ends in
    it, as [InsulinPeriodsToBaseCoefficients] tests it. *)
Definition within (lo hi : Z) (period : InsulinPeriod) : bool :=
  let startHour := startHourOf (StartTime period) in
  let endHour := Go.int_add startHour (Go.int_of_float64 (Hours period)) in
  (lo <=? startHour) && (startHour <? hi) && (endHour <=? hi).

(** The coefficient of the last period of the list within the quadrant,
    1.0 when there is none. *)
Definition lastWithin (lo hi : Z) (periods : list InsulinPeriod) : float :=
  match find (within lo hi) (rev periods) with
  | Some period => Coefficient period
  | None => 1.0%float
  end.

(** ** Objects in a text *)

(** The rest of a string literal after its opening quote, up to and
    including the closing quote; a backslash escapes the character that
    follows it. *)
Inductive literal_rest : string -> Prop :=
| literal_close : literal_rest (String ai.quote "")
| literal_char (c : ascii) (s : string) :
    c <> ai.quote -> c <> ai.backslash ->
    literal_rest s -> literal_rest (String c s)
| literal_escape (c : ascii) (s : string) :
    literal_rest s -> literal_rest (String ai.backslash (String c s)).

(** What stands between the braces of an object: characters other than
    quotes, backslashes and braces, string literals, and nested
    objects. *)
Inductive members : string -> Prop :=
| members_nil : members ""
| members_char (c : ascii) (s : string) :
    c <> ai.quote -> c <> ai.backslash -> c <> "{"%char -> c <> "}"%char ->
    members s -> members (String c s)
| members_literal (l s : string) :
    literal_rest l -> members s -> members (String ai.quote (l ++ s))
| members_object (m s : string) :
    members m -> members s ->
    members (String "{" (m ++ String "}" s)).

(** Text without quotes and braces. *)
Fixpoint prose (s : string) : Prop :=
  match s with
  | EmptyString => True
  | String c r =>
      c <> ai.quote /\ c <> "{"%char /\ c <> "}"%char /\ prose r
  end.

(** Text without an opening brace. *)
Fixpoint braceless (s : string) : Prop :=
  match s with
  | EmptyString => True
  | String c r => c <> "{"%char /\ braceless r
  end.

(** A reply that wraps an object in prose; the value of its one member
    is a string that holds a closing brace. *)
Definition replyProse : string := "Here it is: ".

Definition replyMembers : string :=
  String ai.quote
    (String "n" (String ai.quote
       (String ":" (String ai.quote
          (String "}" (String ai.quote ""))))))%string.

Definition replyTail : string := " Enjoy.".

(** ** Simulated readings *)

(** The number of readings a call for [count] readings yields. *)
Definition yielded (count : Z) : nat :=
  Z.to_nat (if count <=? 0 then 10 else count).

(** A value from 5.5 to 7.1. *)
Definition plausible (reading : BloodSugarReading) : Prop :=
  (5.5 <=? Value reading)%float = true
  /\ (Value reading <=? 7.1)%float = true.

(** ** The order of binary64, in integers *)

(** Above every finite magnitude. *)
Definition top : Z := 2 ^ 2100.

(** The place of a binary64 value in the order: its signed magnitude,
    the infinities beyond all finite values. *)
Definition rank (x : spec_float) : Z :=
  match x with
  | S754_zero _ | S754_nan => 0
  | S754_infinity s => cond_Zopp s top
  | S754_finite s m e => cond_Zopp s (hval m e)
  end.

(** * Binary64 arithmetic *)

Module Binary64.

(** ** Digits, validity and powers of two *)

Lemma pow2_pos (a : Z) : 0 <= a -> 0 < 2 ^ a.
Proof. intros. apply Z.pow_pos_nonneg; lia. Qed.

Lemma pow2_split (a b : Z) : 0 <= b <= a -> 2 ^ a = 2 ^ (a - b) * 2 ^ b.
Proof. intros H. rewrite <- Z.pow_add_r by lia. f_equal. lia. Qed.

Lemma log2_bounds (X : Z) : 0 < X -> 2 ^ Z.log2 X <= X < 2 ^ (Z.log2 X + 1).
Proof. intros H. replace (Z.log2 X + 1) with (Z.succ (Z.log2 X)) by lia. apply Z.log2_spec. exact H. Qed.

Lemma digits2_pos_size (m : positive) : digits2_pos m = Pos.size m.
Proof. induction m; simpl; congruence. Qed.

Lemma digits2_pos_gt (m : positive) : Zpos m < 2 ^ Zpos (digits2_pos m).
Proof.
  rewrite digits2_pos_size. pose proof (Pos.size_gt m) as H.
  apply Pos2Z.pos_lt_pos in H. rewrite Pos2Z.inj_pow in H. exact H.
Qed.

Lemma digits2_pos_le (m : positive) : 2 ^ (Zpos (digits2_pos m) - 1) <= Zpos m.
Proof.
  rewrite digits2_pos_size. pose proof (Pos.size_le m) as H.
  apply Pos2Z.pos_le_pos in H. rewrite Pos2Z.inj_pow in H.
  replace (Zpos (Pos.size m)) with (Zpos (Pos.size m) - 1 + 1) in H by lia.
  rewrite Z.pow_add_r in H by lia. lia.
Qed.

Lemma digits_log2 (m : positive) :
  Zpos (digits2_pos m) = Z.log2 (Zpos m) + 1.
Proof.
  rewrite digits2_pos_size.
  destruct m; simpl; rewrite ?Pos2Z.inj_succ; lia.
Qed.

Lemma digits_le_of_lt (p : positive) (n : Z) :
  0 <= n -> Zpos p < 2 ^ n -> Zpos (digits2_pos p) <= n.
Proof.
  intros Hn Hp. pose proof (digits2_pos_le p) as Hd.
  destruct (Z.le_gt_cases (Zpos (digits2_pos p)) n) as [|Hgt]; [assumption |].
  exfalso. assert (2 ^ n <= 2 ^ (Zpos (digits2_pos p) - 1))
    by (apply Z.pow_le_mono_r; lia). lia.
Qed.

(** What validity says of a finite binary64 value. *)
Lemma valid_finite_bounds (s : bool) (m : positive) (e : Z) :
  valid_binary (S754_finite s m e) = true ->
  e = Z.max (Zpos (digits2_pos m) + e - 53) (-1074) /\ e <= 971.
Proof.
  unfold SpecFloat.valid_binary, bounded, canonical_mantissa, fexp, SpecFloat.emin.
  intros H. apply andb_prop in H as [Hc Hb].
  apply Z.eqb_eq in Hc. apply Z.leb_le in Hb.
  change prec with 53 in *. change emax with 1024 in *. lia.
Qed.

Lemma valid_mantissa_lt (s : bool) (m : positive) (e : Z) :
  valid_binary (S754_finite s m e) = true -> Zpos m < 2 ^ 53.
Proof.
  intros H. apply valid_finite_bounds in H as [Hc _].
  pose proof (digits2_pos_gt m) as Hd.
  assert (Zpos (digits2_pos m) <= 53) by lia.
  eapply Z.lt_le_trans; [exact Hd |]. apply Z.pow_le_mono_r; lia.
Qed.

Lemma Prim2SF_finite_valid (x : float) (s : bool) (m : positive) (e : Z) :
  Prim2SF x = S754_finite s m e -> valid_binary (S754_finite s m e) = true.
Proof. intros H. rewrite <- H. apply Prim2SF_valid. Qed.

Lemma Prim2SF_finite_bounds (x : float) (s : bool) (m : positive) (e : Z) :
  Prim2SF x = S754_finite s m e ->
  e = Z.max (Zpos (digits2_pos m) + e - 53) (-1074) /\ e <= 971.
Proof.
  intros H. apply (valid_finite_bounds s). rewrite <- H. apply Prim2SF_valid.
Qed.

Lemma fexp_fexp64 (x : Z) : fexp prec emax x = fexp64 x.
Proof. reflexivity. Qed.

(** ** The order of binary64 *)

Lemma SFcompare_antisym (x y : spec_float) :
  SFcompare y x = option_map CompOpp (SFcompare x y).
Proof.
  destruct x as [sx|sx| |sx mx ex], y as [sy|sy| |sy my ey];
    try destruct sx; try destruct sy; simpl; try reflexivity.
  - rewrite (Z.compare_antisym ey ex).
    destruct (ey ?= ex); simpl; try reflexivity.
    rewrite (Pos.compare_cont_antisym mx my Eq). reflexivity.
  - rewrite (Z.compare_antisym ey ex).
    destruct (ey ?= ex); simpl; try reflexivity.
    rewrite (Pos.compare_cont_antisym mx my Eq). simpl.
    reflexivity.
Qed.

(** The order of binary64 is total away from NaN. *)
Lemma SFcompare_defined (x y : spec_float) :
  SFeqb x x = true -> SFeqb y y = true -> exists c, SFcompare x y = Some c.
Proof.
  destruct x as [sx|sx| |sx mx ex], y as [sy|sy| |sy my ey];
    simpl; try discriminate; eauto.
Qed.

Lemma SFeqb_refl (x : spec_float) : x <> S754_nan -> SFeqb x x = true.
Proof.
  destruct x as [s|[]| |[] m e]; try reflexivity; try congruence; intros _;
    unfold SFeqb, SFcompare; rewrite Z.compare_refl, Pos.compare_cont_refl;
    reflexivity.
Qed.

Lemma ltb_false_leb (x y : float) :
  (x =? x)%float = true -> (y =? y)%float = true ->
  (x <? y)%float = false -> (y <=? x)%float = true.
Proof.
  rewrite !FloatAxioms.eqb_spec, FloatAxioms.ltb_spec, FloatAxioms.leb_spec.
  intros Hx Hy. destruct (SFcompare_defined _ _ Hx Hy) as [c Hc].
  unfold SFltb, SFleb.
  rewrite (SFcompare_antisym (Prim2SF x) (Prim2SF y)), Hc.
  destruct c; simpl; (reflexivity || discriminate).
Qed.

Lemma leb_zero_nonneg (x : float) :
  (0 <=? x)%float = true <-> sf_nonneg (Prim2SF x).
Proof.
  rewrite FloatAxioms.leb_spec. change (Prim2SF 0) with (S754_zero false).
  destruct (Prim2SF x) as [s|[]| |[] m e]; simpl; intuition discriminate.
Qed.

Lemma ltb_zero_nonneg (x : float) :
  (0 <? x)%float = true -> sf_nonneg (Prim2SF x).
Proof.
  rewrite FloatAxioms.ltb_spec. change (Prim2SF 0) with (S754_zero false).
  destruct (Prim2SF x) as [s|[]| |[] m e]; simpl; intuition discriminate.
Qed.

(** What [0 <= x] leaves of the binary64 values. *)
Lemma nonneg_cases (x : float) :
  (0 <=? x)%float = true ->
  (exists s, Prim2SF x = S754_zero s) \/ Prim2SF x = S754_infinity false
  \/ (exists m e, Prim2SF x = S754_finite false m e).
Proof.
  rewrite FloatAxioms.leb_spec. change (Prim2SF 0) with (S754_zero false).
  destruct (Prim2SF x) as [s|[]| |[] m e]; try discriminate; eauto.
Qed.

Lemma between_finite (lo hi c : float) (ml mh : positive) (el eh : Z) :
  Prim2SF lo = S754_finite false ml el ->
  Prim2SF hi = S754_finite false mh eh ->
  (lo <=? c)%float = true -> (c <=? hi)%float = true ->
  exists m e, Prim2SF c = S754_finite false m e.
Proof.
  intros Hlo Hhi. rewrite !FloatAxioms.leb_spec, Hlo, Hhi.
  destruct (Prim2SF c) as [s|[]| |[] m e]; try discriminate; eauto.
Qed.

(** A value above [MaxFloat64] is the positive infinity. *)
Lemma above_MaxFloat64 (x : float) :
  (Go.MaxFloat64 <? x)%float = true -> x = infinity.
Proof.
  rewrite FloatAxioms.ltb_spec. intros H. apply Prim2SF_inj.
  change (Prim2SF infinity) with (S754_infinity false).
  change (Prim2SF Go.MaxFloat64)
    with (S754_finite false 9007199254740991 971) in H.
  destruct (Prim2SF x) as [s|s| |s m e] eqn:Hx.
  - discriminate H.
  - destruct s; [discriminate H | reflexivity].
  - discriminate H.
  - exfalso. pose proof (Prim2SF_finite_bounds x s m e Hx) as [_ He].
    assert (Hm : Zpos m < 2 ^ 53).
    { apply (valid_mantissa_lt s m e). rewrite <- Hx. apply Prim2SF_valid. }
    unfold SFltb, SFcompare in H. destruct s; [discriminate H |].
    destruct (Z.compare_spec 971 e) as [He'|He'|He']; try discriminate H; try lia.
    rewrite Pos.compare_cont_spec in H. simpl in H.
    destruct (Pos.compare_spec 9007199254740991 m) as [Hc|Hc|Hc];
      try discriminate H.
    change (2 ^ 53) with 9007199254740992 in Hm. lia.
Qed.

Lemma below_neg_MaxFloat64 (x : float) :
  (x <? - Go.MaxFloat64)%float = true -> x = neg_infinity.
Proof.
  rewrite FloatAxioms.ltb_spec. intros H. apply Prim2SF_inj.
  change (Prim2SF neg_infinity) with (S754_infinity true).
  change (Prim2SF (- Go.MaxFloat64))
    with (S754_finite true 9007199254740991 971) in H.
  destruct (Prim2SF x) as [s|s| |s m e] eqn:Hx.
  - discriminate H.
  - destruct s; [reflexivity | discriminate H].
  - discriminate H.
  - exfalso. pose proof (Prim2SF_finite_bounds x s m e Hx) as [_ He].
    assert (Hm : Zpos m < 2 ^ 53).
    { apply (valid_mantissa_lt s m e). rewrite <- Hx. apply Prim2SF_valid. }
    unfold SFltb, SFcompare in H. destruct s; [| discriminate H].
    destruct (Z.compare_spec e 971) as [He'|He'|He']; try discriminate H; try lia.
    rewrite Pos.compare_cont_spec in H. simpl in H.
    destruct (Pos.compare_spec m 9007199254740991) as [Hc|Hc|Hc];
      try discriminate H.
    change (2 ^ 53) with 9007199254740992 in Hm. lia.
Qed.

(** ** Rounding to nearest even, on scaled integers *)

Lemma rne_bounds (X k : Z) : X / 2 ^ k <= rne X k <= X / 2 ^ k + 1.
Proof.
  unfold rne. destruct (_ <? _); [lia |].
  destruct (_ =? _); [destruct (Z.even _) |]; lia.
Qed.

Lemma rne_exact (X k : Z) : 1 <= k -> X mod 2 ^ k = 0 -> rne X k = X / 2 ^ k.
Proof.
  intros Hk Hr. unfold rne. rewrite Hr.
  assert (0 < 2 ^ (k - 1)) by (apply Z.pow_pos_nonneg; lia).
  destruct (Z.ltb_spec 0 (2 ^ (k - 1))); [reflexivity | lia].
Qed.

Lemma rne_mono (X Y k : Z) : 1 <= k -> X <= Y -> rne X k <= rne Y k.
Proof.
  intros Hk HXY.
  assert (Hp : 0 < 2 ^ k) by (apply Z.pow_pos_nonneg; lia).
  pose proof (Z.div_le_mono X Y (2 ^ k) Hp HXY) as Hq.
  destruct (Z.eq_dec (X / 2 ^ k) (Y / 2 ^ k)) as [Heq|Hne].
  - assert (Hr : X mod 2 ^ k <= Y mod 2 ^ k).
    { rewrite (Z.mod_eq X), (Z.mod_eq Y), Heq by lia. lia. }
    unfold rne. rewrite Heq.
    set (h := 2 ^ (k - 1)) in *. set (q := Y / 2 ^ k) in *.
    destruct (Z.ltb_spec (X mod 2 ^ k) h), (Z.ltb_spec (Y mod 2 ^ k) h);
      destruct (Z.eqb_spec (X mod 2 ^ k) h), (Z.eqb_spec (Y mod 2 ^ k) h);
      destruct (Z.even q); lia.
  - pose proof (rne_bounds X k). pose proof (rne_bounds Y k). lia.
Qed.

(** Rounding commutes with scaling by a power of two. *)
Lemma rne_scale (a c k : Z) :
  0 <= c -> 1 <= k -> rne (a * 2 ^ c) (k + c) = rne a k.
Proof.
  intros Hc Hk. unfold rne.
  assert (Hpc : 0 < 2 ^ c) by (apply Z.pow_pos_nonneg; lia).
  assert (Hpk : 0 < 2 ^ k) by (apply Z.pow_pos_nonneg; lia).
  assert (Hph : 0 < 2 ^ (k - 1)) by (apply Z.pow_pos_nonneg; lia).
  rewrite Z.pow_add_r by lia.
  rewrite Z.div_mul_cancel_r, Z.mul_mod_distr_r by lia.
  replace (k + c - 1) with (k - 1 + c) by lia. rewrite Z.pow_add_r by lia.
  set (r := a mod 2 ^ k). set (h := 2 ^ (k - 1)) in *. set (s := 2 ^ c) in *.
  destruct (Z.ltb_spec (r * s) (h * s)), (Z.ltb_spec r h); try nia;
    try reflexivity.
  destruct (Z.eqb_spec (r * s) (h * s)), (Z.eqb_spec r h); try nia;
    reflexivity.
Qed.

Lemma grid_ge (X : Z) : 1074 <= grid X.
Proof. unfold grid. lia. Qed.

Lemma grid_mono (X Y : Z) : X <= Y -> grid X <= grid Y.
Proof.
  intros H. unfold grid. pose proof (Z.log2_le_mono X Y H). lia.
Qed.

(** A multiple of the grid spacing bounds the rounded value as it bounds
    the value. *)
Lemma rne_le_multiple (X k b : Z) :
  1 <= k -> X <= b * 2 ^ k -> rne X k <= b.
Proof.
  intros Hk HX.
  assert (Hp : 0 < 2 ^ k) by (apply Z.pow_pos_nonneg; lia).
  replace b with (rne (b * 2 ^ k) k).
  - apply rne_mono; assumption.
  - rewrite rne_exact; [apply Z.div_mul; lia | lia | apply Z.mod_mul; lia].
Qed.

Lemma rne_ge_multiple (X k b : Z) :
  1 <= k -> b * 2 ^ k <= X -> b <= rne X k.
Proof.
  intros Hk HX.
  assert (Hp : 0 < 2 ^ k) by (apply Z.pow_pos_nonneg; lia).
  replace b with (rne (b * 2 ^ k) k) at 1.
  - apply rne_mono; assumption.
  - rewrite rne_exact; [apply Z.div_mul; lia | lia | apply Z.mod_mul; lia].
Qed.

Lemma rnd_le_pow2 (X a : Z) : 0 < X -> grid X <= a -> X <= 2 ^ a -> rnd X <= 2 ^ a.
Proof.
  intros HX Hg Ha. unfold rnd. pose proof (grid_ge X) as Hk.
  rewrite (pow2_split a (grid X)) in * by lia.
  apply Z.mul_le_mono_nonneg_r; [apply Z.pow_nonneg; lia |].
  apply rne_le_multiple; [lia | exact Ha].
Qed.

Lemma rnd_ge_pow2 (X a : Z) : grid X <= a -> 2 ^ a <= X -> 2 ^ a <= rnd X.
Proof.
  intros Hg Ha. unfold rnd. pose proof (grid_ge X) as Hk.
  rewrite (pow2_split a (grid X)) in * by lia.
  apply Z.mul_le_mono_nonneg_r; [apply Z.pow_nonneg; lia |].
  apply rne_ge_multiple; [lia | exact Ha].
Qed.

(** Rounding to nearest even is monotone. *)
Lemma rnd_mono (X Y : Z) : 0 < X -> X <= Y -> rnd X <= rnd Y.
Proof.
  intros HX HXY.
  pose proof (grid_mono X Y HXY) as Hg. pose proof (grid_ge X) as HkX.
  destruct (Z.eq_dec (grid X) (grid Y)) as [Heq|Hne].
  - unfold rnd. rewrite Heq.
    apply Z.mul_le_mono_nonneg_r; [apply Z.pow_nonneg; lia |].
    apply rne_mono; lia.
  - assert (HlX := log2_bounds X HX).
    assert (HlY := log2_bounds Y ltac:(lia)).
    assert (Hlog : Z.log2 X < Z.log2 Y) by (unfold grid in *; lia).
    assert (HgY : grid Y = Z.log2 Y + 1 - 53) by (unfold grid in *; lia).
    apply Z.le_trans with (2 ^ Z.log2 Y).
    + apply rnd_le_pow2; [lia | lia |].
      apply Z.le_trans with (2 ^ (Z.log2 X + 1)); [lia |].
      apply Z.pow_le_mono_r; lia.
    + apply rnd_ge_pow2; lia.
Qed.

Lemma rnd_exact (X : Z) : X mod 2 ^ grid X = 0 -> rnd X = X.
Proof.
  intros H. unfold rnd. pose proof (grid_ge X).
  rewrite rne_exact by (lia || assumption).
  assert (0 < 2 ^ grid X) by (apply Z.pow_pos_nonneg; lia).
  pose proof (Z.div_mod X (2 ^ grid X) ltac:(lia)). lia.
Qed.

(** ** The shift-and-round of the binary64 specification *)

(** The specification's iterator, as [Nat.iter]. *)
Lemma iter_pos_nat {A : Type} (f : A -> A) (p : positive) (x : A) :
  SpecFloat.iter_pos f p x = Nat.iter (Pos.to_nat p) f x.
Proof.
  revert x. induction p as [p IH|p IH|]; intros x;
    cbn [SpecFloat.iter_pos].
  - rewrite !IH, Pos2Nat.inj_xI.
    replace (S (2 * Pos.to_nat p)) with (Pos.to_nat p + Pos.to_nat p + 1)%nat
      by lia.
    rewrite !Nat.iter_add. reflexivity.
  - rewrite !IH, Pos2Nat.inj_xO.
    replace (2 * Pos.to_nat p)%nat with (Pos.to_nat p + Pos.to_nat p)%nat
      by lia.
    rewrite Nat.iter_add. reflexivity.
  - reflexivity.
Qed.

(** One shift step on a non-negative mantissa. *)
Lemma shr_1_nonneg (m : Z) (r s : bool) :
  0 <= m ->
  shr_1 (Build_shr_record m r s) = Build_shr_record (m / 2) (Z.odd m) (r || s).
Proof.
  intros Hm. rewrite <- Z.div2_div.
  destruct m as [|[p|p|]|p]; try lia; reflexivity.
Qed.

Lemma odd_mod2 (a : Z) : Z.odd a = (a mod 2 =? 1).
Proof. rewrite Zmod_odd. destruct (Z.odd a); reflexivity. Qed.

Lemma odd_div_sticky (X k : Z) :
  0 <= X -> 0 <= k ->
  Z.odd (X / 2 ^ k) || negb (X mod 2 ^ k =? 0)
  = negb (X mod 2 ^ (k + 1) =? 0).
Proof.
  intros HX Hk.
  assert (Hp : 0 < 2 ^ k) by (apply Z.pow_pos_nonneg; lia).
  rewrite Z.pow_add_r, Z.pow_1_r by lia.
  rewrite Z.rem_mul_r by lia.
  pose proof (Z.mod_pos_bound X (2 ^ k) Hp) as Hr.
  rewrite odd_mod2.
  pose proof (Z.mod_pos_bound (X / 2 ^ k) 2 ltac:(lia)) as Hb.
  destruct (Z.eqb_spec (X mod 2 ^ k) 0) as [H0|H0];
    destruct (Z.eqb_spec ((X / 2 ^ k) mod 2) 1) as [H1|H1]; simpl;
    symmetry; try (apply negb_true_iff); try (apply negb_false_iff);
    try (apply Z.eqb_neq); try (apply Z.eqb_eq); nia.
Qed.

(** [k] one-bit shifts of an exact non-negative mantissa keep the quotient,
    the last bit shifted out and whether anything below it was set. *)
Lemma shr_iter (X : Z) (k : nat) :
  0 <= X ->
  Nat.iter (S k) shr_1 (Build_shr_record X false false)
  = Build_shr_record (X / 2 ^ Z.of_nat (S k))
      (Z.odd (X / 2 ^ Z.of_nat k))
      (negb (X mod 2 ^ Z.of_nat k =? 0)).
Proof.
  intros HX. induction k as [|k IH].
  - rewrite Nat.iter_succ.
    change (Nat.iter 0 shr_1 (Build_shr_record X false false))
      with (Build_shr_record X false false).
    rewrite shr_1_nonneg by lia.
    change (2 ^ Z.of_nat 1) with 2. change (2 ^ Z.of_nat 0) with 1.
    rewrite Z.div_1_r, Z.mod_1_r. reflexivity.
  - rewrite Nat.iter_succ, IH.
    assert (Hq : 0 <= X / 2 ^ Z.of_nat (S k))
      by (apply Z.div_pos; [lia | apply Z.pow_pos_nonneg; lia]).
    rewrite shr_1_nonneg by exact Hq. f_equal.
    + rewrite Z.div_div by (try apply Z.pow_pos_nonneg; lia).
      f_equal. rewrite (Nat2Z.inj_succ (S k)), Z.pow_succ_r by lia. lia.
    + rewrite (Nat2Z.inj_succ k). apply odd_div_sticky; lia.
Qed.

Lemma round_decision (X k : Z) :
  0 <= X -> 1 <= k ->
  round_nearest_even (X / 2 ^ k)
    (loc_of_shr_record
       (Build_shr_record (X / 2 ^ k) (Z.odd (X / 2 ^ (k - 1)))
          (negb (X mod 2 ^ (k - 1) =? 0))))
  = rne X k.
Proof.
  intros HX Hk. unfold rne.
  assert (Hh : 0 < 2 ^ (k - 1)) by (apply Z.pow_pos_nonneg; lia).
  assert (H2 : 2 ^ k = 2 ^ (k - 1) * 2).
  { rewrite <- (Z.pow_1_r 2) at 3. rewrite <- Z.pow_add_r by lia. f_equal. lia. }
  assert (Hrem : X mod 2 ^ k
                 = X mod 2 ^ (k - 1) + 2 ^ (k - 1) * ((X / 2 ^ (k - 1)) mod 2)).
  { rewrite H2. apply Z.rem_mul_r; lia. }
  pose proof (Z.mod_pos_bound X (2 ^ (k - 1)) Hh) as Hr.
  pose proof (Z.mod_pos_bound (X / 2 ^ (k - 1)) 2 ltac:(lia)) as Hb.
  rewrite (odd_mod2 (X / 2 ^ (k - 1))).
  set (h := 2 ^ (k - 1)) in *. set (b := (X / h) mod 2) in *.
  set (r := X mod h) in *. rewrite Hrem. clearbody b r h.
  destruct (Z.eqb_spec b 1) as [Hb1|Hb1]; destruct (Z.eqb_spec r 0) as [Hr0|Hr0];
    simpl;
    destruct (Z.ltb_spec (r + h * b) h); destruct (Z.eqb_spec (r + h * b) h);
    try reflexivity; try nia.
Qed.

(** [shr_fexp] on an exact non-negative mantissa, in closed form. *)
Lemma shr_fexp_exact (m e : Z) :
  0 <= m ->
  let k := fexp64 (Zdigits2 m + e) - e in
  shr_fexp prec emax m e loc_Exact
  = if 0 <? k
    then (Build_shr_record (m / 2 ^ k) (Z.odd (m / 2 ^ (k - 1)))
            (negb (m mod 2 ^ (k - 1) =? 0)), e + k)
    else (Build_shr_record m false false, e).
Proof.
  intros Hm k. unfold shr_fexp. rewrite fexp_fexp64. fold k.
  unfold shr, shr_record_of_loc. destruct k as [|p|p] eqn:Hk; try reflexivity.
  rewrite iter_pos_nat.
  destruct (Pos2Nat.is_succ p) as [n Hn]. rewrite Hn, shr_iter by exact Hm.
  assert (Hp : Z.of_nat (S n) = Zpos p) by (rewrite <- Hn; apply positive_nat_Z).
  rewrite Hp. replace (Z.of_nat n) with (Zpos p - 1) by lia. reflexivity.
Qed.

(** The rounding step of the specification, on an exact positive mantissa
    that is normal or small enough not to overflow unnormalised: the result
    is the value the scaled magnitude rounds to. *)
Lemma round_aux_rounds (m : positive) (e : Z) :
  - scale <= e ->
  (e <= 971 \/ 53 <= Zpos (digits2_pos m)) ->
  rounds_to (binary_round_aux prec emax false (Zpos m) e loc_Exact) (sval m e).
Proof.
  intros He Hnorm.
  pose proof (digits2_pos_gt m) as Hdgt. pose proof (digits2_pos_le m) as Hdle.
  assert (Hgrid : grid (sval m e) = fexp64 (Zpos (digits2_pos m) + e) + scale).
  { unfold grid, sval. rewrite Z.log2_mul_pow2 by (unfold scale in *; lia).
    unfold fexp64. rewrite digits_log2. unfold scale. lia. }
  set (d := Zpos (digits2_pos m)) in *.
  set (E := fexp64 (d + e)) in *. set (X := sval m e) in *.
  assert (HE : -1074 <= E /\ d + e - 53 <= E) by (unfold E, fexp64; lia).
  assert (Hs : 0 < 2 ^ (e + scale)) by (apply pow2_pos; lia).
  unfold binary_round_aux.
  rewrite (shr_fexp_exact (Zpos m) e) by lia.
  cbv zeta. change (Zdigits2 (Zpos m)) with d. fold E.
  destruct (Z.ltb_spec 0 (E - e)) as [Hk|Hk].
  - set (k := E - e) in *.
    cbn [shr_m]. rewrite round_decision by lia.
    assert (Hq : rne (Zpos m) k = rne X (grid X)).
    { rewrite Hgrid. unfold X, sval.
      replace (E + scale) with (k + (e + scale)) by (unfold k; lia).
      rewrite rne_scale; [reflexivity | lia | lia]. }
    pose proof (rne_bounds (Zpos m) k) as Hqb.
    assert (Hk2 : 0 < 2 ^ k) by (apply pow2_pos; lia).
    assert (Hdiv0 : 0 <= Zpos m / 2 ^ k) by (apply Z.div_pos; lia).
    assert (Hdiv : Zpos m / 2 ^ k < 2 ^ 53).
    { apply Z.div_lt_upper_bound; [lia |].
      rewrite <- Z.pow_add_r by lia.
      eapply Z.lt_le_trans; [exact Hdgt |]. apply Z.pow_le_mono_r; lia. }
    replace (e + k) with E by (unfold k; lia).
    assert (Hrnd : rnd X = rne (Zpos m) k * 2 ^ (E + scale)).
    { unfold rnd. rewrite <- Hq, Hgrid. reflexivity. }
    set (q := rne (Zpos m) k) in *.
    rewrite (shr_fexp_exact q E) by lia. cbv zeta.
    destruct q as [|p|p] eqn:Hqq; [| | lia].
    + change (Zdigits2 0) with 0.
      destruct (Z.ltb_spec 0 (fexp64 (0 + E) - E)) as [Hk'|Hk'];
        [unfold fexp64 in Hk'; lia |].
      cbn [shr_m]. split; [reflexivity | lia].
    + change (Zdigits2 (Zpos p)) with (Zpos (digits2_pos p)).
      destruct (Z.eq_dec (Zpos p) (2 ^ 53)) as [Hc|Hc].
      * assert (Hp : p = 9007199254740992%positive)
          by (change (2 ^ 53) with 9007199254740992 in Hc; lia).
        subst p.
        change (Zpos (digits2_pos 9007199254740992)) with 54.
        replace (fexp64 (54 + E) - E) with 1 by (unfold fexp64; lia).
        change (0 <? 1) with true. cbn [shr_m fst snd].
        change (9007199254740992 / 2 ^ 1) with 4503599627370496.
        destruct (Z.leb_spec (E + 1) (emax - prec)) as [Hov|Hov];
          change (emax - prec) with 971 in Hov.
        -- split; [reflexivity | split; [lia |]].
           unfold sval. rewrite Hrnd.
           replace (E + 1 + scale) with (1 + (E + scale)) by lia.
           rewrite Z.pow_add_r by (unfold scale; lia). lia.
        -- split; [reflexivity |]. rewrite Hrnd.
           change 9007199254740992 with (2 ^ 53).
           rewrite <- Z.pow_add_r by (unfold scale; lia).
           apply Z.pow_le_mono_r; unfold scale; lia.
      * assert (Hp53 : Zpos p < 2 ^ 53) by lia.
        pose proof (digits_le_of_lt p 53 ltac:(lia) Hp53) as Hd'.
        destruct (Z.ltb_spec 0 (fexp64 (Zpos (digits2_pos p) + E) - E))
          as [Hk'|Hk']; [unfold fexp64 in Hk'; lia |].
        cbn [shr_m].
        destruct (Z.leb_spec E (emax - prec)) as [Hov|Hov];
          change (emax - prec) with 971 in Hov.
        -- split; [reflexivity | split; [lia |]].
           unfold sval. rewrite Hrnd. reflexivity.
        -- split; [reflexivity |]. rewrite Hrnd.
           assert (HEd : E = d + e - 53) by (unfold E, fexp64 in *; lia).
           assert (Hkd : k = d - 53) by (unfold k; lia).
           assert (Hlow : 2 ^ 52 <= Zpos m / 2 ^ k).
           { apply Z.div_le_lower_bound; [lia |].
             rewrite <- Z.pow_add_r by lia.
             replace (k + 52) with (d - 1) by lia. exact Hdle. }
           apply Z.le_trans with (2 ^ 52 * 2 ^ (E + scale)).
           ++ rewrite <- Z.pow_add_r by (unfold scale; lia).
              apply Z.pow_le_mono_r; unfold scale; lia.
           ++ apply Z.mul_le_mono_nonneg_r; [apply Z.pow_nonneg |]; lia.
  - cbn [shr_m round_nearest_even loc_of_shr_record].
    rewrite (shr_fexp_exact (Zpos m) e) by lia. cbv zeta.
    change (Zdigits2 (Zpos m)) with d. fold E.
    destruct (Z.ltb_spec 0 (E - e)) as [Hk'|_]; [lia |].
    cbn [shr_m].
    assert (Hexact : rnd X = X).
    { apply rnd_exact. rewrite Hgrid. unfold X, sval.
      replace (e + scale) with ((e - E) + (E + scale)) by lia.
      rewrite Z.pow_add_r, Z.mul_assoc by (unfold scale; lia).
      apply Z.mod_mul. apply Z.pow_nonzero; unfold scale; lia. }
    destruct (Z.leb_spec e (emax - prec)) as [Hov|Hov];
      change (emax - prec) with 971 in Hov.
    + split; [reflexivity | split; [lia |]]. rewrite Hexact. reflexivity.
    + split; [reflexivity |]. rewrite Hexact. unfold X, sval.
      assert (Hd53 : d = 53) by lia.
      apply Z.le_trans with (2 ^ 52 * 2 ^ (e + scale)).
      * rewrite <- Z.pow_add_r by (unfold scale; lia).
        apply Z.pow_le_mono_r; unfold scale; lia.
      * apply Z.mul_le_mono_nonneg_r; [lia |].
        replace 52 with (d - 1) by lia. exact Hdle.
Qed.

Lemma shr_1_m_nonneg (r : shr_record) : 0 <= shr_m r -> 0 <= shr_m (shr_1 r).
Proof.
  destruct r as [m r s]. simpl. intros Hm.
  destruct m as [|[p|p|]|p]; simpl; lia.
Qed.

Lemma shr_fexp_nonneg (m e : Z) (l : location) :
  0 <= m -> 0 <= shr_m (fst (shr_fexp prec emax m e l)).
Proof.
  intros Hm. unfold shr_fexp, shr.
  assert (H0 : 0 <= shr_m (shr_record_of_loc m l))
    by (destruct l as [|[]]; exact Hm).
  destruct (fexp prec emax (Zdigits2 m + e) - e) as [|p|p]; try exact H0.
  cbn [fst]. rewrite iter_pos_nat.
  induction (Pos.to_nat p) as [|n IH]; [exact H0 |].
  rewrite Nat.iter_succ. apply shr_1_m_nonneg. exact IH.
Qed.

Lemma round_nearest_even_nonneg (m : Z) (l : location) :
  0 <= m -> 0 <= round_nearest_even m l.
Proof.
  intros Hm. destruct l as [|[]]; simpl; try destruct (Z.even m); lia.
Qed.

(** Rounding a non-negative mantissa gives a value that is not negative,
    and never a NaN. *)
Lemma round_aux_nonneg (m e : Z) (l : location) :
  0 <= m -> sf_nonneg (binary_round_aux prec emax false m e l).
Proof.
  intros Hm. unfold binary_round_aux.
  pose proof (shr_fexp_nonneg m e l Hm) as H1.
  destruct (shr_fexp prec emax m e l) as [mrs' e']. cbn [fst] in H1.
  pose proof (shr_fexp_nonneg _ e' loc_Exact
                (round_nearest_even_nonneg _ (loc_of_shr_record mrs') H1)) as H2.
  destruct (shr_fexp prec emax _ e' loc_Exact) as [mrs'' e'']. cbn [fst] in H2.
  destruct (shr_m mrs'') as [|p|p]; [exact I | | lia].
  destruct (e'' <=? emax - prec); exact I.
Qed.

Lemma binary_normalize_nonneg (m e : Z) :
  0 <= m -> sf_nonneg (binary_normalize prec emax m e false).
Proof.
  intros Hm. destruct m as [|p|p]; [exact I | | lia].
  unfold binary_normalize, binary_round.
  destruct (shl_align p e _) as [mz ez]. apply round_aux_nonneg. lia.
Qed.

(** ** Magnitudes of valid values *)

Lemma sval_hval (m : positive) (e : Z) :
  -1074 <= e -> sval m e = hval m e * 2 ^ 1074.
Proof.
  intros He. unfold sval, hval, scale.
  replace (e + 2148) with (e + 1074 + 1074) by lia.
  rewrite Z.pow_add_r by lia. lia.
Qed.

Lemma sval_mul (m1 m2 : positive) (e1 e2 : Z) :
  -1074 <= e1 -> -1074 <= e2 ->
  sval (m1 * m2) (e1 + e2) = hval m1 e1 * hval m2 e2.
Proof.
  intros H1 H2. unfold sval, hval, scale.
  replace (e1 + e2 + 2148) with (e1 + 1074 + (e2 + 1074)) by lia.
  rewrite Z.pow_add_r, Pos2Z.inj_mul by lia. lia.
Qed.

Lemma hval_pos (m : positive) (e : Z) : -1074 <= e -> 0 < hval m e.
Proof.
  intros He. unfold hval. apply Z.mul_pos_pos; [lia | apply pow2_pos; lia].
Qed.

(** Among valid values a smaller exponent means a smaller magnitude. *)
Lemma hval_lt_of_exp (s1 s2 : bool) (m1 m2 : positive) (e1 e2 : Z) :
  valid_binary (S754_finite s1 m1 e1) = true ->
  valid_binary (S754_finite s2 m2 e2) = true ->
  e1 < e2 -> hval m1 e1 < hval m2 e2.
Proof.
  intros H1 H2 He.
  pose proof (valid_mantissa_lt _ _ _ H1) as Hm1.
  apply valid_finite_bounds in H1 as [Hc1 _].
  apply valid_finite_bounds in H2 as [Hc2 _].
  pose proof (digits2_pos_le m2) as Hd2.
  assert (Hd : Zpos (digits2_pos m2) = 53) by lia. rewrite Hd in Hd2.
  change (53 - 1) with 52 in Hd2. unfold hval.
  assert (Hp1 : 0 < 2 ^ (e1 + 1074)) by (apply pow2_pos; lia).
  assert (Hp2 : 0 < 2 ^ (e2 + 1074)) by (apply pow2_pos; lia).
  apply Z.lt_le_trans with (2 ^ 53 * 2 ^ (e1 + 1074)).
  - apply Z.mul_lt_mono_pos_r; lia.
  - apply Z.le_trans with (2 ^ 52 * 2 ^ (e2 + 1074)).
    + rewrite <- !Z.pow_add_r by lia. apply Z.pow_le_mono_r; lia.
    + apply Z.mul_le_mono_nonneg_r; lia.
Qed.

(** On valid positive values the comparison of the specification is the
    comparison of the magnitudes. *)
Lemma SFcompare_hval (m1 m2 : positive) (e1 e2 : Z) :
  valid_binary (S754_finite false m1 e1) = true ->
  valid_binary (S754_finite false m2 e2) = true ->
  SFcompare (S754_finite false m1 e1) (S754_finite false m2 e2)
  = Some (hval m1 e1 ?= hval m2 e2).
Proof.
  intros H1 H2. unfold SFcompare. f_equal.
  destruct (Z.compare_spec e1 e2) as [He|He|He].
  - subst e2. rewrite Pos.compare_cont_spec. simpl.
    pose proof (valid_finite_bounds _ _ _ H1) as [Hc _].
    assert (Hp : 0 < 2 ^ (e1 + 1074)) by (apply pow2_pos; lia).
    unfold hval. rewrite <- Zmult_compare_compat_r by lia.
    change (Zpos m1 ?= Zpos m2) with (m1 ?= m2)%positive.
    destruct (m1 ?= m2)%positive; reflexivity.
  - symmetry. apply Z.compare_lt_iff. exact (hval_lt_of_exp _ _ _ _ _ _ H1 H2 He).
  - symmetry. apply Z.compare_gt_iff. exact (hval_lt_of_exp _ _ _ _ _ _ H2 H1 He).
Qed.

Lemma leb_hval (a b : float) (ma mb : positive) (ea eb : Z) :
  Prim2SF a = S754_finite false ma ea ->
  Prim2SF b = S754_finite false mb eb ->
  (a <=? b)%float = true -> hval ma ea <= hval mb eb.
Proof.
  intros Ha Hb. rewrite FloatAxioms.leb_spec, Ha, Hb. unfold SFleb.
  rewrite SFcompare_hval by (eapply Prim2SF_finite_valid; eassumption).
  destruct (Z.compare_spec (hval ma ea) (hval mb eb)); (lia || discriminate).
Qed.

(** A valid value rounds its own magnitude. *)
Lemma valid_rounds_self (m : positive) (e : Z) :
  valid_binary (S754_finite false m e) = true ->
  rounds_to (S754_finite false m e) (sval m e).
Proof.
  intros Hv. apply valid_finite_bounds in Hv as [Hc He].
  split; [reflexivity | split; [lia |]]. symmetry. apply rnd_exact.
  assert (Hgrid : grid (sval m e) = e + scale).
  { unfold grid, sval. rewrite Z.log2_mul_pow2 by (unfold scale; lia).
    pose proof (digits_log2 m). unfold scale. lia. }
  rewrite Hgrid. unfold sval. apply Z.mod_mul.
  apply Z.pow_nonzero; unfold scale; lia.
Qed.

Lemma self_rounds (x : float) (mx : positive) (ex : Z) :
  Prim2SF x = S754_finite false mx ex ->
  rounds_to (Prim2SF x) (hval mx ex * 2 ^ 1074).
Proof.
  intros Hx. pose proof (Prim2SF_finite_bounds x _ _ _ Hx) as [Hcx _].
  rewrite <- sval_hval by lia. rewrite Hx. apply valid_rounds_self.
  eapply Prim2SF_finite_valid; eassumption.
Qed.

(** Values that round ordered magnitudes are ordered. *)
Lemma rounds_to_leb (o1 o2 : spec_float) (X1 X2 : Z) :
  rounds_to o1 X1 -> rounds_to o2 X2 ->
  valid_binary o1 = true -> valid_binary o2 = true ->
  0 < X1 -> X1 <= X2 -> SFleb o1 o2 = true.
Proof.
  intros R1 R2 V1 V2 HX HXY. pose proof (rnd_mono X1 X2 HX HXY) as Hmono.
  destruct o1 as [s1|s1| |s1 m1 e1]; [| | contradiction |];
    destruct o2 as [s2|s2| |s2 m2 e2]; try contradiction;
    simpl in R1, R2;
    repeat match goal with H : _ /\ _ |- _ => destruct H end; subst;
    try reflexivity.
  - (* infinity, zero *)
    assert (0 < 2 ^ (1024 + scale)) by (apply pow2_pos; unfold scale; lia). lia.
  - (* infinity, finite *)
    pose proof (valid_mantissa_lt _ _ _ V2) as Hm.
    apply valid_finite_bounds in V2 as [_ He].
    assert (sval m2 e2 < 2 ^ (1024 + scale)).
    { unfold sval.
      assert (Hp : 0 < 2 ^ (e2 + scale)) by (apply pow2_pos; unfold scale; lia).
      apply Z.lt_le_trans with (2 ^ 53 * 2 ^ (e2 + scale)).
      - apply Z.mul_lt_mono_pos_r; lia.
      - rewrite <- Z.pow_add_r by (unfold scale; lia).
        apply Z.pow_le_mono_r; unfold scale; lia. }
    lia.
  - (* finite, zero *)
    assert (0 < sval m1 e1).
    { unfold sval. apply Z.mul_pos_pos; [lia |].
      apply pow2_pos; unfold scale; lia. }
    lia.
  - (* finite, finite *)
    unfold SFleb. rewrite SFcompare_hval by assumption.
    rewrite !sval_hval in * by lia.
    assert (hval m1 e1 <= hval m2 e2).
    { assert (0 < 2 ^ 1074) by (apply pow2_pos; lia). nia. }
    destruct (Z.compare_spec (hval m1 e1) (hval m2 e2)); try reflexivity; lia.
Qed.

(** ** Products *)

(** The product of two positive finite values rounds the product of their
    magnitudes. *)
Lemma mul_rounds (x a : float) (mx ma : positive) (ex ea : Z) :
  Prim2SF x = S754_finite false mx ex ->
  Prim2SF a = S754_finite false ma ea ->
  rounds_to (Prim2SF (x * a)) (hval mx ex * hval ma ea).
Proof.
  intros Hx Ha.
  pose proof (Prim2SF_finite_bounds x _ _ _ Hx) as [Hcx Hbx].
  pose proof (Prim2SF_finite_bounds a _ _ _ Ha) as [Hca Hba].
  rewrite FloatAxioms.mul_spec, Hx, Ha. unfold SF64mul, SFmul. cbn [xorb].
  rewrite <- sval_mul by lia. apply round_aux_rounds.
  - unfold scale. lia.
  - destruct (Z.eq_dec ex (-1074)) as [|Hnx]; [left; lia |].
    destruct (Z.eq_dec ea (-1074)) as [|Hna]; [left; lia |].
    right. pose proof (digits2_pos_le mx) as Hdx.
    pose proof (digits2_pos_le ma) as Hda.
    replace (Zpos (digits2_pos mx)) with 53 in Hdx by lia.
    replace (Zpos (digits2_pos ma)) with 53 in Hda by lia.
    pose proof (digits2_pos_gt (mx * ma)) as Hd.
    rewrite Pos2Z.inj_mul in Hd.
    destruct (Z.le_gt_cases 53 (Zpos (digits2_pos (mx * ma)))) as [|Hlt];
      [assumption | exfalso].
    assert (2 ^ Zpos (digits2_pos (mx * ma)) <= 2 ^ 53)
      by (apply Z.pow_le_mono_r; lia).
    change (2 ^ (53 - 1)) with 4503599627370496 in *.
    change (2 ^ 53) with 9007199254740992 in *. nia.
Qed.

(** Multiplying a positive finite value is monotone. *)
Lemma mul_le_mono_finite (x a b : float) (mx ma mb : positive) (ex ea eb : Z) :
  Prim2SF x = S754_finite false mx ex ->
  Prim2SF a = S754_finite false ma ea ->
  Prim2SF b = S754_finite false mb eb ->
  (a <=? b)%float = true -> (x * a <=? x * b)%float = true.
Proof.
  intros Hx Ha Hb Hab.
  pose proof (leb_hval a b _ _ _ _ Ha Hb Hab) as Hh.
  pose proof (Prim2SF_finite_bounds x _ _ _ Hx) as [Hcx _].
  pose proof (Prim2SF_finite_bounds a _ _ _ Ha) as [Hca _].
  pose proof (hval_pos mx ex ltac:(lia)). pose proof (hval_pos ma ea ltac:(lia)).
  rewrite FloatAxioms.leb_spec.
  apply (rounds_to_leb _ _ (hval mx ex * hval ma ea) (hval mx ex * hval mb eb)).
  - apply mul_rounds; assumption.
  - apply mul_rounds; assumption.
  - apply Prim2SF_valid.
  - apply Prim2SF_valid.
  - nia.
  - nia.
Qed.

Lemma mul_zero_l (x a : float) (s : bool) (m : positive) (e : Z) :
  Prim2SF x = S754_zero s -> Prim2SF a = S754_finite false m e ->
  Prim2SF (x * a) = S754_zero s.
Proof.
  intros Hx Ha. rewrite FloatAxioms.mul_spec, Hx, Ha. simpl.
  rewrite xorb_false_r. reflexivity.
Qed.

Lemma mul_inf_l (x a : float) (m : positive) (e : Z) :
  Prim2SF x = S754_infinity false -> Prim2SF a = S754_finite false m e ->
  Prim2SF (x * a) = S754_infinity false.
Proof.
  intros Hx Ha. rewrite FloatAxioms.mul_spec, Hx, Ha. reflexivity.
Qed.

(** Multiplying a value that is not negative is monotone on positive
    finite factors. *)
Lemma mul_le_mono_nonneg (x a b : float) (ma mb : positive) (ea eb : Z) :
  (0 <=? x)%float = true ->
  Prim2SF a = S754_finite false ma ea ->
  Prim2SF b = S754_finite false mb eb ->
  (a <=? b)%float = true -> (x * a <=? x * b)%float = true.
Proof.
  intros Hx Ha Hb Hab.
  destruct (nonneg_cases x Hx) as [[s Hz] | [Hi | (m & e & Hf)]].
  - rewrite FloatAxioms.leb_spec, (mul_zero_l x a s _ _ Hz Ha),
      (mul_zero_l x b s _ _ Hz Hb). reflexivity.
  - rewrite FloatAxioms.leb_spec, (mul_inf_l x a _ _ Hi Ha),
      (mul_inf_l x b _ _ Hi Hb). reflexivity.
  - eapply mul_le_mono_finite; eassumption.
Qed.

(** ** Sums, quotients and conversions *)

Lemma SFadd_nonneg (x y : spec_float) :
  sf_nonneg x -> sf_nonneg y -> sf_nonneg (SF64add x y).
Proof.
  destruct x as [sx|[]| |[] mx ex]; try contradiction;
    destruct y as [sy|[]| |[] my ey]; try contradiction; intros _ _;
    try exact I.
  - destruct sx, sy; exact I.
  - unfold SF64add, SFadd. cbn [cond_Zopp].
    apply binary_normalize_nonneg. lia.
Qed.

Lemma add_nonneg (a b : float) :
  (0 <=? a)%float = true -> (0 <=? b)%float = true ->
  (0 <=? a + b)%float = true.
Proof.
  rewrite !leb_zero_nonneg, FloatAxioms.add_spec. apply SFadd_nonneg.
Qed.

Lemma SFdiv_nonneg (x : spec_float) (my : positive) (ey : Z) :
  sf_nonneg x -> sf_nonneg (SF64div x (S754_finite false my ey)).
Proof.
  destruct x as [sx|[]| |[] mx ex]; try contradiction; intros _.
  - exact I.
  - exact I.
  - unfold SF64div, SFdiv, SFdiv_core_binary.
    set (m' := match _ with Z0 => Zpos mx | Zpos _ => _ | Zneg _ => 0 end).
    assert (Hm' : 0 <= m').
    { subst m'. destruct (_ - _ - _) as [|p|p]; try lia.
      apply Z.shiftl_nonneg. lia. }
    pose proof (Z_div_mod m' (Zpos my) ltac:(lia)) as Hdm.
    destruct (Z.div_eucl m' (Zpos my)) as [q r]. cbn [xorb].
    apply round_aux_nonneg. nia.
Qed.

Lemma SFdiv_defined (mx : positive) (ex : Z) (y : spec_float) :
  sf_nonneg y -> SF64div (S754_finite false mx ex) y <> S754_nan.
Proof.
  destruct y as [sy|[]| |[] my ey]; try contradiction; intros _;
    try discriminate.
  pose proof (SFdiv_nonneg (S754_finite false mx ex) my ey I) as H.
  intros Hn. rewrite Hn in H. exact H.
Qed.

Lemma iter_xO_pow2 (m d : positive) :
  Zpos (Pos.iter xO m d) = Zpos m * 2 ^ Zpos d.
Proof.
  induction d as [|d IH] using Pos.peano_ind.
  - change (Pos.iter xO m 1) with (xO m). rewrite Pos2Z.inj_xO. lia.
  - rewrite Pos.iter_succ, Pos2Z.inj_xO, IH, Pos2Z.inj_succ, Z.pow_succ_r by lia.
    lia.
Qed.

Lemma shl_align_value (m : positive) (e e' : Z) :
  snd (shl_align m e e') = Z.min e e'
  /\ Zpos (fst (shl_align m e e')) = Zpos m * 2 ^ (e - Z.min e e').
Proof.
  unfold shl_align. destruct (e' - e) as [|d|d] eqn:Hd; cbn [fst snd].
  - replace (Z.min e e') with e by lia. rewrite Z.sub_diag, Z.pow_0_r. lia.
  - replace (Z.min e e') with e by lia. rewrite Z.sub_diag, Z.pow_0_r. lia.
  - replace (Z.min e e') with e' by lia.
    rewrite iter_xO_pow2. split; [reflexivity |]. do 2 f_equal. lia.
Qed.

(** The length of a slice converts to a positive finite value. *)
Lemma float64_of_len_finite (n : nat) :
  (0 < n)%nat -> Z.of_nat n < 2 ^ 63 ->
  exists m e, Prim2SF (Go.float64_of_len n) = S754_finite false m e.
Proof.
  intros Hn Hlt. unfold Go.float64_of_len.
  rewrite of_uint63_spec, Uint63.of_Z_spec.
  rewrite Z.mod_small by (change wB with (2 ^ 63); lia).
  destruct (Z.of_nat n) as [|p|p] eqn:Hp; try lia.
  unfold binary_normalize, binary_round.
  pose proof (shl_align_value p 0 (fexp prec emax (Zpos (digits2_pos p) + 0)))
    as [He Hm].
  destruct (shl_align p 0 _) as [mz ez]. cbn [fst snd] in He, Hm.
  rewrite fexp_fexp64 in He, Hm.
  assert (Hez : -52 <= ez <= 0) by (unfold fexp64 in He; lia).
  assert (HX : sval mz ez = Zpos p * 2 ^ scale).
  { unfold sval. rewrite Hm, <- He, <- Z.mul_assoc, <- Z.pow_add_r
      by (unfold scale; lia).
    do 2 f_equal. lia. }
  pose proof (round_aux_rounds mz ez ltac:(unfold scale; lia) ltac:(lia)) as R.
  rewrite HX in R. set (X := Zpos p * 2 ^ scale) in *.
  assert (HXpos : 0 < X)
    by (apply Z.mul_pos_pos; [lia | apply pow2_pos; unfold scale; lia]).
  pose proof (log2_bounds X HXpos) as Hlog.
  assert (Hl : Z.log2 X = scale + Z.log2 (Zpos p))
    by (apply Z.log2_mul_pow2; unfold scale; lia).
  assert (Hlp : 0 <= Z.log2 (Zpos p) < 63).
  { split; [apply Z.log2_nonneg |]. apply Z.log2_lt_pow2; lia. }
  assert (Hlo : 2 ^ Z.log2 X <= rnd X)
    by (apply rnd_ge_pow2; [unfold grid, scale in *; lia | lia]).
  assert (Hhi : rnd X <= 2 ^ (Z.log2 X + 1))
    by (apply rnd_le_pow2; [lia | unfold grid, scale in *; lia | lia]).
  assert (H0 : 0 < 2 ^ Z.log2 X) by (apply pow2_pos; unfold scale in *; lia).
  assert (Hov : 2 ^ (Z.log2 X + 1) < 2 ^ (1024 + scale))
    by (apply Z.pow_lt_mono_r; unfold scale in *; lia).
  destruct (binary_round_aux prec emax false (Zpos mz) ez loc_Exact)
    as [s|s| |s m e]; simpl in R.
  - lia.
  - lia.
  - contradiction.
  - destruct R as [-> _]. eauto.
Qed.

(** ** Signs *)

(** The sign of the result of the rounding step is the sign it is given. *)
Lemma round_aux_opp (s : bool) (m e : Z) (l : location) :
  binary_round_aux prec emax (negb s) m e l
  = SFopp (binary_round_aux prec emax s m e l).
Proof.
  unfold binary_round_aux.
  destruct (shr_fexp prec emax m e l) as [mrs' e'].
  destruct (shr_fexp prec emax _ e' loc_Exact) as [mrs'' e''].
  destruct (shr_m mrs'') as [|p|p]; try reflexivity.
  destruct (e'' <=? emax - prec); reflexivity.
Qed.

Lemma SFmul_opp_l (x a : spec_float) :
  SF64mul (SFopp x) a = SFopp (SF64mul x a).
Proof.
  unfold SF64mul.
  destruct x as [sx|sx| |sx mx ex], a as [sa|sa| |sa ma ea]; simpl;
    rewrite <- ?negb_xorb_l; try reflexivity.
  apply round_aux_opp.
Qed.

Lemma mul_opp_l (x a : float) : (- x * a)%float = (- (x * a))%float.
Proof.
  apply Prim2SF_inj.
  rewrite FloatAxioms.mul_spec, !FloatAxioms.opp_spec, FloatAxioms.mul_spec.
  apply SFmul_opp_l.
Qed.

Lemma SFcompare_opp (x y : spec_float) :
  SFcompare (SFopp x) (SFopp y) = SFcompare y x.
Proof.
  destruct x as [sx|sx| |sx mx ex], y as [sy|sy| |sy my ey];
    try destruct sx; try destruct sy; simpl; try reflexivity;
    rewrite (Z.compare_antisym ex ey), !Pos.compare_cont_spec,
      (Pos.compare_antisym my mx);
    destruct (ex ?= ey); simpl; try reflexivity;
    destruct (my ?= mx)%positive; reflexivity.
Qed.

Lemma leb_opp (a b : float) : (- a <=? - b)%float = (b <=? a)%float.
Proof.
  rewrite !FloatAxioms.leb_spec, !FloatAxioms.opp_spec. unfold SFleb.
  rewrite SFcompare_opp. reflexivity.
Qed.

Lemma opp_involutive (x : float) : (- - x)%float = x.
Proof.
  apply Prim2SF_inj. rewrite !FloatAxioms.opp_spec.
  destruct (Prim2SF x) as [s|s| |s m e]; simpl; rewrite ?negb_involutive;
    reflexivity.
Qed.

(** A number is not negative, or its opposite is not. *)
Lemma sign_cases (x : float) :
  (x =? x)%float = true ->
  (0 <=? x)%float = true \/ (0 <=? - x)%float = true.
Proof.
  rewrite FloatAxioms.eqb_spec, !FloatAxioms.leb_spec, FloatAxioms.opp_spec.
  change (Prim2SF 0) with (S754_zero false).
  destruct (Prim2SF x) as [s|[]| |[] m e]; simpl; auto; discriminate.
Qed.

End Binary64.

Import Binary64.

(** ** Go's [math] on binary64 *)

Lemma IsInf_pos (x : float) : Go.IsInf x 1 = (Go.MaxFloat64 <? x)%float.
Proof. unfold Go.IsInf. simpl. apply orb_false_r. Qed.

Lemma IsInf_neg (x : float) : Go.IsInf x (-1) = (x <? - Go.MaxFloat64)%float.
Proof. unfold Go.IsInf. reflexivity. Qed.

Lemma IsNaN_true (x : float) : Go.IsNaN x = true -> x = nan.
Proof.
  unfold Go.IsNaN. rewrite negb_true_iff, FloatAxioms.eqb_spec. intros H.
  apply Prim2SF_inj. change (Prim2SF nan) with S754_nan.
  destruct (Prim2SF x) as [s|s| |s m e]; try reflexivity; exfalso.
  - discriminate H.
  - destruct s; discriminate H.
  - unfold SFeqb, SFcompare in H. rewrite Z.compare_refl in H.
    rewrite Pos.compare_cont_refl in H. destruct s; discriminate H.
Qed.

Lemma IsNaN_false (x : float) : Go.IsNaN x = false -> (x =? x)%float = true.
Proof. unfold Go.IsNaN. apply negb_false_iff. Qed.

(** [math.Max(0, t)] is [max0 t]. *)
Lemma Max_zero (t : float) : Go.Max 0 t = max0 t.
Proof.
  unfold Go.Max. rewrite (IsInf_pos t).
  replace (Go.IsInf 0 1) with false by reflexivity. rewrite orb_false_l.
  destruct (Go.MaxFloat64 <? t)%float eqn:Hinf.
  { apply above_MaxFloat64 in Hinf. subst t. reflexivity. }
  replace (Go.IsNaN 0) with false by reflexivity. rewrite orb_false_l.
  destruct (Go.IsNaN t) eqn:Hnan.
  { apply IsNaN_true in Hnan. subst t. reflexivity. }
  apply IsNaN_false in Hnan.
  replace (0 =? 0)%float with true by reflexivity. rewrite andb_true_l.
  replace (Go.Signbit 0) with false by reflexivity.
  unfold max0. clear Hinf.
  destruct (0 =? t)%float eqn:Hz; [| destruct (t <? 0)%float eqn:Hneg];
    sf_cases t.
Qed.

Lemma total_nonneg (t : float) : (max0 t <? 0)%float = false.
Proof.
  unfold max0. destruct (0 <? t)%float eqn:Hpos.
  - sf_cases t.
  - destruct (t <=? 0)%float; reflexivity.
Qed.

(** The limited adjustment factor, case by case. *)
Lemma clamp_cases (f : float) :
  (f =? f)%float = true ->
  let c := Go.Max 0.8 (Go.Min 1.2 f) in
  c = 0.8%float \/ c = 1.2%float
  \/ (c = f /\ (f <? 0.8)%float = false /\ (1.2 <? f)%float = false).
Proof.
  intros Hf c. subst c.
  assert (Hnan : Go.IsNaN f = false) by (unfold Go.IsNaN; rewrite Hf; reflexivity).
  unfold Go.Min. rewrite (IsInf_neg f).
  replace (Go.IsInf 1.2 (-1)) with false by reflexivity. rewrite orb_false_l.
  destruct (f <? - Go.MaxFloat64)%float eqn:Hninf.
  { left. reflexivity. }
  replace (Go.IsNaN 1.2) with false by reflexivity.
  rewrite Hnan, orb_false_l.
  replace (1.2 =? 0)%float with false by reflexivity. rewrite andb_false_l.
  destruct (1.2 <? f)%float eqn:Hhi.
  { right. left. reflexivity. }
  unfold Go.Max. rewrite (IsInf_pos f).
  replace (Go.IsInf 0.8 1) with false by reflexivity. rewrite orb_false_l.
  destruct (Go.MaxFloat64 <? f)%float eqn:Hinf.
  { apply above_MaxFloat64 in Hinf. subst f. discriminate Hhi. }
  replace (Go.IsNaN 0.8) with false by reflexivity.
  rewrite Hnan, orb_false_l.
  replace (0.8 =? 0)%float with false by reflexivity. rewrite andb_false_l.
  destruct (f <? 0.8)%float eqn:Hlo.
  - left. reflexivity.
  - right. right. auto.
Qed.

Lemma clamp_bounds (f : float) :
  (f =? f)%float = true ->
  (0.8 <=? Go.Max 0.8 (Go.Min 1.2 f))%float = true
  /\ (Go.Max 0.8 (Go.Min 1.2 f) <=? 1.2)%float = true.
Proof.
  intros Hf. destruct (clamp_cases f Hf) as [-> | [-> | (-> & Hlo & Hhi)]].
  - split; reflexivity.
  - split; reflexivity.
  - split; apply ltb_false_leb; auto.
Qed.

(** ** One step of the tuner *)

Lemma scaled_within_nonneg (old c : float) :
  (0 <=? old)%float = true ->
  (0.8 <=? c)%float = true -> (c <=? 1.2)%float = true ->
  (old * 0.8 <=? old * c)%float = true
  /\ (old * c <=? old * 1.2)%float = true.
Proof.
  intros Hold Hlo Hhi.
  assert (H8 : Prim2SF 0.8 = S754_finite false 7205759403792794 (-53))
    by reflexivity.
  assert (H12 : Prim2SF 1.2 = S754_finite false 5404319552844595 (-52))
    by reflexivity.
  destruct (between_finite _ _ c _ _ _ _ H8 H12 Hlo Hhi) as (m & e & Hc).
  split; eapply mul_le_mono_nonneg; eassumption.
Qed.

Lemma unchanged_within_nonneg (old : float) :
  (0 <=? old)%float = true ->
  (old * 0.8 <=? old)%float = true /\ (old <=? old * 1.2)%float = true.
Proof.
  intros Hold.
  assert (H8 : Prim2SF 0.8 = S754_finite false 7205759403792794 (-53))
    by reflexivity.
  assert (H12 : Prim2SF 1.2 = S754_finite false 5404319552844595 (-52))
    by reflexivity.
  destruct (nonneg_cases old Hold) as [[s Hz] | [Hi | (m & e & Hf)]].
  - rewrite !FloatAxioms.leb_spec, (mul_zero_l old _ s _ _ Hz H8),
      (mul_zero_l old _ s _ _ Hz H12), Hz. split; reflexivity.
  - rewrite !FloatAxioms.leb_spec, (mul_inf_l old _ _ _ Hi H8),
      (mul_inf_l old _ _ _ Hi H12), Hi. split; reflexivity.
  - pose proof (Prim2SF_finite_bounds old _ _ _ Hf) as [Hc _].
    pose proof (hval_pos m e ltac:(lia)) as Hpos.
    rewrite !FloatAxioms.leb_spec. split.
    + apply (rounds_to_leb _ _ (hval m e * hval 7205759403792794 (-53))
               (hval m e * 2 ^ 1074)).
      * apply mul_rounds; assumption.
      * apply self_rounds; assumption.
      * apply Prim2SF_valid.
      * apply Prim2SF_valid.
      * apply Z.mul_pos_pos; [exact Hpos | reflexivity].
      * apply Z.mul_le_mono_nonneg_l; [lia |].
        apply Z.leb_le. vm_compute. reflexivity.
    + apply (rounds_to_leb _ _ (hval m e * 2 ^ 1074)
               (hval m e * hval 5404319552844595 (-52))).
      * apply self_rounds; assumption.
      * apply mul_rounds; assumption.
      * apply Prim2SF_valid.
      * apply Prim2SF_valid.
      * apply Z.mul_pos_pos; [exact Hpos | reflexivity].
      * apply Z.mul_le_mono_nonneg_l; [lia |].
        apply Z.leb_le. vm_compute. reflexivity.
Qed.

(** A coefficient times a factor within [0.8, 1.2] stays within the step. *)
Lemma scaled_within_step (old c : float) :
  is_number old ->
  (0.8 <=? c)%float = true -> (c <=? 1.2)%float = true ->
  within_step old (old * c).
Proof.
  intros Hold Hlo Hhi. destruct (sign_cases old Hold) as [Hpos|Hneg].
  - left. apply scaled_within_nonneg; assumption.
  - right. destruct (scaled_within_nonneg (- old) c Hneg Hlo Hhi) as [H8 H12].
    remember (- old)%float as x eqn:Hx.
    assert (E : old = (- x)%float) by (rewrite Hx, opp_involutive; reflexivity).
    rewrite E, !mul_opp_l, !leb_opp. auto.
Qed.

(** A coefficient left alone stays within the step. *)
Lemma unchanged_within_step (old : float) :
  is_number old -> within_step old old.
Proof.
  intros Hold. destruct (sign_cases old Hold) as [Hpos|Hneg].
  - left. apply unchanged_within_nonneg; assumption.
  - right. destruct (unchanged_within_nonneg (- old) Hneg) as [H8 H12].
    remember (- old)%float as x eqn:Hx.
    assert (E : old = (- x)%float) by (rewrite Hx, opp_involutive; reflexivity).
    rewrite E, !mul_opp_l, !leb_opp. auto.
Qed.

Lemma sum_nonneg (values : list float) (acc : float) :
  (0 <=? acc)%float = true ->
  Forall (fun v => (0 <? v)%float = true) values ->
  (0 <=? fold_left PrimFloat.add values acc)%float = true.
Proof.
  revert acc. induction values as [|v values IH]; intros acc Hacc Hall.
  - exact Hacc.
  - inversion Hall as [|? ? Hv Hrest]; subst. simpl. apply IH; [| exact Hrest].
    apply add_nonneg; [exact Hacc |].
    apply leb_zero_nonneg, ltb_zero_nonneg, Hv.
Qed.

(** The mean of a bucket of positive readings is not negative. *)
Lemma average_nonneg (bucket : list float) :
  Z.of_nat (length bucket) < 2 ^ 63 ->
  Forall (fun v => (0 <? v)%float = true) bucket ->
  sf_nonneg (Prim2SF (insulin.calculateAverage bucket)).
Proof.
  intros Hlen Hall. unfold insulin.calculateAverage.
  destruct bucket as [|v rest] eqn:Hb; [exact I |]. rewrite <- Hb in *.
  assert (Hn : (0 < length bucket)%nat) by (rewrite Hb; simpl; lia).
  destruct (float64_of_len_finite _ Hn Hlen) as (m & e & Hf).
  rewrite FloatAxioms.div_spec, Hf. apply SFdiv_nonneg.
  apply leb_zero_nonneg, sum_nonneg; [reflexivity | exact Hall].
Qed.

(** The adjustment factor of a bucket of positive readings is a number. *)
Lemma factor_defined (targetBG : float) (bucket : list float) :
  Z.of_nat (length bucket) < 2 ^ 63 ->
  Forall (fun v => (0 <? v)%float = true) bucket ->
  (0 <? targetBG)%float = true -> (targetBG <? infinity)%float = true ->
  let f := (targetBG / insulin.calculateAverage bucket)%float in
  (f =? f)%float = true.
Proof.
  intros Hlen Hall Hpos Hfin f. subst f.
  pose proof (average_nonneg bucket Hlen Hall) as Havg.
  rewrite FloatAxioms.eqb_spec, FloatAxioms.div_spec. apply SFeqb_refl.
  rewrite FloatAxioms.ltb_spec in Hpos, Hfin.
  change (Prim2SF 0) with (S754_zero false) in Hpos.
  change (Prim2SF infinity) with (S754_infinity false) in Hfin.
  destruct (Prim2SF targetBG) as [s|[]| |[] m e]; try discriminate.
  apply SFdiv_defined. exact Havg.
Qed.

Lemma groupReading_values (P : float -> Prop) (b : insulin.Buckets)
    (reading : BloodSugarReading) :
  all_buckets (Forall P) b -> P (Value reading) ->
  all_buckets (Forall P) (insulin.groupReading b reading).
Proof.
  intros (Hm & Ha & He & Hn) Hv. unfold insulin.groupReading.
  repeat match goal with
         | |- context [if ?c then _ else _] => destruct c
         end;
    unfold all_buckets; cbn [insulin.morningReadings insulin.afternoonReadings
                               insulin.eveningReadings insulin.nightReadings];
    repeat split; try assumption;
    apply Forall_app; split; try assumption; constructor; auto.
Qed.

(** The buckets hold values of the readings only. *)
Lemma groupReadings_values (P : float -> Prop)
    (readings : list BloodSugarReading) :
  Forall (fun r => P (Value r)) readings ->
  all_buckets (Forall P) (insulin.groupReadings readings).
Proof.
  unfold insulin.groupReadings.
  assert (H0 : all_buckets (Forall P) (insulin.mkBuckets [] [] [] []))
    by (repeat split; constructor).
  revert H0. generalize (insulin.mkBuckets [] [] [] []).
  induction readings as [|r readings IH]; intros b Hb Hall; [exact Hb |].
  inversion Hall; subst. simpl. apply IH; [| assumption].
  apply groupReading_values; assumption.
Qed.

Lemma groupReading_total (b : insulin.Buckets) (reading : BloodSugarReading) :
  bucketTotal (insulin.groupReading b reading) = S (bucketTotal b).
Proof.
  unfold insulin.groupReading, bucketTotal.
  repeat match goal with
         | |- context [if ?c then _ else _] => destruct c
         end;
    cbn [insulin.morningReadings insulin.afternoonReadings
           insulin.eveningReadings insulin.nightReadings];
    rewrite length_app; simpl; lia.
Qed.

(** Every reading lands in exactly one bucket. *)
Lemma groupReadings_total (readings : list BloodSugarReading) :
  bucketTotal (insulin.groupReadings readings) = length readings.
Proof.
  unfold insulin.groupReadings.
  change (length readings)
    with (bucketTotal (insulin.mkBuckets [] [] [] []) + length readings)%nat.
  generalize (insulin.mkBuckets [] [] [] []).
  induction readings as [|r readings IH]; intros b; simpl.
  - lia.
  - rewrite IH, groupReading_total. lia.
Qed.

(** What the tuner does to the coefficient of one bucket. *)
Lemma bucket_tuned (readings : list BloodSugarReading) (targetBG old : float)
    (bucket : list float) :
  Z.of_nat (length bucket) < 2 ^ 63 ->
  Forall (fun v => (0 <? v)%float = true) bucket ->
  (0 <? targetBG)%float = true -> (targetBG <? infinity)%float = true ->
  is_number old ->
  tuned readings targetBG bucket old
    (if (length readings <? 5)%nat then old
     else insulin.adjustBucket bucket targetBG old).
Proof.
  intros Hlen Hall Hpos Hfin Hold. unfold tuned, rescales.
  destruct (Nat.ltb_spec (length readings) 5) as [Hfew|Hmany].
  - destruct (Nat.leb_spec 5 (length readings)); [lia |].
    split; [reflexivity | apply unchanged_within_step; exact Hold].
  - destruct (Nat.leb_spec 5 (length readings)); [| lia].
    unfold insulin.adjustBucket, insulin.adjustCoefficient.
    destruct (3 <=? length bucket)%nat;
      [| split; [reflexivity | apply unchanged_within_step; exact Hold]].
    destruct (Go.Abs _ <? 1.0)%float;
      [split; [reflexivity | apply unchanged_within_step; exact Hold] |].
    split; [reflexivity |].
    pose proof (factor_defined targetBG bucket Hlen Hall Hpos Hfin) as Hf.
    destruct (clamp_bounds _ Hf) as [Hlo Hhi].
    apply scaled_within_step; assumption.
Qed.

(** * The properties of the specification *)

(** ** TimeResolver: the period scan *)

Lemma periodCoefficient_find (periods : list InsulinPeriod) (hour : Z) :
  handlers.periodCoefficient periods hour =
  match find (covers hour) periods with
  | Some period => Coefficient period
  | None => 1.0%float
  end.
Proof.
  induction periods as [|period rest IH]; simpl.
  - reflexivity.
  - unfold covers at 1. destruct (_ && _); [reflexivity | exact IH].
Qed.

(** C8, as stated, fails: a period from 06:00 lasting 1.5 hours declares
    the range from 6 to 7.5, which contains hour 7, but the scan adds the
    duration converted to [int] and finds no period. *)
Lemma resolver_declared_range_counterexample :
  resolve_declared ninetyMinutes 7 = 1.2%float
  /\ handlers.periodCoefficient ninetyMinutes 7 = 1.0%float
  /\ handlers.periodCoefficient ninetyMinutes 7
     <> resolve_declared ninetyMinutes 7.
Proof.
  split; [reflexivity | split; [reflexivity |]].
  intros H. apply (f_equal (fun x => PrimFloat.eqb x 1.0)) in H.
  vm_compute in H. discriminate H.
Qed.

(** C8 (amended): the scan follows the list in its given order and returns
    the coefficient of the first period with
    [startHour <= hour < startHour + int(durationHours)], the duration
    converted to [int] and the sum taken in [int] arithmetic; without such
    a period it returns exactly 1.0.  Hour 7 against the four quadrants
    resolves to 1.2. *)
Theorem resolver_first_match :
  (forall (periods : list InsulinPeriod) (hour : Z),
      handlers.periodCoefficient periods hour
      = match find (covers hour) periods with
        | Some period => Coefficient period
        | None => 1.0%float
        end
      /\ (forall before period after,
             periods = before ++ period :: after ->
             forallb (fun p => negb (covers hour p)) before = true ->
             covers hour period = true ->
             handlers.periodCoefficient periods hour = Coefficient period)
      /\ (forallb (fun p => negb (covers hour p)) periods = true ->
          handlers.periodCoefficient periods hour = 1.0%float))
  /\ handlers.periodCoefficient quadrantSet 7 = 1.2%float.
Proof.
  split; [| reflexivity].
  intros periods hour. split; [apply periodCoefficient_find | split].
  - intros before period after -> Hbefore Hcov.
    induction before as [|q before IH]; simpl in *.
    + fold (covers hour period). rewrite Hcov. reflexivity.
    + apply andb_prop in Hbefore as [Hq Hbefore].
      fold (covers hour q). apply negb_true_iff in Hq. rewrite Hq.
      exact (IH Hbefore).
  - intros Hnone. induction periods as [|q rest IH]; simpl in *.
    + reflexivity.
    + apply andb_prop in Hnone as [Hq Hnone].
      fold (covers hour q). apply negb_true_iff in Hq. rewrite Hq.
      exact (IH Hnone).
Qed.

Lemma resolver_first_match_witness :
  handlers.periodCoefficient quadrantSet 7 = 1.2%float.
Proof.
  apply (proj1 (proj2 (proj1 resolver_first_match quadrantSet 7))
           [mkInsulinPeriod "00:00" 1.0 6]
           (mkInsulinPeriod "06:00" 1.2 6)
           [mkInsulinPeriod "12:00" 1.0 6; mkInsulinPeriod "18:00" 1.1 6]);
    reflexivity.
Defined.

(** The fixed-quadrant lookup of the legacy record agrees on that
    example. *)
Example quadrant_lookup_hour_7 :
  insulin.GetTimeBasedCoefficient (time.at_hour 10 7)
    (InsulinPeriodsToBaseCoefficients quadrantSet) = 1.2%float.
Proof. reflexivity. Qed.

(** ** The two-way conversion between quadrants and periods *)

(** C10: converting a four-quadrant record to periods and back is the
    identity. *)
Theorem quadrants_periods_roundtrip (b : BaseInsulinCoefficients) :
  InsulinPeriodsToBaseCoefficients (ConvertToInsulinPeriods b) = b.
Proof.
  destruct b as [morning afternoon evening night]. reflexivity.
Qed.

(** ** DosingCalculator *)

(** The correction of the request handler, for a user with a positive
    target and a positive first sensitivity: the quotient when the last
    reading is above the target, 0 otherwise. *)
Lemma handler_correction_floor (settings : Settings) (carbs : float)
    (hour : Z) (last : BloodSugarReading) (rest : list BloodSugarReading)
    (cr : CarbRatioPeriod) (crs : list CarbRatioPeriod)
    (sp : SensitivityPeriod) (sps : list SensitivityPeriod) :
  CarbRatioPeriods settings = cr :: crs ->
  SensitivityPeriods settings = sp :: sps ->
  (0 <? TargetMin settings)%float = true ->
  (0 <? Sensitivity sp)%float = true ->
  option_map handlers.correctionInsulin
    (handlers.computeDose settings carbs hour (last :: rest))
  = Some (if (0 <? Value last - TargetMin settings)%float
          then ((Value last - TargetMin settings) / Sensitivity sp)%float
          else 0%float).
Proof.
  intros Hcr Hsp Htarget Hsens. unfold handlers.computeDose.
  rewrite Hcr, Hsp, Htarget, Hsens.
  destruct (0 <? Value last - TargetMin settings)%float; reflexivity.
Qed.

(** C1 at a glucose value below target: [CalculateCorrectionInsulin]
    returns the signed quotient, here -0.5, while the correction the
    request handler computes for the same reading is 0. *)
Theorem correction_below_target :
  insulin.CalculateCorrectionInsulin 5.0 6.0 2.0 = (-0.5)%float
  /\ (insulin.CalculateCorrectionInsulin 5.0 6.0 2.0 <? 0)%float = true
  /\ option_map handlers.correctionInsulin
       (handlers.computeDose halfDaySettings 0 3 [readingAt 5.0 3])
     = Some 0%float.
Proof. repeat split; reflexivity. Qed.

(** C2 at hour 13 with half-day sets: the dose divides by the first carb
    ratio (12) and the first sensitivity (2.0), although the periods that
    contain hour 13 carry 10 and 1.0. *)
Theorem dose_uses_first_periods :
  handlers.computeDose halfDaySettings 60 13 [readingAt 8.0 12]
  = Some (handlers.mkDose 5 1 6 1)
  /\ ratioAt (CarbRatioPeriods halfDaySettings) 13 = Some 10%float
  /\ sensitivityAt (SensitivityPeriods halfDaySettings) 13 = Some 1%float.
Proof. repeat split; reflexivity. Qed.

(** C4: the total dose is [max(0, meal + correction - onBoard)]: the sum
    itself when it is positive, exactly 0 when it is zero or negative
    (insulin on board never drives it below zero), and in no case a
    negative value. *)
Theorem total_insulin_floor
    (mealInsulin correctionInsulin insulinOnBoard : float) :
  insulin.CalculateTotalInsulin mealInsulin correctionInsulin insulinOnBoard
  = max0 (mealInsulin + correctionInsulin - insulinOnBoard)%float
  /\ (insulin.CalculateTotalInsulin mealInsulin correctionInsulin
        insulinOnBoard <? 0)%float = false.
Proof.
  unfold insulin.CalculateTotalInsulin. rewrite Max_zero.
  split; [reflexivity | apply total_nonneg].
Qed.

Example total_insulin_scenario :
  insulin.CalculateTotalInsulin 6.0 1.5 2.0 = 5.5%float
  /\ insulin.CalculateTotalInsulin 1.0 0.5 4.0 = 0%float
  /\ insulin.CalculateMealInsulin 50 10 1.2 = 6.0%float.
Proof. repeat split; reflexivity. Qed.

(** ** AdaptiveTuner *)

(** C7: with fewer than five readings the tuner returns its input; the
    function is total and has no failure case. *)
Theorem tuner_input_gate (readings : list BloodSugarReading)
    (targetBG : float) (current : BaseInsulinCoefficients) :
  (length readings < 5)%nat ->
  insulin.AdjustInsulinCoefficients readings targetBG current = current.
Proof.
  intros Hlen. unfold insulin.AdjustInsulinCoefficients.
  destruct (Nat.ltb_spec (length readings) 5) as [_|Hge]; [reflexivity | lia].
Qed.

Lemma tuner_input_gate_witness :
  insulin.AdjustInsulinCoefficients fourReadings 6.0 unit_coefficients
  = unit_coefficients.
Proof.
  apply (tuner_input_gate fourReadings 6.0 unit_coefficients).
  simpl. lia.
Defined.

Lemma adjustBucket_settled (targetBG current : float) (bucket : list float) :
  settled targetBG bucket ->
  insulin.adjustBucket bucket targetBG current = current.
Proof.
  unfold settled, insulin.adjustBucket, insulin.adjustCoefficient.
  intros Hs. destruct (Nat.leb_spec 3 (length bucket)) as [Hge|_].
  - rewrite (Hs Hge). reflexivity.
  - reflexivity.
Qed.

(** C6: when every bucket holding at least three readings has a mean
    within 1.0 of the target, the tuner returns its input exactly, and so
    a second run on the same readings changes nothing further. *)
Theorem tuner_settled_is_noop (readings : list BloodSugarReading)
    (targetBG : float) (current : BaseInsulinCoefficients) :
  all_buckets (settled targetBG) (insulin.groupReadings readings) ->
  insulin.AdjustInsulinCoefficients readings targetBG current = current
  /\ insulin.AdjustInsulinCoefficients readings targetBG
       (insulin.AdjustInsulinCoefficients readings targetBG current)
     = insulin.AdjustInsulinCoefficients readings targetBG current.
Proof.
  intros (Hm & Ha & He & Hn).
  assert (Hnoop : forall c,
             insulin.AdjustInsulinCoefficients readings targetBG c = c).
  { intros [m a e n]. unfold insulin.AdjustInsulinCoefficients.
    destruct (length readings <? 5)%nat; [reflexivity |].
    cbn [Morning Afternoon Evening Night].
    rewrite !adjustBucket_settled by assumption. reflexivity. }
  split; [apply Hnoop | rewrite !Hnoop; reflexivity].
Qed.

Lemma tuner_settled_is_noop_witness :
  insulin.AdjustInsulinCoefficients nearTarget 6.0 unit_coefficients
  = unit_coefficients
  /\ insulin.AdjustInsulinCoefficients nearTarget 6.0
       (insulin.AdjustInsulinCoefficients nearTarget 6.0 unit_coefficients)
     = insulin.AdjustInsulinCoefficients nearTarget 6.0 unit_coefficients.
Proof.
  apply (tuner_settled_is_noop nearTarget 6.0 unit_coefficients).
  repeat split; unfold settled;
    first [ intros _; vm_compute; reflexivity
          | intros Hlen; vm_compute in Hlen; lia ].
Defined.

(** C5, as stated, fails: five morning readings with mean 6.5 against a
    target of 6.0 qualify the morning bucket, and the stated rule gives
    the coefficient 1.0 * clamp(6.0 / 6.5, 0.8, 1.2), about 0.923; the
    tuner finds the mean within 1.0 of the target and keeps 1.0. *)
Lemma tuner_rescale_counterexample :
  Morning (insulin.AdjustInsulinCoefficients nearTarget 6.0 unit_coefficients)
  = 1.0%float
  /\ stated_coefficient 6.0
       (insulin.morningReadings (insulin.groupReadings nearTarget)) 1.0
     = 0.92307692307692313%float
  /\ Morning (insulin.AdjustInsulinCoefficients nearTarget 6.0
                unit_coefficients)
     <> stated_coefficient 6.0
          (insulin.morningReadings (insulin.groupReadings nearTarget)) 1.0.
Proof.
  split; [reflexivity | split; [reflexivity |]].
  intros H. apply (f_equal (fun x => PrimFloat.eqb x 1.0)) in H.
  vm_compute in H. discriminate H.
Qed.

(** C5 (amended): for readings (fewer than 2^63, as in any slice) with
    positive values, a positive finite target and input coefficients that
    are numbers, each quadrant
    coefficient after one invocation lies between 0.8 times and 1.2 times
    the input coefficient: a bucket with at least three readings (of at
    least five in all) whose mean is 1.0 or more away from the target gets
    the input coefficient times clamp(targetBG / mean, 0.8, 1.2), and
    every other bucket keeps its coefficient. *)
Theorem tuner_step_bounds (readings : list BloodSugarReading)
    (targetBG : float) (current : BaseInsulinCoefficients) :
  Z.of_nat (length readings) < 2 ^ 63 ->
  Forall (fun r => (0 <? Value r)%float = true) readings ->
  (0 <? targetBG)%float = true -> (targetBG <? infinity)%float = true ->
  is_number (Morning current) -> is_number (Afternoon current) ->
  is_number (Evening current) -> is_number (Night current) ->
  let b := insulin.groupReadings readings in
  let result := insulin.AdjustInsulinCoefficients readings targetBG current in
  tuned readings targetBG (insulin.morningReadings b)
    (Morning current) (Morning result)
  /\ tuned readings targetBG (insulin.afternoonReadings b)
       (Afternoon current) (Afternoon result)
  /\ tuned readings targetBG (insulin.eveningReadings b)
       (Evening current) (Evening result)
  /\ tuned readings targetBG (insulin.nightReadings b)
       (Night current) (Night result).
Proof.
  intros Hlen Hall Hpos Hfin Hm Ha He Hn b result.
  destruct (groupReadings_values (fun v => (0 <? v)%float = true) readings
              Hall) as (Vm & Va & Ve & Vn).
  pose proof (groupReadings_total readings) as Htotal.
  unfold bucketTotal in Htotal. fold b in Vm, Va, Ve, Vn, Htotal.
  assert (Hresult :
    result
    = {| Morning := if (length readings <? 5)%nat then Morning current
                    else insulin.adjustBucket (insulin.morningReadings b)
                           targetBG (Morning current);
         Afternoon := if (length readings <? 5)%nat then Afternoon current
                      else insulin.adjustBucket (insulin.afternoonReadings b)
                             targetBG (Afternoon current);
         Evening := if (length readings <? 5)%nat then Evening current
                    else insulin.adjustBucket (insulin.eveningReadings b)
                           targetBG (Evening current);
         Night := if (length readings <? 5)%nat then Night current
                  else insulin.adjustBucket (insulin.nightReadings b)
                         targetBG (Night current) |}).
  { subst result. unfold insulin.AdjustInsulinCoefficients. fold b.
    destruct (length readings <? 5)%nat; [destruct current |]; reflexivity. }
  rewrite Hresult. cbn [Morning Afternoon Evening Night].
  repeat split; apply bucket_tuned; (assumption || lia).
Qed.

Lemma tuner_step_bounds_witness :
  tuned highMorning 6.0
    (insulin.morningReadings (insulin.groupReadings highMorning)) 1.0
    (Morning (insulin.AdjustInsulinCoefficients highMorning 6.0
                unit_coefficients)).
Proof.
  apply (tuner_step_bounds highMorning 6.0 unit_coefficients);
    first [ reflexivity | repeat constructor ].
Defined.

(** ** Reading ingestion *)


(** C3 on a user still on the default settings: the fifth reading arrives,
    all five readings sit at the target, and the tuner returns the
    coefficients it was given; yet the stored single 24-hour period is
    replaced by four quadrant periods and the response reports
    [coefficientsAdjusted = true]. *)
Theorem ingestion_rewrites_default_periods :
  insulin.AdjustInsulinCoefficients
    (mkReading 4.0 (handlers.nowReading requestClock) ""
       :: BloodSugarReadings defaultUser)
    (TargetMin (uSettings defaultUser))
    (InsulinPeriodsToBaseCoefficients (InsulinPeriods (uSettings defaultUser)))
  = InsulinPeriodsToBaseCoefficients (InsulinPeriods (uSettings defaultUser))
  /\ option_map handlers.coefficientsAdjusted
       (responseBody
          (fst (handlers.SaveBloodSugar requestClock defaultStore
                  fifthReading)))
     = Some true
  /\ InsulinPeriods (uSettings defaultUser)
     = [ mkInsulinPeriod "00:00" 1.0 24 ]
  /\ option_map (fun u => InsulinPeriods (uSettings u))
       (snd (handlers.SaveBloodSugar requestClock defaultStore fifthReading)
          !! "u")
     = Some (ConvertToInsulinPeriods unit_coefficients).
Proof. repeat split; vm_compute; reflexivity. Qed.

(** ** PeriodSetValidator *)

Section ValidatorFacts.

Variable toFixed : float -> Z -> string.

Lemma totalHours_snoc (periods : list web.Period) (period : web.Period) :
  web.totalHours (periods ++ [period])
  = (web.totalHours periods
     + (web.endHour period - web.startHour period))%float.
Proof. unfold web.totalHours. rewrite fold_left_app. reflexivity. Qed.

(** The accumulation of [forEach] is the sum of the durations. *)
Lemma totalHours_durationSum (periods : list web.Period) :
  web.totalHours periods = durationSum periods.
Proof.
  unfold web.totalHours, durationSum. generalize 0%float as total.
  induction periods as [|period rest IH]; intros total; [reflexivity|].
  cbn [fold_left sumFrom]. apply IH.
Qed.

Lemma durationSum_snoc (periods : list web.Period) (period : web.Period) :
  durationSum (periods ++ [period])
  = (durationSum periods
     + (web.endHour period - web.startHour period))%float.
Proof. rewrite <- !totalHours_durationSum. apply totalHours_snoc. Qed.

Lemma validateWith_reported (type displayId : string)
    (periods : list web.Period) :
  reported (web.validateWith toFixed type displayId periods)
  = Some ((durationSum periods =? 24)%float,
          verdictText toFixed (durationSum periods)).
Proof.
  unfold web.validateWith, verdictText. rewrite totalHours_durationSum.
  destruct (durationSum periods =? 24)%float; reflexivity.
Qed.

End ValidatorFacts.

(** C9: for each of the three editors the validator answers [true]
    exactly when the sum of the periods' durations equals 24 under
    [===], with no tolerance, and on failure the display carries that
    very sum (formatted by [toFixed]).  The sum is what the loop of
    the validator accumulates, the end hours less the start hours: 0
    for no period, and with one more period the sum so far plus that
    period's end hour less its start hour.  An empty collection is
    reported invalid with the sum 0; the four quadrants of six hours
    are reported valid, and without the night they are reported invalid
    with the sum 18. *)
Theorem validator_exact_24 (toFixed : float -> Z -> string)
    (page : web.Page) :
  reported (web.validatePeriods toFixed page "insulin")
  = Some ((durationSum (web.insulinPeriods page) =? 24)%float,
          verdictText toFixed (durationSum (web.insulinPeriods page)))
  /\ reported (web.validatePeriods toFixed page "sensitivity")
     = Some ((durationSum (web.sensitivityPeriods page) =? 24)%float,
             verdictText toFixed
               (durationSum (web.sensitivityPeriods page)))
  /\ reported (web.validatePeriods toFixed page "carb-ratio")
     = Some ((durationSum (web.carbRatioPeriods page) =? 24)%float,
             verdictText toFixed (durationSum (web.carbRatioPeriods page)))
  /\ (forall periods, web.totalHours periods = durationSum periods)
  /\ durationSum [] = 0%float
  /\ (forall periods period,
        durationSum (periods ++ [period])
        = (durationSum periods
           + (web.endHour period - web.startHour period))%float)
  /\ (forall type displayId,
         reported (web.validateWith toFixed type displayId [])
         = Some (false, ("Текущая сумма: " ++ toFixed 0%float 2
                           ++ " часов из 24 необходимых")%string))
  /\ (forall type displayId,
         reported (web.validateWith toFixed type displayId quadrantRows)
         = Some (true, "Сумма периодов: 24 часа (правильно)"))
  /\ (forall type displayId,
         reported (web.validateWith toFixed type displayId dayRows)
         = Some (false, ("Текущая сумма: " ++ toFixed 18%float 2
                           ++ " часов из 24 необходимых")%string)).
Proof.
  repeat split; try apply validateWith_reported;
    try apply totalHours_durationSum; try apply durationSum_snoc;
    reflexivity.
Qed.

(** * Further properties of the code *)

(** ** The in-memory store *)

Lemma user_eta (user : User) :
  mkUser (uUserID user) (uSettings user) (BloodSugarReadings user) = user.
Proof. destruct user; reflexivity. Qed.

Lemma sublist_list_filter {A : Type} (f : A -> bool) (l : list A) :
  sublist (List.filter f l) l.
Proof.
  induction l as [|x l IH]; simpl.
  - constructor.
  - destruct (f x); [apply sublist_skip | apply sublist_cons]; exact IH.
Qed.

Lemma Forall_list_filter {A : Type} (f : A -> bool) (l : list A) :
  Forall (fun x => f x = true) (List.filter f l).
Proof.
  induction l as [|x l IH]; simpl.
  - constructor.
  - destruct (f x) eqn:E; [constructor; assumption | exact IH].
Qed.

(** Whether a reading taken at [t] lies in the window that starts at
    [startDate]. *)
Lemma in_window_spec (t startDate : time.Time) :
  time.After t startDate || time.Equal t startDate = true
  <-> time.wall startDate <= time.wall t.
Proof.
  unfold time.After, time.Equal.
  rewrite orb_true_iff, Z.ltb_lt, Z.eqb_eq. lia.
Qed.

Lemma recent_of_user (st : storage.Store) (userID : string) (user : User)
    (limit : Z) (startDate : time.Time) :
  st !! userID = Some user ->
  storage.GetRecentBloodSugarReadings st userID limit startDate
  = storage.Ok
      (let filteredReadings :=
         List.filter (fun reading =>
                        time.After (Timestamp reading) startDate
                        || time.Equal (Timestamp reading) startDate)
           (BloodSugarReadings user) in
       if (0 <? limit) && (limit <? Z.of_nat (length filteredReadings))
       then firstn (Z.to_nat limit) filteredReadings
       else filteredReadings) st.
Proof. intros H. unfold storage.GetRecentBloodSugarReadings. rewrite H. reflexivity. Qed.

(** X1.  A reading that has just been added is the most recent one: when
    it lies in the window, a query for one reading returns it alone and a
    query without limit returns it in front of what was returned before;
    when it lies before the window, queries return what they did. *)
Theorem added_reading_is_most_recent (st st' : storage.Store)
    (userID : string) (r : BloodSugarReading) (startDate : time.Time) :
  storage.AddBloodSugarReading st userID r = storage.Ok tt st' ->
  (since startDate r ->
     storage.GetRecentBloodSugarReadings st' userID 1 startDate
     = storage.Ok [r] st'
     /\ forall rs,
          storage.GetRecentBloodSugarReadings st userID 0 startDate
          = storage.Ok rs st ->
          storage.GetRecentBloodSugarReadings st' userID 0 startDate
          = storage.Ok (r :: rs) st')
  /\ (~ since startDate r ->
      forall limit rs,
        storage.GetRecentBloodSugarReadings st userID limit startDate
        = storage.Ok rs st ->
        storage.GetRecentBloodSugarReadings st' userID limit startDate
        = storage.Ok rs st').
Proof.
  unfold storage.AddBloodSugarReading.
  destruct (st !! userID) as [user|] eqn:Hu; [|discriminate].
  intros H. injection H as <-.
  set (user' := mkUser _ _ _).
  assert (Hu' : <[userID := user']> st !! userID = Some user')
    by apply lookup_insert_eq.
  split.
  - intros Hin. apply in_window_spec in Hin.
    split.
    + rewrite (recent_of_user _ _ _ _ _ Hu'). cbn [BloodSugarReadings user'].
      cbn [List.filter]. rewrite Hin. cbn [length].
      destruct (List.filter _ (BloodSugarReadings user)) as [|x l];
        [reflexivity|].
      replace (1 <? Z.of_nat (S (length (x :: l)))) with true
        by (symmetry; apply Z.ltb_lt; cbn [length]; lia).
      reflexivity.
    + intros rs. rewrite (recent_of_user _ _ _ _ _ Hu), (recent_of_user _ _ _ _ _ Hu').
      cbn [BloodSugarReadings user' List.filter]. rewrite Hin.
      cbn [Z.ltb Z.compare andb]. intros H. injection H as <-. reflexivity.
  - intros Hout limit rs.
    rewrite (recent_of_user _ _ _ _ _ Hu), (recent_of_user _ _ _ _ _ Hu').
    cbn [BloodSugarReadings user' List.filter].
    destruct (time.After (Timestamp r) startDate
              || time.Equal (Timestamp r) startDate) eqn:E.
    + apply in_window_spec in E. contradiction.
    + intros H. injection H as <-. reflexivity.
Qed.

Lemma added_reading_is_most_recent_witness :
  storage.GetRecentBloodSugarReadings
    (<["u" := mkUser "u" (uSettings defaultUser)
                (readingAt 5.0 8 :: BloodSugarReadings defaultUser)]>
       defaultStore) "u" 1 (time.at_hour 3 0)
  = storage.Ok [readingAt 5.0 8]
      (<["u" := mkUser "u" (uSettings defaultUser)
                  (readingAt 5.0 8 :: BloodSugarReadings defaultUser)]>
         defaultStore).
Proof.
  refine (proj1 (proj1 (added_reading_is_most_recent defaultStore _ "u"
                          (readingAt 5.0 8) (time.at_hour 3 0) _) _)).
  - reflexivity.
  - unfold since. vm_compute. discriminate.
Defined.

Lemma recent_shape (st st' : storage.Store) (userID : string)
    (limit : Z) (startDate : time.Time) (rs : list BloodSugarReading) :
  storage.GetRecentBloodSugarReadings st userID limit startDate
  = storage.Ok rs st' ->
  st' = st
  /\ (exists user,
        st !! userID = Some user
        /\ sublist rs (BloodSugarReadings user)
        /\ (limit <= 0 ->
            forall r, In r (BloodSugarReadings user) -> since startDate r ->
                      In r rs))
  /\ Forall (since startDate) rs
  /\ (0 < limit -> Z.of_nat (length rs) <= limit).
Proof.
  destruct (st !! userID) as [user|] eqn:Hu;
    [| unfold storage.GetRecentBloodSugarReadings; rewrite Hu; discriminate].
  rewrite (recent_of_user _ _ _ _ _ Hu). cbv zeta.
  set (inWindow := fun reading : BloodSugarReading => _).
  set (filtered := List.filter inWindow (BloodSugarReadings user)).
  intros H. injection H as Hrs <-. split; [reflexivity|].
  assert (Hsub : sublist rs filtered).
  { subst rs. destruct (_ && _); [apply sublist_take | reflexivity]. }
  split; [|split].
  - exists user. split; [reflexivity|]. split.
    + etransitivity; [exact Hsub | apply sublist_list_filter].
    + intros Hlim r Hin Hr.
      replace (0 <? limit) with false in Hrs
        by (symmetry; apply Z.ltb_ge; lia).
      cbn [andb] in Hrs. subst rs. apply filter_In. split; [exact Hin|].
      apply in_window_spec. exact Hr.
  - assert (Hall : Forall (since startDate) filtered).
    { eapply Forall_impl; [apply Forall_list_filter|].
      intros r Hr. apply in_window_spec. exact Hr. }
    rewrite Forall_forall in *. intros r Hr. apply Hall.
    exact (elem_of_sublist _ _ _ Hr Hsub).
  - intros Hpos. subst rs.
    replace (0 <? limit) with true by (symmetry; apply Z.ltb_lt; lia).
    cbn [andb].
    destruct (limit <? Z.of_nat (length filtered)) eqn:E.
    + apply Z.ltb_lt in E. rewrite length_take. lia.
    + apply Z.ltb_ge in E. exact E.
Qed.

(** X2.  What a query returns: readings of the user, in their stored
    order, all taken at [startDate] or later, and at most [limit] of them
    when [limit] is positive; without a positive limit none of the
    window is left out.  The store is left as it was. *)
Theorem recent_readings_window (st st' : storage.Store) (userID : string)
    (limit : Z) (startDate : time.Time) (rs : list BloodSugarReading) :
  storage.GetRecentBloodSugarReadings st userID limit startDate
  = storage.Ok rs st' ->
  st' = st
  /\ (exists user,
        st !! userID = Some user
        /\ sublist rs (BloodSugarReadings user)
        /\ (limit <= 0 ->
            forall r, In r (BloodSugarReadings user) -> since startDate r ->
                      In r rs))
  /\ Forall (since startDate) rs
  /\ (0 < limit -> Z.of_nat (length rs) <= limit).
Proof. apply recent_shape. Qed.

Lemma recent_readings_window_witness :
  Forall (since (time.at_hour 3 0))
    (firstn 2 (BloodSugarReadings defaultUser)).
Proof.
  refine (proj1 (proj2 (proj2 (recent_readings_window defaultStore
                                 defaultStore "u" 2 (time.at_hour 3 0)
                                 _ _)))).
  reflexivity.
Defined.

Lemma removeReading_split (t : time.Time) (rs rest : list BloodSugarReading) :
  storage.removeReading t rs = Some rest ->
  exists pre r post,
    rs = pre ++ r :: post /\ rest = pre ++ post
    /\ time.Equal (Timestamp r) t = true /\ none_at t pre.
Proof.
  revert rest. induction rs as [|x rs IH]; intros rest; simpl.
  - discriminate.
  - destruct (time.Equal (Timestamp x) t) eqn:E.
    + intros H. injection H as <-.
      exists [], x, rs. repeat split; try assumption. constructor.
    + destruct (storage.removeReading t rs) as [rest'|]; [|discriminate].
      intros H. injection H as <-.
      destruct (IH rest' eq_refl) as (pre & r & post & -> & -> & Hr & Hpre).
      exists (x :: pre), r, post. repeat split; try assumption.
      constructor; assumption.
Qed.

Lemma removeReading_none (t : time.Time) (rs : list BloodSugarReading) :
  storage.removeReading t rs = None <-> none_at t rs.
Proof.
  unfold none_at. induction rs as [|x rs IH]; simpl.
  - split; [constructor | reflexivity].
  - destruct (time.Equal (Timestamp x) t) eqn:E.
    + split; [discriminate|]. intros H. inversion H; congruence.
    + destruct (storage.removeReading t rs).
      * split; [discriminate|]. intros H. inversion H as [|? ? _ H']; subst.
        apply IH in H'. discriminate.
      * split; [|reflexivity]. intros _. constructor; [exact E|].
        apply IH. reflexivity.
Qed.

(** X3.  Deleting by the timestamp of the reading that has just been
    added removes that reading, also when older readings carry the same
    timestamp, and leaves the store exactly as it was before the
    addition. *)
Theorem delete_undoes_add (Parse : string -> time.Time + string)
    (st st1 : storage.Store) (userID timestamp : string)
    (r : BloodSugarReading) :
  Parse timestamp = inl (Timestamp r) ->
  storage.AddBloodSugarReading st userID r = storage.Ok tt st1 ->
  storage.DeleteBloodSugarReading Parse st1 userID timestamp
  = storage.Ok tt st.
Proof.
  intros Hp. unfold storage.AddBloodSugarReading.
  destruct (st !! userID) as [user|] eqn:Hu; [|discriminate].
  intros H. injection H as <-.
  unfold storage.DeleteBloodSugarReading. rewrite Hp, lookup_insert_eq.
  cbn [BloodSugarReadings storage.removeReading uUserID uSettings].
  unfold time.Equal. rewrite Z.eqb_refl.
  rewrite insert_insert_eq, user_eta, (insert_id _ _ _ Hu). reflexivity.
Qed.

Lemma delete_undoes_add_witness :
  storage.DeleteBloodSugarReading (parsesTo (time.at_hour 10 8))
    (<["u" := mkUser "u" (uSettings defaultUser)
                (readingAt 5.0 8 :: BloodSugarReadings defaultUser)]>
       defaultStore) "u" "2024-01-10T08:00:00Z"
  = storage.Ok tt defaultStore.
Proof.
  apply (delete_undoes_add (parsesTo (time.at_hour 10 8)) defaultStore _
           "u" "2024-01-10T08:00:00Z" (readingAt 5.0 8));
    reflexivity.
Defined.

(** X4.  A successful deletion removes one reading: the first one, in
    stored order, whose timestamp equals the parsed one.  The readings
    before and after it, the user's settings and all other users stay;
    when no reading of the user carries the timestamp the call fails. *)
Theorem delete_removes_first_match (Parse : string -> time.Time + string)
    (st : storage.Store) (userID timestamp : string) (t : time.Time)
    (user : User) :
  Parse timestamp = inl t ->
  st !! userID = Some user ->
  (none_at t (BloodSugarReadings user)
   /\ storage.DeleteBloodSugarReading Parse st userID timestamp
      = storage.Err "no reading found with the specified timestamp")
  \/ (exists pre r post,
        BloodSugarReadings user = pre ++ r :: post
        /\ none_at t pre
        /\ time.Equal (Timestamp r) t = true
        /\ storage.DeleteBloodSugarReading Parse st userID timestamp
           = storage.Ok tt
               (<[userID := mkUser (uUserID user) (uSettings user)
                              (pre ++ post)]> st)).
Proof.
  intros Hp Hu. unfold storage.DeleteBloodSugarReading. rewrite Hp, Hu.
  destruct (storage.removeReading t (BloodSugarReadings user)) as [rest|] eqn:E.
  - right. destruct (removeReading_split _ _ _ E)
      as (pre & r & post & Hrs & -> & Hr & Hpre).
    exists pre, r, post. repeat split; assumption.
  - left. split; [apply removeReading_none; exact E | reflexivity].
Qed.

Lemma delete_removes_first_match_witness :
  exists pre r post,
    BloodSugarReadings defaultUser = pre ++ r :: post
    /\ none_at (time.at_hour 10 7) pre
    /\ time.Equal (Timestamp r) (time.at_hour 10 7) = true
    /\ storage.DeleteBloodSugarReading (parsesTo (time.at_hour 10 7))
         defaultStore "u" "2024-01-10T07:00:00Z"
       = storage.Ok tt
           (<["u" := mkUser (uUserID defaultUser) (uSettings defaultUser)
                       (pre ++ post)]> defaultStore).
Proof.
  destruct (delete_removes_first_match (parsesTo (time.at_hour 10 7))
              defaultStore "u" "2024-01-10T07:00:00Z" (time.at_hour 10 7)
              defaultUser eq_refl eq_refl) as [[Hnone _]|H].
  - exfalso. inversion Hnone as [|? ? Hx _]. vm_compute in Hx. discriminate.
  - exact H.
Defined.

Lemma ensureValid_indexable (now : time.Time) (s : Settings) :
  indexable (storage.ensureValidSettingsMemory now s).
Proof.
  unfold indexable, storage.ensureValidSettingsMemory. cbn.
  repeat split.
  - destruct (InsulinPeriods s); discriminate.
  - destruct (SensitivityPeriods s); discriminate.
  - destruct (CarbRatioPeriods s); discriminate.
Qed.



(** X6.  [SaveUserSettings] fails for an empty user id only.  Otherwise
    the settings are stored as given, without normalisation, and read
    back unchanged; the user keeps the readings they had, and a user who
    did not exist starts with none. *)
Theorem saved_settings_read_back (st : storage.Store) (s : Settings) :
  if String.eqb (UserID s) "" then
    storage.SaveUserSettings st s = storage.Err "user ID is required"
  else
    exists st',
      storage.SaveUserSettings st s = storage.Ok tt st'
      /\ storage.GetUserSettings st' (UserID s) = storage.Ok s st'
      /\ storage.GetBloodSugarReadings st' (UserID s)
         = storage.Ok
             (match storage.GetBloodSugarReadings st (UserID s) with
              | storage.Ok rs _ => rs
              | storage.Err _ => []
              end) st'.
Proof.
  unfold storage.SaveUserSettings, storage.GetUserSettings,
    storage.GetBloodSugarReadings.
  destruct (String.eqb (UserID s) ""); [reflexivity|].
  destruct (st !! UserID s) as [user|] eqn:Hu;
    (eexists; split; [reflexivity|]); rewrite lookup_insert_eq;
    split; reflexivity.
Qed.

(** ** Reading ingestion, for every store and request *)

Lemma add_reading_ok (st : storage.Store) (userID : string) (user : User)
    (r : BloodSugarReading) :
  st !! userID = Some user ->
  storage.AddBloodSugarReading st userID r
  = storage.Ok tt
      (<[userID := mkUser (uUserID user) (uSettings user)
                     (r :: BloodSugarReadings user)]> st).
Proof. intros H. unfold storage.AddBloodSugarReading. rewrite H. reflexivity. Qed.

Lemma update_settings_ok (now : time.Time) (st : storage.Store)
    (userID : string) (user : User) (s : Settings) :
  st !! userID = Some user ->
  storage.UpdateUserSettings now st userID s
  = storage.Ok tt
      (<[userID := mkUser (uUserID user)
                     (storage.ensureValidSettingsMemory now s)
                     (BloodSugarReadings user)]> st).
Proof. intros H. unfold storage.UpdateUserSettings. rewrite H. reflexivity. Qed.

(** What an accepted request answers and stores. *)
Lemma SaveBloodSugar_accepted (clk : handlers.Clock) (st : storage.Store)
    (req : handlers.BloodSugarRequest) :
  String.eqb (handlers.reqUserID req) "" = false ->
  (handlers.reqValue req <=? 0)%float = false ->
  handlers.SaveBloodSugar clk st req
  = let user := recordOf clk st (handlers.reqUserID req) in
    let settings := uSettings user in
    (handlers.Respond
       (handlers.mkResponse (handlers.reqValue req)
          (handlers.statusOf (handlers.reqValue req))
          (handlers.nowReading clk) (rewrites clk st req)
          (TargetMin settings)),
     <[handlers.reqUserID req :=
         mkUser (uUserID user)
           (if rewrites clk st req then
              storage.ensureValidSettingsMemory (handlers.nowUpdate clk)
                (with_InsulinPeriods settings
                   (ConvertToInsulinPeriods (tunedCoefficients clk st req)))
            else settings)
           (newReading clk req :: BloodSugarReadings user)]> st).
Proof.
  intros Hid Hv.
  unfold handlers.SaveBloodSugar, rewrites, tunedCoefficients, lastWeek,
    recordOf, newReading, storage.GetUser.
  rewrite Hid, Hv. cbv zeta.
  destruct req as [userID value]. cbn [handlers.reqUserID handlers.reqValue] in *.
  set (reading := mkReading value (handlers.nowReading clk) "").
  destruct (st !! userID) as [user|] eqn:Hu.
  - rewrite (add_reading_ok _ _ _ reading Hu).
    set (user2 := mkUser _ _ (reading :: _)).
    set (st2 := <[userID := user2]> st).
    assert (Hu2 : st2 !! userID = Some user2) by apply lookup_insert_eq.
    rewrite (recent_of_user _ _ _ 0 _ Hu2).
    cbn [Z.ltb Z.compare andb BloodSugarReadings user2 Timestamp reading].
    set (recent := List.filter _ _).
    destruct ((5 <=? length recent)%nat && (0 <? TargetMin (uSettings user))%float);
      [|reflexivity].
    cbn [andb].
    destruct (handlers.areInsulinPeriodsEqual _ _); [reflexivity|].
    cbn [negb].
    rewrite (update_settings_ok _ _ _ _ _ Hu2).
    unfold st2. rewrite insert_insert_eq. reflexivity.
  - unfold storage.CreateUser. cbn [uUserID uSettings]. rewrite Hid, Hu.
    set (user1 := mkUser userID _ []).
    set (st1 := <[userID := user1]> st).
    assert (Hu1 : st1 !! userID = Some user1) by apply lookup_insert_eq.
    rewrite (add_reading_ok _ _ _ reading Hu1).
    set (user2 := mkUser _ _ (reading :: _)).
    set (st2 := <[userID := user2]> st1).
    assert (Hu2 : st2 !! userID = Some user2) by apply lookup_insert_eq.
    rewrite (recent_of_user _ _ _ 0 _ Hu2).
    cbn [Z.ltb Z.compare andb BloodSugarReadings user2 user1 Timestamp reading
           uSettings uUserID].
    set (recent := List.filter _ _).
    destruct ((5 <=? length recent)%nat && _); cbn [andb];
      [| unfold st2, st1; rewrite insert_insert_eq; reflexivity].
    destruct (handlers.areInsulinPeriodsEqual _ _); cbn [negb];
      [unfold st2, st1; rewrite insert_insert_eq; reflexivity|].
    rewrite (update_settings_ok _ _ _ _ _ Hu2).
    unfold st2, st1. rewrite !insert_insert_eq. reflexivity.
Qed.



Lemma convert_back (b : BaseInsulinCoefficients) :
  InsulinPeriodsToBaseCoefficients (ConvertToInsulinPeriods b) = b.
Proof. destruct b. reflexivity. Qed.



Lemma periods_equal_refl (b : BaseInsulinCoefficients) :
  numbers b ->
  handlers.areInsulinPeriodsEqual (ConvertToInsulinPeriods b)
    (ConvertToInsulinPeriods b) = true.
Proof.
  intros (Hm & Ha & He & Hn). unfold is_number in *.
  cbn. unfold handlers.float_ne. rewrite Hm, Ha, He, Hn. reflexivity.
Qed.

(** X9.  A stored period set that already is four quadrants of numbers
    is left alone when the tuner returns the coefficients it was given:
    the settings stay as they are and the flag is false. *)
Theorem settled_quadrants_not_rewritten (clk : handlers.Clock)
    (st : storage.Store) (req : handlers.BloodSugarRequest)
    (b : BaseInsulinCoefficients) :
  let userID := handlers.reqUserID req in
  let settings := uSettings (recordOf clk st userID) in
  String.eqb userID "" = false ->
  (handlers.reqValue req <=? 0)%float = false ->
  InsulinPeriods settings = ConvertToInsulinPeriods b ->
  numbers b ->
  insulin.AdjustInsulinCoefficients (lastWeek clk st req)
    (TargetMin settings) b = b ->
  let out := handlers.SaveBloodSugar clk st req in
  option_map handlers.coefficientsAdjusted (responseBody (fst out))
  = Some false
  /\ option_map uSettings (snd out !! userID) = Some settings.
Proof.
  cbv zeta. intros Hid Hv Hps Hb Htuned.
  assert (Hr : rewrites clk st req = false).
  { unfold rewrites, tunedCoefficients. cbv zeta.
    rewrite Hps, convert_back, Htuned, (periods_equal_refl b Hb).
    apply andb_false_r. }
  rewrite (SaveBloodSugar_accepted _ _ _ Hid Hv). cbv zeta.
  rewrite Hr. cbn [fst snd responseBody option_map handlers.coefficientsAdjusted].
  rewrite lookup_insert_eq. split; reflexivity.
Qed.

Lemma settled_quadrants_not_rewritten_witness :
  option_map handlers.coefficientsAdjusted
    (responseBody
       (fst (handlers.SaveBloodSugar requestClock quadrantStore
               sixthReading)))
  = Some false
  /\ option_map uSettings
       (snd (handlers.SaveBloodSugar requestClock quadrantStore sixthReading)
          !! "u")
     = Some halfDaySettings.
Proof.
  refine (settled_quadrants_not_rewritten requestClock quadrantStore
            sixthReading (mkBase 1.2 1.0 1.1 1.0) _ _ _ _ _).
  - reflexivity.
  - reflexivity.
  - reflexivity.
  - repeat split.
  - vm_compute. reflexivity.
Defined.

(** ** Exact products and quotients *)

(** A magnitude rounds to one valid value only. *)
Lemma rounds_to_unique (o1 o2 : spec_float) (X : Z) :
  rounds_to o1 X -> rounds_to o2 X ->
  valid_binary o1 = true -> valid_binary o2 = true -> o1 = o2.
Proof.
  intros R1 R2 V1 V2.
  assert (Hbig : forall s m e, valid_binary (S754_finite s m e) = true ->
                               0 < sval m e < 2 ^ (1024 + scale)).
  { intros s m e V. pose proof (valid_mantissa_lt _ _ _ V) as Hm.
    apply valid_finite_bounds in V as [Hc He].
    assert (Hp : 0 < 2 ^ (e + scale)) by (apply pow2_pos; unfold scale; lia).
    unfold sval. split; [apply Z.mul_pos_pos; lia|].
    apply Z.lt_le_trans with (2 ^ 53 * 2 ^ (e + scale)).
    - apply Z.mul_lt_mono_pos_r; lia.
    - rewrite <- Z.pow_add_r by (unfold scale; lia).
      apply Z.pow_le_mono_r; unfold scale; lia. }
  assert (Hinf : 0 < 2 ^ (1024 + scale)) by (apply pow2_pos; unfold scale; lia).
  destruct o1 as [s1|s1| |s1 m1 e1]; [| | contradiction |];
    destruct o2 as [s2|s2| |s2 m2 e2]; try contradiction;
    simpl in R1, R2;
    repeat match goal with H : _ /\ _ |- _ => destruct H end; subst;
    try reflexivity;
    try (pose proof (Hbig _ _ _ V1)); try (pose proof (Hbig _ _ _ V2));
    try lia.
  assert (He : e1 = e2).
  { destruct (Z.lt_trichotomy e1 e2) as [Hlt|[Heq|Hgt]]; [|exact Heq|].
    - pose proof (hval_lt_of_exp _ _ _ _ _ _ V1 V2 Hlt).
      rewrite !sval_hval in * by lia. nia.
    - pose proof (hval_lt_of_exp _ _ _ _ _ _ V2 V1 ltac:(lia)).
      rewrite !sval_hval in * by lia. nia. }
  subst e2. f_equal.
  assert (Hp : 0 < 2 ^ (e1 + scale)) by (apply pow2_pos; unfold scale; lia).
  unfold sval in *. nia.
Qed.

Lemma Prim2SF_one : Prim2SF 1 = S754_finite false 4503599627370496 (-52).
Proof. reflexivity. Qed.

(** Multiplying by 1.0 changes nothing. *)
Lemma mul_one_r (x : float) : (x * 1)%float = x.
Proof.
  assert (Hpos : forall y m e, Prim2SF y = S754_finite false m e ->
                               (y * 1)%float = y).
  { intros y m e Hy. apply Prim2SF_inj.
    pose proof (Prim2SF_finite_bounds y _ _ _ Hy) as [Hc _].
    apply (rounds_to_unique _ _ (hval m e * 2 ^ 1074)).
    - exact (mul_rounds y 1 _ _ _ _ Hy Prim2SF_one).
    - apply self_rounds. exact Hy.
    - apply Prim2SF_valid.
    - apply Prim2SF_valid. }
  destruct (Prim2SF x) as [s|s| |s m e] eqn:Hx.
  - apply Prim2SF_inj. rewrite FloatAxioms.mul_spec, Hx, Prim2SF_one.
    simpl. rewrite xorb_false_r. reflexivity.
  - apply Prim2SF_inj. rewrite FloatAxioms.mul_spec, Hx, Prim2SF_one.
    simpl. rewrite xorb_false_r. reflexivity.
  - apply Prim2SF_inj. rewrite FloatAxioms.mul_spec, Hx. reflexivity.
  - destruct s.
    + assert (Hn : Prim2SF (- x) = S754_finite false m e)
        by (rewrite FloatAxioms.opp_spec, Hx; reflexivity).
      rewrite <- (opp_involutive x) at 1.
      rewrite mul_opp_l, (Hpos _ _ _ Hn). apply opp_involutive.
    + exact (Hpos _ _ _ Hx).
Qed.

(** Two more mantissa bits carry the position of the remainder: shifting
    them out leaves the mantissa with its location. *)
Lemma shr_two_bits (q : Z) (l : location) :
  0 <= q ->
  shr_1 (shr_1 (Build_shr_record (4 * q + quarters l) false false))
  = shr_record_of_loc q l.
Proof.
  intros Hq. destruct q as [|p|p]; [| |lia]; destruct l as [|[]]; reflexivity.
Qed.

Lemma shr_fexp_refine (q e : Z) (l : location) :
  0 <= q ->
  fexp64 (Zdigits2 (4 * q + quarters l) + (e - 2)) = fexp64 (Zdigits2 q + e) ->
  e <= fexp64 (Zdigits2 q + e) ->
  shr_fexp prec emax (4 * q + quarters l) (e - 2) loc_Exact
  = shr_fexp prec emax q e l.
Proof.
  intros Hq Hf Hk. unfold shr_fexp.
  change (fexp prec emax) with fexp64. rewrite Hf.
  set (k := fexp64 (Zdigits2 q + e) - e).
  replace (fexp64 (Zdigits2 q + e) - (e - 2)) with (k + 2) by (unfold k; lia).
  assert (Hk0 : 0 <= k) by (unfold k; lia).
  unfold shr. cbn [shr_record_of_loc].
  destruct k as [|p|p] eqn:Ek; [| |lia].
  - change (0 + 2) with (Zpos 2). cbn [SpecFloat.iter_pos].
    rewrite shr_two_bits by exact Hq. f_equal. lia.
  - change (Zpos p + 2) with (Zpos (p + 2)). rewrite !iter_pos_nat.
    rewrite Pos2Nat.inj_add. change (Pos.to_nat 2) with 2%nat.
    rewrite Nat.iter_add. cbn [Nat.iter nat_rect].
    rewrite shr_two_bits by exact Hq.
    f_equal. lia.
Qed.

Lemma round_aux_refine (s : bool) (q e : Z) (l : location) :
  0 <= q ->
  fexp64 (Zdigits2 (4 * q + quarters l) + (e - 2)) = fexp64 (Zdigits2 q + e) ->
  e <= fexp64 (Zdigits2 q + e) ->
  binary_round_aux prec emax s q e l
  = binary_round_aux prec emax s (4 * q + quarters l) (e - 2) loc_Exact.
Proof.
  intros Hq Hf Hk. unfold binary_round_aux.
  rewrite (shr_fexp_refine q e l Hq Hf Hk). reflexivity.
Qed.

Lemma new_location_quarters (n r : Z) :
  0 < n -> 0 <= r < n ->
  quarters (new_location n r)
  = if r =? 0 then 0
    else match 2 * r ?= n with Lt => 1 | Eq => 2 | Gt => 3 end.
Proof.
  intros Hn Hr. unfold new_location, new_location_even, new_location_odd.
  destruct (Z.even n) eqn:En; destruct (r =? 0); try reflexivity.
  pose proof (Zmod_even n) as Hm. rewrite En in Hm.
  pose proof (Z.div_mod n 2 ltac:(lia)) as Hd.
  destruct (Z.compare_spec (2 * r + 1) n);
    destruct (Z.compare_spec (2 * r) n); try reflexivity; lia.
Qed.

Lemma digits_two_bits (q c : Z) :
  0 <= q -> 0 <= c <= 3 ->
  Zdigits2 (4 * q + c) = (if q =? 0 then Zdigits2 c else Zdigits2 q + 2)
  /\ 0 <= Zdigits2 c <= 2.
Proof.
  intros Hq Hc.
  assert (Hcases : c = 0 \/ c = 1 \/ c = 2 \/ c = 3) by lia.
  destruct q as [|pq|pq]; [| |lia];
    destruct Hcases as [ H | [ H | [ H | H ] ] ]; subst c; simpl;
    rewrite ?Pos2Z.inj_succ, ?Pos.mul_1_l; lia.
Qed.

(** The quotient of two positive finite values: the integer quotient of
    the aligned mantissas, two bits for the position of the remainder,
    rounded. *)
Lemma SFdiv_rounds (mx my : positive) (ex ey : Z) :
  valid_binary (S754_finite false mx ex) = true ->
  valid_binary (S754_finite false my ey) = true ->
  let e' :=
    Z.min (fexp64 (Zpos (digits2_pos mx) + ex - (Zpos (digits2_pos my) + ey)))
      (ex - ey) in
  let s := ex - ey - e' in
  let q := Zpos mx * 2 ^ s / Zpos my in
  let r := (Zpos mx * 2 ^ s) mod Zpos my in
  let c := if r =? 0 then 0
           else match 2 * r ?= Zpos my with Lt => 1 | Eq => 2 | Gt => 3 end in
  (0 < q -> 53 <= Zdigits2 q \/ e' <= -1074)
  /\ (q = 0 -> e' <= -1074)
  /\ 0 < 4 * q + c
  /\ rounds_to (SF64div (S754_finite false mx ex) (S754_finite false my ey))
       ((4 * q + c) * 2 ^ (e' - 2 + scale)).
Proof.
  intros Vx Vy e' s q r c.
  pose proof (valid_finite_bounds _ _ _ Vx) as [Hcx Hbx].
  pose proof (valid_finite_bounds _ _ _ Vy) as [Hcy Hby].
  pose proof (digits2_pos_le mx) as Hlx. pose proof (digits2_pos_gt mx) as Hgx.
  pose proof (digits2_pos_le my) as Hly. pose proof (digits2_pos_gt my) as Hgy.
  set (dx := Zpos (digits2_pos mx)) in *.
  set (dy := Zpos (digits2_pos my)) in *.
  assert (Hdx : 1 <= dx <= 53) by (unfold dx at 1; lia).
  assert (Hdy : 1 <= dy <= 53) by (unfold dy at 1; lia).
  set (D := dx + ex - (dy + ey)) in *.
  assert (He' : e' <= fexp64 D /\ e' <= ex - ey /\ -2045 <= e').
  { unfold e', fexp64. lia. }
  assert (Hs : 0 <= s) by (unfold s; lia).
  assert (Hp : 0 < 2 ^ s) by (apply pow2_pos; lia).
  assert (Hm' : 0 < Zpos mx * 2 ^ s) by (apply Z.mul_pos_pos; lia).
  pose proof (Z.div_mod (Zpos mx * 2 ^ s) (Zpos my) ltac:(lia)) as Hdm.
  pose proof (Z.mod_pos_bound (Zpos mx * 2 ^ s) (Zpos my) ltac:(lia)) as Hr.
  fold q r in Hdm, Hr.
  assert (Hq : 0 <= q) by (apply Z.div_pos; lia).
  assert (Hpx : 2 ^ (dx - 1 + s) = 2 ^ (dx - 1) * 2 ^ s)
    by (apply Z.pow_add_r; lia).
  assert (Hq0 : q = 0 -> e' <= -1074).
  { intros Hz. rewrite Hz in Hdm.
    assert (Hlt : 2 ^ (dx - 1 + s) < 2 ^ dy) by (rewrite Hpx; nia).
    apply Z.pow_lt_mono_r_iff in Hlt; [|lia|lia].
    unfold fexp64, D, s in *. lia. }
  assert (Hdq : 0 < q -> D <= Zdigits2 q + e').
  { intros Hpos. destruct q as [|pq|pq] eqn:Eq; try lia. cbn [Zdigits2].
    pose proof (digits2_pos_gt pq) as Hgq.
    destruct (Z.le_gt_cases 0 (dx - 1 + s - dy)) as [Ht|Ht].
    - assert (E1 : 2 ^ dy * 2 ^ (dx - 1 + s - dy) = 2 ^ (dx - 1) * 2 ^ s).
      { rewrite <- !Z.pow_add_r by lia. f_equal. lia. }
      assert (Ht0 : 0 < 2 ^ (dx - 1 + s - dy)) by (apply pow2_pos; lia).
      assert (Hle : 2 ^ (dx - 1 + s - dy) <= Zpos pq) by nia.
      assert (Hlt : 2 ^ (dx - 1 + s - dy) < 2 ^ Zpos (digits2_pos pq)) by lia.
      apply Z.pow_lt_mono_r_iff in Hlt; [|lia|lia].
      unfold D, s in *. lia.
    - unfold D, s in *. lia. }
  assert (Hc : 0 <= c <= 3 /\ (q = 0 -> 1 <= c)).
  { unfold c. destruct (Z.eqb_spec r 0) as [Hr0|Hr0].
    - split; [lia|]. intros Hz. rewrite Hz in Hdm. lia.
    - destruct (2 * r ?= Zpos my); lia. }
  pose proof (digits_two_bits q c Hq (proj1 Hc)) as [Hdig Hdc].
  assert (Hf : fexp64 (Zdigits2 (4 * q + c) + (e' - 2))
               = fexp64 (Zdigits2 q + e')
               /\ e' <= fexp64 (Zdigits2 q + e')).
  { rewrite Hdig. destruct (Z.eqb_spec q 0) as [Hz|Hnz].
    - specialize (Hq0 Hz). rewrite Hz. cbn [Zdigits2]. unfold fexp64. lia.
    - specialize (Hdq ltac:(lia)). unfold fexp64 in *. lia. }
  destruct Hf as [Hf Hk].
  assert (Hloc : quarters (new_location (Zpos my) r) = c)
    by (apply new_location_quarters; lia).
  split; [|split; [exact Hq0 | split; [lia|]]].
  { intros Hpos. specialize (Hdq Hpos). unfold fexp64, D, s in *. lia. }
  unfold SF64div, SFdiv, SFdiv_core_binary. cbn [Zdigits2 xorb].
  change (fexp prec emax) with fexp64. fold dx dy.
  change (Z.min (fexp64 (dx + ex - (dy + ey))) (ex - ey)) with e'.
  change (ex - ey - e') with s.
  replace (match s with
           | 0 => Zpos mx
           | Zpos _ => Z.shiftl (Zpos mx) s
           | Zneg _ => 0
           end) with (Zpos mx * 2 ^ s).
  2:{ destruct s as [|ps|ps] eqn:Es; [lia | | lia].
      rewrite Z.shiftl_mul_pow2 by lia. reflexivity. }
  assert (Hde : Z.div_eucl (Zpos mx * 2 ^ s) (Zpos my) = (q, r)).
  { unfold q, r, Z.div, Z.modulo.
    destruct (Z.div_eucl (Zpos mx * 2 ^ s) (Zpos my)). reflexivity. }
  rewrite Hde.
  rewrite <- Hloc in Hf.
  rewrite (round_aux_refine false q e' _ Hq Hf Hk), Hloc.
  assert (Hpos : 0 < 4 * q + c) by lia.
  replace (4 * q + c) with (Zpos (Z.to_pos (4 * q + c)))
    by (apply Z2Pos.id; exact Hpos).
  apply round_aux_rounds.
  - unfold scale. lia.
  - destruct (Z.le_gt_cases (e' - 2) 971) as [|Hbig]; [left; assumption|].
    right.
    assert (Hqpos : 0 < q) by lia.
    specialize (Hdq Hqpos).
    assert (Hd2 : Zdigits2 (4 * q + c) = Zdigits2 q + 2).
    { rewrite Hdig. destruct (Z.eqb_spec q 0); [lia | reflexivity]. }
    assert (Hz : Zdigits2 (4 * q + c)
                 = Zpos (digits2_pos (Z.to_pos (4 * q + c)))).
    { destruct (4 * q + c) as [|pp|pp]; try lia. reflexivity. }
    rewrite <- Hz, Hd2. unfold fexp64, D, s in *. lia.
Qed.

Lemma SFdiv_opp_l (x a : spec_float) :
  SF64div (SFopp x) a = SFopp (SF64div x a).
Proof.
  unfold SF64div.
  destruct x as [sx|sx| |sx mx ex], a as [sa|sa| |sa ma ea]; simpl;
    rewrite <- ?negb_xorb_l; try reflexivity.
  destruct (SFdiv_core_binary prec emax (Zpos mx) ex (Zpos ma) ea)
    as [[mz ez] lz].
  apply round_aux_opp.
Qed.

Lemma div_opp_l (x a : float) : (- x / a)%float = (- (x / a))%float.
Proof.
  apply Prim2SF_inj.
  rewrite FloatAxioms.div_spec, !FloatAxioms.opp_spec, FloatAxioms.div_spec.
  apply SFdiv_opp_l.
Qed.

Lemma one_rounds_self : rounds_to (Prim2SF 1) (2 ^ scale).
Proof.
  rewrite Prim2SF_one.
  replace (2 ^ scale) with (sval 4503599627370496 (-52)) by reflexivity.
  apply valid_rounds_self. reflexivity.
Qed.

(** Dividing by 1.0 changes nothing. *)
Lemma div_one_r (x : float) : (x / 1)%float = x.
Proof.
  assert (Hpos : forall y m e, Prim2SF y = S754_finite false m e ->
                               (y / 1)%float = y).
  { intros y m e Hy. apply Prim2SF_inj.
    pose proof (Prim2SF_finite_valid y _ _ _ Hy) as Vy.
    pose proof (valid_finite_bounds _ _ _ Vy) as [Hc Hb].
    pose proof (digits2_pos_le m) as Hl.
    assert (V1 : valid_binary (S754_finite false 4503599627370496 (-52)) = true)
      by reflexivity.
    pose proof (SFdiv_rounds m 4503599627370496 e (-52) Vy V1) as H.
    cbv zeta in H. destruct H as (_ & _ & _ & R).
    change (Zpos (digits2_pos 4503599627370496)) with 53 in R.
    set (d := Zpos (digits2_pos m)) in *.
    set (e' := Z.min (fexp64 (d + e - (53 + -52))) (e - -52)) in *.
    assert (He' : e' <= e /\ -1074 <= e') by (unfold e', fexp64; lia).
    set (s := e - -52 - e') in *.
    assert (Hsplit : Zpos m * 2 ^ s
                     = Zpos m * 2 ^ (s - 52) * 4503599627370496).
    { replace s with ((s - 52) + 52) at 1 by lia.
      rewrite Z.pow_add_r by (unfold s; lia). change (2 ^ 52) with 4503599627370496.
      lia. }
    rewrite Hsplit, Z.div_mul, Z.mod_mul in R by lia.
    change (0 =? 0) with true in R. cbv iota in R.
    apply (rounds_to_unique _ _ (hval m e * 2 ^ 1074)).
    - rewrite FloatAxioms.div_spec, Hy, Prim2SF_one.
      replace (hval m e * 2 ^ 1074)
        with ((4 * (Zpos m * 2 ^ (s - 52)) + 0) * 2 ^ (e' - 2 + scale));
        [exact R|].
      unfold hval, scale, s.
      replace (e - -52 - e' - 52) with (e - e') by lia.
      assert (E : 4 * 2 ^ (e - e') * 2 ^ (e' - 2 + 2148)
                  = 2 ^ (e + 1074) * 2 ^ 1074).
      { change 4 with (2 ^ 2). rewrite <- !Z.pow_add_r by lia. f_equal. lia. }
      rewrite Z.add_0_r.
      transitivity (Zpos m * (4 * 2 ^ (e - e') * 2 ^ (e' - 2 + 2148)));
        [ring | rewrite E; ring].
    - apply self_rounds. exact Hy.
    - apply Prim2SF_valid.
    - apply Prim2SF_valid. }
  destruct (Prim2SF x) as [s|s| |s m e] eqn:Hx.
  - apply Prim2SF_inj. rewrite FloatAxioms.div_spec, Hx, Prim2SF_one.
    simpl. rewrite xorb_false_r. reflexivity.
  - apply Prim2SF_inj. rewrite FloatAxioms.div_spec, Hx, Prim2SF_one.
    simpl. rewrite xorb_false_r. reflexivity.
  - apply Prim2SF_inj. rewrite FloatAxioms.div_spec, Hx. reflexivity.
  - destruct s.
    + assert (Hn : Prim2SF (- x) = S754_finite false m e)
        by (rewrite FloatAxioms.opp_spec, Hx; reflexivity).
      rewrite <- (opp_involutive x) at 1.
      rewrite div_opp_l, (Hpos _ _ _ Hn). apply opp_involutive.
    + exact (Hpos _ _ _ Hx).
Qed.

(** ** The dose of a food analysis, for every store *)

Lemma quotient_not_negative (d s : float) :
  (0 <? d)%float = true -> (0 <? s)%float = true ->
  (d / s <? 0)%float = false.
Proof.
  rewrite !FloatAxioms.ltb_spec, FloatAxioms.div_spec.
  change (Prim2SF 0) with (S754_zero false).
  destruct (Prim2SF d) as [sd|[]| |[] md ed]; try discriminate;
    destruct (Prim2SF s) as [ss|[]| |[] ms es]; try discriminate;
    intros _ _; try reflexivity.
  pose proof (SFdiv_nonneg (S754_finite false md ed) ms es I) as H.
  destruct (SF64div _ _) as [sq|[]| |[] mq eq]; try contradiction; reflexivity.
Qed.

(** X10.  The correction a food analysis adds is never negative: it is
    0, or the positive excess of the last reading over the target divided
    by a positive sensitivity.  The total is the meal insulin plus that
    correction, with nothing subtracted. *)
Theorem analysis_correction_not_negative (clk : handlers.Clock)
    (st : storage.Store) (userId : string) (carbs : float)
    (dose : handlers.Dose) :
  handlers.AnalyzeFood clk st userId carbs = Some dose ->
  (handlers.correctionInsulin dose <? 0)%float = false
  /\ handlers.totalInsulin dose
     = (handlers.mealInsulin dose + handlers.correctionInsulin dose)%float.
Proof.
  unfold handlers.AnalyzeFood.
  generalize (match storage.GetUser st userId with
              | Some user => uSettings user
              | None => CreateDefaultSettings userId (handlers.nowDefaults clk)
              end) as settings.
  generalize (match
                 storage.GetRecentBloodSugarReadings st userId 1
                   (time.AddDays (handlers.nowWindow clk) (-7))
               with
               | storage.Ok rs _ => rs
               | storage.Err _ => []
               end) as lastReading.
  intros lastReading settings. unfold handlers.computeDose.
  destruct (CarbRatioPeriods settings) as [|cr0 crs]; [discriminate|].
  destruct lastReading as [|last rest].
  - intros H. injection H as <-. split; reflexivity.
  - destruct (0 <? TargetMin settings)%float;
      [| intros H; injection H as <-; split; reflexivity].
    destruct (SensitivityPeriods settings) as [|sp0 sps]; [discriminate|].
    destruct (0 <? Sensitivity sp0)%float eqn:Hs;
      [| intros H; injection H as <-; split; reflexivity].
    destruct (0 <? Value last - TargetMin settings)%float eqn:Hd;
      intros H; injection H as <-; split; try reflexivity.
    cbn [handlers.correctionInsulin]. apply quotient_not_negative; assumption.
Qed.

Lemma analysis_correction_not_negative_witness :
  (handlers.correctionInsulin (handlers.mkDose 0 0 0 1) <? 0)%float = false
  /\ handlers.totalInsulin (handlers.mkDose 0 0 0 1)
     = (handlers.mealInsulin (handlers.mkDose 0 0 0 1)
        + handlers.correctionInsulin (handlers.mkDose 0 0 0 1))%float.
Proof.
  apply (analysis_correction_not_negative requestClock defaultStore "u" 0).
  vm_compute. reflexivity.
Defined.

Lemma default_period_coefficient (hour : Z) :
  handlers.periodCoefficient [ mkInsulinPeriod "00:00" 1.0 24 ] hour
  = 1.0%float.
Proof.
  cbn. destruct ((_ <=? hour) && (hour <? _)); reflexivity.
Qed.

(** X11.  For a user the store does not know, a food analysis runs on the
    default settings, whatever the hour: the meal insulin equals the
    carbohydrates, one unit per gram, the correction is 0 and the
    coefficient is 1.0. *)
Theorem analysis_of_unknown_user (clk : handlers.Clock)
    (st : storage.Store) (userId : string) (carbs : float) :
  st !! userId = None ->
  handlers.AnalyzeFood clk st userId carbs
  = Some (handlers.mkDose carbs 0 (carbs + 0) 1).
Proof.
  intros Hu.
  unfold handlers.AnalyzeFood, storage.GetUser,
    storage.GetRecentBloodSugarReadings.
  rewrite Hu. unfold handlers.computeDose.
  cbn [CreateDefaultSettings CarbRatioPeriods InsulinPeriods Ratio].
  rewrite default_period_coefficient, div_one_r, mul_one_r. reflexivity.
Qed.

Lemma analysis_of_unknown_user_witness :
  handlers.AnalyzeFood requestClock defaultStore "v" 45
  = Some (handlers.mkDose 45 0 (45 + 0) 1).
Proof.
  apply (analysis_of_unknown_user requestClock defaultStore "v" 45).
  reflexivity.
Defined.

(** ** An invariant of the store under the API *)

Lemma all_indexable_insert (st : storage.Store) (userID : string)
    (user : User) :
  all_indexable st -> indexable (uSettings user) ->
  all_indexable (<[userID := user]> st).
Proof.
  intros Hst Hu other user'. destruct (decide (userID = other)) as [->|Hne].
  - rewrite lookup_insert_eq. intros H. injection H as <-. exact Hu.
  - rewrite lookup_insert_ne by exact Hne. apply Hst.
Qed.

Lemma default_settings_indexable (userID : string) (now : time.Time) :
  indexable (CreateDefaultSettings userID now).
Proof. repeat split; discriminate. Qed.

Lemma recordOf_indexable (clk : handlers.Clock) (st : storage.Store)
    (userID : string) :
  all_indexable st -> indexable (uSettings (recordOf clk st userID)).
Proof.
  intros Hst. unfold recordOf.
  destruct (st !! userID) as [user|] eqn:Hu.
  - exact (Hst _ _ Hu).
  - apply default_settings_indexable.
Qed.

Lemma serve_indexable (Parse : string -> time.Time + string)
    (ParseFloat : string -> option float) (st : storage.Store)
    (r : request) :
  all_indexable st -> all_indexable (serve Parse ParseFloat st r).
Proof.
  intros Hst. destruct r as [now method userID decoded|clk req|now req|req];
    cbn [serve].
  - unfold handlers.SaveUserSettings.
    destruct (String.eqb method "OPTIONS"); [exact Hst|].
    destruct (String.eqb userID ""); [exact Hst|].
    destruct decoded as [body|]; [|exact Hst].
    cbn [TargetMin TargetMax IOBDuration InsulinPeriods SensitivityPeriods
           CarbRatioPeriods].
    destruct (_ || _ || _)%float; [exact Hst|].
    destruct (InsulinPeriods body) as [|ip ips] eqn:Hi; [exact Hst|].
    destruct (SensitivityPeriods body) as [|sp sps] eqn:Hs; [exact Hst|].
    destruct (CarbRatioPeriods body) as [|cp cps] eqn:Hc; [exact Hst|].
    cbn [length Nat.eqb orb].
    unfold storage.SaveUserSettings. cbn [UserID].
    destruct (String.eqb userID ""); [exact Hst|].
    destruct (st !! userID) as [user|]; cbn [snd];
      (apply all_indexable_insert; [exact Hst|]);
      repeat split; discriminate.
  - destruct (String.eqb (handlers.reqUserID req) "") eqn:Hid;
      [unfold handlers.SaveBloodSugar; rewrite Hid; exact Hst|].
    destruct (handlers.reqValue req <=? 0)%float eqn:Hv;
      [unfold handlers.SaveBloodSugar; rewrite Hid, Hv; exact Hst|].
    rewrite (SaveBloodSugar_accepted _ _ _ Hid Hv). cbv zeta. cbn [snd].
    apply all_indexable_insert; [exact Hst|]. cbn [uSettings].
    destruct (rewrites clk st req).
    + apply ensureValid_indexable.
    + apply recordOf_indexable. exact Hst.
  - unfold handlers.SyncLibre.
    destruct (_ || _); [exact Hst|]. unfold storage.GetUser.
    destruct (st !! handlers.libUserID req) as [user|] eqn:Hu; [|exact Hst].
    destruct (negb _); [exact Hst|].
    destruct (String.eqb (handlers.libValue req) ""); [exact Hst|].
    destruct (ParseFloat (handlers.libValue req)) as [value|]; [|exact Hst].
    rewrite (add_reading_ok _ _ _ _ Hu). cbn [snd].
    apply all_indexable_insert; [exact Hst|]. exact (Hst _ _ Hu).
  - unfold handlers.DeleteBloodSugar.
    destruct (String.eqb (handlers.delUserID req) ""); [exact Hst|].
    destruct (String.eqb (handlers.delTimestamp req) ""); [exact Hst|].
    unfold storage.DeleteBloodSugarReading.
    destruct (Parse (handlers.delTimestamp req)) as [t|err].
    + destruct (st !! handlers.delUserID req) as [user|] eqn:Hu;
        [|exact Hst].
      destruct (storage.removeReading t (BloodSugarReadings user));
        [|exact Hst].
      cbn [snd]. apply all_indexable_insert; [exact Hst|].
      exact (Hst _ _ Hu).
    + destruct (String.eqb _ "user not found"); [exact Hst|].
      destruct (String.eqb _ _); exact Hst.
Qed.

Lemma served_indexable (Parse : string -> time.Time + string)
    (ParseFloat : string -> option float) (requests : list request) :
  all_indexable (served Parse ParseFloat requests).
Proof.
  unfold served.
  assert (Hgen : forall st, all_indexable st ->
                            all_indexable
                              (fold_left (serve Parse ParseFloat) requests st)).
  { induction requests as [|r rs IH]; intros st Hst; [exact Hst|].
    apply IH, serve_indexable, Hst. }
  apply Hgen. intros userID user H. rewrite lookup_empty in H. discriminate.
Qed.

(** X12.  Whatever requests the server has answered since it started
    with an empty store (settings saved, readings posted, synced or
    deleted), no stored user has an empty period set; so a food analysis
    never indexes an empty slice: it always yields a dose, for known and
    unknown users alike. *)
Theorem analysis_always_yields_a_dose (Parse : string -> time.Time + string)
    (ParseFloat : string -> option float) (requests : list request)
    (clk : handlers.Clock) (userId : string) (carbs : float) :
  all_indexable (served Parse ParseFloat requests)
  /\ exists dose,
       handlers.AnalyzeFood clk (served Parse ParseFloat requests) userId
         carbs = Some dose.
Proof.
  pose proof (served_indexable Parse ParseFloat requests) as Hst.
  split; [exact Hst|].
  unfold handlers.AnalyzeFood.
  set (settings := match storage.GetUser _ userId with
                   | Some user => uSettings user
                   | None => _
                   end).
  assert (Hix : indexable settings).
  { unfold settings, storage.GetUser.
    destruct (served Parse ParseFloat requests !! userId) as [user|] eqn:Hu.
    - exact (Hst _ _ Hu).
    - apply default_settings_indexable. }
  destruct Hix as (_ & Hs & Hc). unfold handlers.computeDose.
  destruct (CarbRatioPeriods settings) as [|cr0 crs]; [congruence|].
  destruct (SensitivityPeriods settings) as [|sp0 sps]; [congruence|].
  destruct (match storage.GetRecentBloodSugarReadings _ _ _ _ with
            | storage.Ok rs _ => rs
            | storage.Err _ => []
            end) as [|last rest]; [eexists; reflexivity|].
  destruct (0 <? TargetMin settings)%float; [|eexists; reflexivity].
  destruct (0 <? Sensitivity sp0)%float; [|eexists; reflexivity].
  destruct (0 <? Value last - TargetMin settings)%float; eexists; reflexivity.
Qed.

(** ** The other requests *)

(** X13.  A settings request is accepted exactly when the path names a
    user, the target range and the insulin duration are not 0 and no
    period set is empty; the hours of the periods are not looked at.  An
    accepted body is stored as it is, under the user id of the path and
    with the time of the request, and a settings query returns exactly
    that; the user's readings and all other users stay.  A refused
    request is answered with status 400 and changes nothing. *)
Theorem settings_request_outcome (now : time.Time) (st : storage.Store)
    (userID : string) (body : Settings) :
  let out := handlers.SaveUserSettings now st "POST" userID (Some body) in
  if acceptable userID body then
    fst out = handlers.Respond (Some "Settings saved successfully")
    /\ handlers.GetUserSettings (snd out) userID
       = handlers.Respond (stamped now userID body)
    /\ readingsOf (snd out) userID = readingsOf st userID
    /\ forall other, other <> userID -> snd out !! other = st !! other
  else
    (exists msg, fst out = handlers.Fail 400 msg) /\ snd out = st.
Proof.
  cbv zeta. unfold acceptable, handlers.SaveUserSettings.
  change (String.eqb "POST" "OPTIONS") with false. cbv iota.
  destruct (String.eqb userID "") eqn:Hid; cbn [negb andb]; [eauto|].
  cbn [TargetMin TargetMax IOBDuration InsulinPeriods SensitivityPeriods
         CarbRatioPeriods].
  destruct ((TargetMin body =? 0) || (TargetMax body =? 0)
            || (IOBDuration body =? 0))%float; cbn [negb andb]; [eauto|].
  destruct ((length (InsulinPeriods body) =? 0)%nat
            || (length (SensitivityPeriods body) =? 0)%nat
            || (length (CarbRatioPeriods body) =? 0)%nat);
    cbn [negb]; [eauto|].
  unfold storage.SaveUserSettings. cbn [UserID]. rewrite Hid.
  fold (stamped now userID body).
  unfold handlers.GetUserSettings, storage.GetUser, readingsOf.
  destruct (st !! userID) as [user|] eqn:Hu; cbn [fst snd];
    rewrite lookup_insert_eq; repeat split; try reflexivity;
    intros other Hne; apply lookup_insert_ne; congruence.
Qed.

(** X14.  What a delete request answers.  Without a user id or a
    timestamp: 400.  A timestamp that does not parse: 500, whatever the
    parser's message and whether or not the user exists.  An unknown
    user, or no reading at that instant: 404.  In all these cases the
    store stays as it is.  Otherwise one reading, the first at that
    instant, is removed and nothing else changes. *)
Theorem delete_request_outcome (Parse : string -> time.Time + string)
    (st : storage.Store) (req : handlers.DeleteRequest) :
  let userID := handlers.delUserID req in
  let out := handlers.DeleteBloodSugar Parse st req in
  if String.eqb userID "" then out = (handlers.Fail 400 "Missing user ID", st)
  else if String.eqb (handlers.delTimestamp req) "" then
    out = (handlers.Fail 400 "Missing or invalid timestamp", st)
  else
    match Parse (handlers.delTimestamp req) with
    | inr err =>
        out = (handlers.Fail 500
                 ("Error deleting reading: invalid timestamp format: " ++ err),
               st)
    | inl t =>
        match st !! userID with
        | None => out = (handlers.Fail 404 "User not found", st)
        | Some user =>
            (none_at t (BloodSugarReadings user)
             /\ out = (handlers.Fail 404 "Blood sugar reading not found", st))
            \/ (exists pre r post,
                  BloodSugarReadings user = pre ++ r :: post
                  /\ none_at t pre
                  /\ time.Equal (Timestamp r) t = true
                  /\ out
                     = (handlers.Respond
                          "Blood sugar reading successfully deleted",
                        <[userID := mkUser (uUserID user) (uSettings user)
                                      (pre ++ post)]> st))
        end
    end.
Proof.
  cbv zeta. unfold handlers.DeleteBloodSugar.
  destruct (String.eqb (handlers.delUserID req) ""); [reflexivity|].
  destruct (String.eqb (handlers.delTimestamp req) ""); [reflexivity|].
  unfold storage.DeleteBloodSugarReading.
  destruct (Parse (handlers.delTimestamp req)) as [t|err]; [|reflexivity].
  destruct (st !! handlers.delUserID req) as [user|]; [|reflexivity].
  destruct (storage.removeReading t (BloodSugarReadings user)) as [rest|] eqn:E.
  - right. destruct (removeReading_split _ _ _ E)
      as (pre & r & post & Hrs & -> & Hr & Hpre).
    exists pre, r, post. repeat split; assumption.
  - left. split; [apply removeReading_none; exact E | reflexivity].
Qed.



(** X16.  A readings query that is answered returns stored readings of
    that user, in stored order, none of them older than the start date
    (seven days before the request when none is given), and no more of
    them than a positive [limit] allows.  A [limit] that is no integer
    is refused, and so is a query for an unknown user. *)
Theorem readings_request_outcome (Parse : string -> time.Time + string)
    (now : time.Time) (st : storage.Store)
    (userId limitStr startDateStr : string) (rs : list BloodSugarReading) :
  handlers.GetBloodSugarReadings Parse now st userId limitStr startDateStr
  = handlers.Respond rs ->
  exists user startDate,
    st !! userId = Some user
    /\ (if String.eqb startDateStr "" then startDate = time.AddDays now (-7)
        else Parse startDateStr = inl startDate)
    /\ (if String.eqb limitStr "" then True else Go.Atoi_ok limitStr = true)
    /\ sublist rs (BloodSugarReadings user)
    /\ Forall (since startDate) rs
    /\ (String.eqb limitStr "" = false -> 0 < Go.Atoi limitStr ->
        Z.of_nat (length rs) <= Go.Atoi limitStr).
Proof.
  unfold handlers.GetBloodSugarReadings.
  set (limit := if String.eqb limitStr "" then Some 0 else _).
  destruct limit as [n|] eqn:Hlimit; [|discriminate].
  set (start := if String.eqb startDateStr "" then Some _ else _).
  destruct start as [startDate|] eqn:Hstart; [|discriminate].
  destruct (storage.GetRecentBloodSugarReadings st userId n startDate)
    as [readings st'|e] eqn:Hrecent; [|discriminate].
  intros H. injection H as ->.
  destruct (recent_shape _ _ _ _ _ _ Hrecent)
    as (_ & (user & Hu & Hsub & _) & Hall & Hlen).
  exists user, startDate. split; [exact Hu|].
  subst limit start.
  split; [|split; [|split; [exact Hsub | split; [exact Hall|]]]].
  - destruct (String.eqb startDateStr ""); [congruence|].
    destruct (Parse startDateStr); congruence.
  - destruct (String.eqb limitStr ""); [exact I|].
    destruct (Go.Atoi_ok limitStr); [reflexivity | discriminate].
  - intros Hne Hpos. rewrite Hne in Hlimit.
    destruct (Go.Atoi_ok limitStr); [|discriminate].
    injection Hlimit as <-. apply Hlen. exact Hpos.
Qed.

Lemma readings_request_outcome_witness :
  exists user startDate,
    defaultStore !! "u" = Some user
    /\ (if String.eqb "" "" then startDate = time.AddDays (time.at_hour 10 8) (-7)
        else parsesTo (time.at_hour 10 8) "" = inl startDate)
    /\ (if String.eqb "2" "" then True else Go.Atoi_ok "2" = true)
    /\ sublist (firstn 2 (BloodSugarReadings defaultUser))
         (BloodSugarReadings user)
    /\ Forall (since startDate) (firstn 2 (BloodSugarReadings defaultUser))
    /\ (String.eqb "2" "" = false -> 0 < Go.Atoi "2" ->
        Z.of_nat (length (firstn 2 (BloodSugarReadings defaultUser)))
        <= Go.Atoi "2").
Proof.
  apply (readings_request_outcome (parsesTo (time.at_hour 10 8))
           (time.at_hour 10 8) defaultStore "u" "2" "").
  reflexivity.
Defined.

(** ** Quadrants: the tuner's view and the dose's view *)

Lemma Hour_range (t : time.Time) : 0 <= time.Hour t < 24.
Proof. unfold time.Hour. apply Z.mod_pos_bound. lia. Qed.


Lemma groupReading_buckets (b : insulin.Buckets) (r : BloodSugarReading) :
  insulin.groupReading b r
  = insulin.mkBuckets
      (insulin.morningReadings b
         ++ map Value (List.filter (takenBetween 6 12) [r]))
      (insulin.afternoonReadings b
         ++ map Value (List.filter (takenBetween 12 18) [r]))
      (insulin.eveningReadings b
         ++ map Value (List.filter (takenBetween 18 22) [r]))
      (insulin.nightReadings b
         ++ map Value
              (List.filter (fun r => takenBetween 22 24 r
                                     || takenBetween 0 6 r) [r])).
Proof.
  unfold insulin.groupReading, takenBetween. cbv zeta. cbn [List.filter].
  pose proof (Hour_range (Timestamp r)) as Hh.
  set (h := time.Hour (Timestamp r)) in *.
  destruct b as [mo af ev ni]. cbn [insulin.morningReadings
    insulin.afternoonReadings insulin.eveningReadings insulin.nightReadings].
  destruct (Z.leb_spec 6 h), (Z.ltb_spec h 12), (Z.leb_spec 12 h),
    (Z.ltb_spec h 18), (Z.leb_spec 18 h), (Z.ltb_spec h 22),
    (Z.leb_spec 22 h), (Z.ltb_spec h 24), (Z.leb_spec 0 h), (Z.ltb_spec h 6);
    try lia; cbn; rewrite ?app_nil_r; reflexivity.
Qed.

Lemma groupReadings_from (rs : list BloodSugarReading) (b : insulin.Buckets) :
  fold_left insulin.groupReading rs b
  = insulin.mkBuckets
      (insulin.morningReadings b
         ++ map Value (List.filter (takenBetween 6 12) rs))
      (insulin.afternoonReadings b
         ++ map Value (List.filter (takenBetween 12 18) rs))
      (insulin.eveningReadings b
         ++ map Value (List.filter (takenBetween 18 22) rs))
      (insulin.nightReadings b
         ++ map Value
              (List.filter (fun r => takenBetween 22 24 r
                                     || takenBetween 0 6 r) rs)).
Proof.
  revert b. induction rs as [|r rs IH]; intros b.
  - destruct b. cbn. rewrite !app_nil_r. reflexivity.
  - cbn [fold_left]. rewrite IH, groupReading_buckets.
    cbn [insulin.morningReadings insulin.afternoonReadings
           insulin.eveningReadings insulin.nightReadings].
    cbn [List.filter].
    destruct (takenBetween 6 12 r), (takenBetween 12 18 r),
      (takenBetween 18 22 r), (takenBetween 22 24 r || takenBetween 0 6 r);
      cbn [map app]; rewrite <- ?app_assoc; reflexivity.
Qed.

(** X18.  The tuner's four buckets are the readings' values filtered by
    the hour of the day, in the order of the readings: 6 to 11 o'clock
    is morning, 12 to 17 afternoon, 18 to 21 evening, and 22 to 5 night.
    Every reading is in exactly one bucket. *)
Theorem buckets_filter_by_hour (readings : list BloodSugarReading) :
  insulin.groupReadings readings
  = insulin.mkBuckets
      (map Value (List.filter (takenBetween 6 12) readings))
      (map Value (List.filter (takenBetween 12 18) readings))
      (map Value (List.filter (takenBetween 18 22) readings))
      (map Value
         (List.filter (fun r => takenBetween 22 24 r || takenBetween 0 6 r)
            readings))
  /\ bucketTotal (insulin.groupReadings readings) = length readings.
Proof.
  split.
  - unfold insulin.groupReadings. rewrite groupReadings_from. reflexivity.
  - apply groupReadings_total.
Qed.

Lemma placePeriod_within (result : BaseInsulinCoefficients)
    (p : InsulinPeriod) :
  placePeriod result p
  = mkBase (if within 6 12 p then Coefficient p else Morning result)
      (if within 12 18 p then Coefficient p else Afternoon result)
      (if within 18 24 p then Coefficient p else Evening result)
      (if within 0 6 p then Coefficient p else Night result).
Proof.
  unfold placePeriod, within. cbv zeta.
  set (sh := startHourOf (StartTime p)).
  set (eh := Go.int_add sh (Go.int_of_float64 (Hours p))).
  destruct result as [mo af ev ni]. cbn [Morning Afternoon Evening Night].
  destruct (Z.leb_spec 0 sh), (Z.ltb_spec sh 6), (Z.leb_spec eh 6),
    (Z.leb_spec 6 sh), (Z.ltb_spec sh 12), (Z.leb_spec eh 12),
    (Z.leb_spec 12 sh), (Z.ltb_spec sh 18), (Z.leb_spec eh 18),
    (Z.leb_spec 18 sh), (Z.ltb_spec sh 24), (Z.leb_spec eh 24);
    try lia; reflexivity.
Qed.

(** X19.  What the conversion to a coefficient record keeps of a period
    set: for each quadrant the coefficient of the last period, in the
    order of the set, that starts and ends within the quadrant, and 1.0
    when there is none.  Periods that cross a quadrant boundary count
    for nothing. *)
Theorem periods_to_quadrants_last_wins (periods : list InsulinPeriod) :
  InsulinPeriodsToBaseCoefficients periods
  = mkBase (lastWithin 6 12 periods) (lastWithin 12 18 periods)
      (lastWithin 18 24 periods) (lastWithin 0 6 periods).
Proof.
  unfold InsulinPeriodsToBaseCoefficients.
  induction periods as [|p ps IH] using rev_ind; [reflexivity|].
  rewrite fold_left_app. cbn [fold_left]. rewrite IH, placePeriod_within.
  unfold lastWithin. rewrite rev_app_distr. cbn [rev app find].
  cbn [Morning Afternoon Evening Night].
  destruct (within 6 12 p), (within 12 18 p), (within 18 24 p),
    (within 0 6 p); reflexivity.
Qed.

(** ** The object in a reply of the model *)

Lemma string_app_cons (c : ascii) (a b : string) :
  (String c a ++ b)%string = String c (a ++ b).
Proof. reflexivity. Qed.

Lemma string_app_nil (b : string) : ("" ++ b)%string = b.
Proof. reflexivity. Qed.

Lemma string_length_app (a b : string) :
  String.length (a ++ b) = (String.length a + String.length b)%nat.
Proof.
  induction a as [|c a IH]; rewrite ?string_app_cons, ?string_app_nil;
    cbn [String.length Nat.add]; [reflexivity | rewrite IH; reflexivity].
Qed.

Lemma string_app_assoc (a b c : string) :
  ((a ++ b) ++ c = a ++ (b ++ c))%string.
Proof.
  induction a as [|x a IH]; rewrite ?string_app_cons, ?string_app_nil;
    [reflexivity | rewrite IH; reflexivity].
Qed.

Lemma substring_prefix (m rest : string) :
  substring 0 (String.length m) (m ++ rest) = m.
Proof.
  induction m as [|c m IH]; rewrite ?string_app_cons, ?string_app_nil;
    cbn [String.length substring].
  - destruct rest; reflexivity.
  - rewrite IH. reflexivity.
Qed.

Lemma substring_middle (a m rest : string) :
  substring (String.length a) (String.length m) (a ++ (m ++ rest)) = m.
Proof.
  induction a as [|c a IH]; rewrite ?string_app_cons, ?string_app_nil;
    cbn [String.length substring].
  - apply substring_prefix.
  - exact IH.
Qed.

(** Where the loop stops, it stops at a closing brace, and the [start] it
    reports is the one it was given or the place of an opening brace
    before that closing brace. *)
Lemma scan_found (rest : string) (i : Z) (s : ai.Scan) (st en : Z) :
  ai.scan rest i s = (st, en) -> en <> -1 -> 0 <= i ->
  exists r1 r2,
    rest = (r1 ++ String "}" r2)%string
    /\ en = i + Z.of_nat (String.length r1)
    /\ (st = ai.start s
        \/ exists a b,
             r1 = (a ++ String "{" b)%string
             /\ st = i + Z.of_nat (String.length a)).
Proof.
  revert i s. induction rest as [|c rest IH]; intros i s Hscan Hen Hi.
  - cbn in Hscan. injection Hscan as _ <-. contradiction.
  - cbn [ai.scan] in Hscan. cbv zeta in Hscan.
    set (inString' := if Ascii.eqb c ai.quote && negb (ai.escape s)
                      then negb (ai.inString s) else ai.inString s) in *.
    set (escape' := Ascii.eqb c ai.backslash && negb (ai.escape s)) in *.
    assert (Hkeep : forall s',
               ai.start s' = ai.start s ->
               ai.scan rest (i + 1) s' = (st, en) ->
               exists r1 r2,
                 String c rest = (r1 ++ String "}" r2)%string
                 /\ en = i + Z.of_nat (String.length r1)
                 /\ (st = ai.start s
                     \/ exists a b,
                          r1 = (a ++ String "{" b)%string
                          /\ st = i + Z.of_nat (String.length a))).
    { intros s' Hs' H.
      destruct (IH _ _ H Hen ltac:(lia)) as (r1 & r2 & -> & -> & Hst).
      exists (String c r1), r2. split; [reflexivity|].
      split; [cbn [String.length]; lia|].
      destruct Hst as [->|(a & b & -> & ->)]; [left; exact Hs'|].
      right. exists (String c a), b. split; [reflexivity|].
      cbn [String.length]. lia. }
    destruct (negb inString').
    + destruct (Ascii.eqb c "{") eqn:Ho.
      * apply Ascii.eqb_eq in Ho. subst c.
        destruct (ai.braceCount s =? 0); [|(eapply Hkeep; [|exact Hscan]; reflexivity)].
        destruct (IH _ _ Hscan Hen ltac:(lia)) as (r1 & r2 & -> & -> & Hst).
        exists (String "{" r1), r2. split; [reflexivity|].
        split; [cbn [String.length]; lia|]. right.
        destruct Hst as [Hst|(a & b & -> & ->)].
        -- cbn [ai.start] in Hst. exists ""%string, r1.
           split; [reflexivity|]. cbn [String.length]. lia.
        -- exists (String "{" a), b. split; [reflexivity|].
           cbn [String.length]. lia.
      * destruct (Ascii.eqb c "}") eqn:Hc; [|(eapply Hkeep; [|exact Hscan]; reflexivity)].
        apply Ascii.eqb_eq in Hc. subst c.
        destruct (ai.braceCount s - 1 =? 0); [|(eapply Hkeep; [|exact Hscan]; reflexivity)].
        injection Hscan as <- <-.
        exists ""%string, rest. split; [reflexivity|].
        split; [cbn [String.length]; lia | left; reflexivity].
    + (eapply Hkeep; [|exact Hscan]; reflexivity).
Qed.

Lemma scan_braceless (text : string) (i : Z) (s : ai.Scan) :
  braceless text -> fst (ai.scan text i s) = ai.start s.
Proof.
  revert i s. induction text as [|c text IH]; intros i s Hb; [reflexivity|].
  destruct Hb as [Hc Hb]. cbn [ai.scan]. cbv zeta.
  apply Ascii.eqb_neq in Hc. rewrite Hc.
  destruct (negb _); [|rewrite IH by exact Hb; reflexivity].
  destruct (Ascii.eqb c "}"); [|rewrite IH by exact Hb; reflexivity].
  destruct (ai.braceCount s - 1 =? 0); [reflexivity|].
  rewrite IH by exact Hb. reflexivity.
Qed.

(** X20.  What [extractJSONFromText] returns is a piece of the text that
    begins with an opening and ends with a closing brace; a text with no
    opening brace yields the error. *)
Theorem extracted_object_is_braced_substring (text : string) :
  (forall r,
     ai.extractJSONFromText text = inl r ->
     exists pre body post,
       text = (pre ++ r ++ post)%string
       /\ r = (String "{" (body ++ String "}" ""))%string)
  /\ (braceless text ->
      ai.extractJSONFromText text = inr "no JSON object found in text").
Proof.
  split.
  - intros r. unfold ai.extractJSONFromText.
    destruct (ai.scan text 0 (ai.mkScan (-1) 0 false false)) as [st en] eqn:Hscan.
    destruct ((0 <=? st) && (st <? en)) eqn:Hcond; [|discriminate].
    apply andb_prop in Hcond as [H0 Hlt].
    apply Z.leb_le in H0. apply Z.ltb_lt in Hlt.
    intros H. injection H as <-.
    destruct (scan_found _ _ _ _ _ Hscan ltac:(lia) ltac:(lia))
      as (r1 & r2 & -> & -> & Hst).
    destruct Hst as [Hst|(a & b & -> & ->)]; [cbn [ai.start] in Hst; lia|].
    exists a, b, r2.
    assert (Hpiece :
              substring (Z.to_nat (0 + Z.of_nat (String.length a)))
                (Z.to_nat (0 + Z.of_nat (String.length (a ++ String "{" b))
                           + 1 - (0 + Z.of_nat (String.length a))))
                ((a ++ String "{" b) ++ String "}" r2)
              = String "{" (b ++ String "}" "")).
    { rewrite string_length_app. cbn [String.length].
      replace (Z.to_nat (0 + Z.of_nat (String.length a)))
        with (String.length a) by lia.
      replace (Z.to_nat _)
        with (String.length (String "{" (b ++ String "}" "")))
        by (cbn [String.length]; rewrite string_length_app;
            cbn [String.length]; lia).
      replace ((a ++ String "{" b) ++ String "}" r2)%string
        with (a ++ (String "{" (b ++ String "}" "") ++ r2))%string.
      - apply substring_middle.
      - rewrite !string_app_assoc, !string_app_cons, string_app_assoc,
          !string_app_cons, string_app_nil. reflexivity. }
    rewrite Hpiece. split; [|reflexivity].
    rewrite !string_app_assoc, !string_app_cons, string_app_assoc,
      !string_app_cons, string_app_nil. reflexivity.
  - intros Hb. unfold ai.extractJSONFromText.
    pose proof (scan_braceless text 0 (ai.mkScan (-1) 0 false false) Hb) as Hs.
    destruct (ai.scan text 0 _) as [st en]. cbn in Hs. subst st. reflexivity.
Qed.

Lemma scan_literal (l rest : string) (i st n : Z) :
  literal_rest l ->
  ai.scan (l ++ rest) i (ai.mkScan st n true false)
  = ai.scan rest (i + Z.of_nat (String.length l))
      (ai.mkScan st n false false).
Proof.
  intros Hl. revert i. induction Hl as [|c s Hq Hb Hs IH|c s Hs IH]; intros i.
  - rewrite string_app_cons, string_app_nil. reflexivity.
  - rewrite string_app_cons. cbn [ai.scan String.length]. cbv zeta.
    cbn [ai.escape ai.inString ai.start ai.braceCount negb andb].
    apply Ascii.eqb_neq in Hq, Hb. rewrite Hq, Hb. cbn [andb negb].
    rewrite IH. f_equal. lia.
  - rewrite !string_app_cons. cbn [ai.scan String.length]. cbv zeta.
    cbn [ai.escape ai.inString ai.start ai.braceCount negb andb].
    change (Ascii.eqb ai.backslash ai.quote) with false.
    change (Ascii.eqb ai.backslash ai.backslash) with true.
    cbn [andb negb]. rewrite !andb_false_r. cbn [negb].
    rewrite IH. f_equal. lia.
Qed.

Lemma scan_members (m rest : string) (i st n : Z) :
  members m -> 1 <= n ->
  ai.scan (m ++ rest) i (ai.mkScan st n false false)
  = ai.scan rest (i + Z.of_nat (String.length m))
      (ai.mkScan st n false false).
Proof.
  intros Hm. revert rest i n.
  induction Hm as [|c s Hq Hb Ho Hc Hs IH|l s Hl Hs IH|m s Hm IHm Hs IHs];
    intros rest i n Hn.
  - rewrite string_app_nil. cbn [String.length]. f_equal. lia.
  - rewrite string_app_cons. cbn [ai.scan String.length]. cbv zeta.
    cbn [ai.escape ai.inString ai.start ai.braceCount negb andb].
    apply Ascii.eqb_neq in Hq, Hb, Ho, Hc. rewrite Hq, Hb, Ho, Hc.
    cbn [andb negb]. rewrite IH by exact Hn. f_equal. lia.
  - rewrite string_app_cons, string_app_assoc.
    cbn [ai.scan String.length]. cbv zeta.
    cbn [ai.escape ai.inString ai.start ai.braceCount negb andb].
    change (Ascii.eqb ai.quote ai.quote) with true.
    change (Ascii.eqb ai.quote ai.backslash) with false.
    cbn [andb negb].
    rewrite (scan_literal l _ _ _ _ Hl), IH by exact Hn.
    rewrite string_length_app. f_equal. lia.
  - rewrite string_app_cons, string_app_assoc, string_app_cons.
    cbn [ai.scan String.length]. cbv zeta.
    cbn [ai.escape ai.inString ai.start ai.braceCount negb andb].
    change (Ascii.eqb "{" ai.quote) with false.
    change (Ascii.eqb "{" ai.backslash) with false.
    change (Ascii.eqb "{" "{") with true.
    cbn [andb negb].
    replace (n =? 0) with false by (symmetry; apply Z.eqb_neq; lia).
    rewrite IHm by lia.
    cbn [ai.scan]. cbv zeta.
    cbn [ai.escape ai.inString ai.start ai.braceCount negb andb].
    change (Ascii.eqb "}" ai.quote) with false.
    change (Ascii.eqb "}" ai.backslash) with false.
    change (Ascii.eqb "}" "{") with false.
    change (Ascii.eqb "}" "}") with true.
    cbn [andb negb].
    replace (n + 1 - 1 =? 0) with false by (symmetry; apply Z.eqb_neq; lia).
    replace (n + 1 - 1) with n by lia.
    rewrite IHs by exact Hn.
    rewrite string_length_app. cbn [String.length]. f_equal. lia.
Qed.

Lemma scan_prose (pre rest : string) (i : Z) (s : ai.Scan) :
  prose pre -> ai.inString s = false ->
  exists esc,
    ai.scan (pre ++ rest) i s
    = ai.scan rest (i + Z.of_nat (String.length pre))
        (ai.mkScan (ai.start s) (ai.braceCount s) false esc).
Proof.
  revert i s. induction pre as [|c pre IH]; intros i s Hp Hin.
  - exists (ai.escape s). rewrite string_app_nil. cbn [String.length].
    destruct s as [st n ins esc]. cbn in Hin. subst ins.
    cbn [ai.start ai.braceCount ai.escape]. f_equal. lia.
  - destruct Hp as (Hq & Ho & Hc & Hp).
    rewrite string_app_cons. cbn [ai.scan String.length]. cbv zeta.
    apply Ascii.eqb_neq in Hq, Ho, Hc. rewrite Hq, Ho, Hc, Hin.
    cbn [andb negb].
    destruct (IH (i + 1) (ai.mkScan (ai.start s) (ai.braceCount s) false
                            (Ascii.eqb c ai.backslash && negb (ai.escape s)))
                Hp eq_refl) as [esc Hesc].
    exists esc. rewrite Hesc. cbn [ai.start ai.braceCount]. f_equal. lia.
Qed.

(** X21.  In a text that opens with prose free of quotes and braces, the
    first object is returned whole: braces nested in it are matched, and
    braces inside its string literals, also after an escaped quote, are
    not counted.  What follows the object is ignored. *)
Theorem first_object_is_extracted (pre body post : string) :
  prose pre -> members body ->
  ai.extractJSONFromText (pre ++ String "{" (body ++ String "}" post))
  = inl (String "{" (body ++ String "}" ""))%string.
Proof.
  intros Hpre Hbody. unfold ai.extractJSONFromText.
  destruct (scan_prose pre (String "{" (body ++ String "}" post)) 0
              (ai.mkScan (-1) 0 false false) Hpre eq_refl) as [esc Hscan].
  rewrite Hscan. cbn [ai.scan ai.start ai.braceCount]. cbv zeta.
  cbn [ai.escape ai.inString ai.start ai.braceCount].
  change (Ascii.eqb "{" ai.quote) with false.
  change (Ascii.eqb "{" ai.backslash) with false.
  change (Ascii.eqb "{" "{") with true.
  cbn [andb negb]. change (0 =? 0) with true. cbv iota.
  change (0 + 1) with 1.
  rewrite (scan_members body _ _ _ 1 Hbody ltac:(lia)).
  cbn [ai.scan]. cbv zeta.
  cbn [ai.escape ai.inString ai.start ai.braceCount].
  change (Ascii.eqb "}" ai.quote) with false.
  change (Ascii.eqb "}" ai.backslash) with false.
  change (Ascii.eqb "}" "{") with false.
  change (Ascii.eqb "}" "}") with true.
  cbn [andb negb]. change (1 - 1 =? 0) with true. cbv iota.
  set (a := Z.of_nat (String.length pre)).
  set (b := Z.of_nat (String.length body)).
  replace ((0 <=? 0 + a) && (0 + a <? 0 + a + 1 + b)) with true
    by (symmetry; apply andb_true_intro; split;
        [apply Z.leb_le | apply Z.ltb_lt]; lia).
  f_equal.
  replace (Z.to_nat (0 + a)) with (String.length pre) by lia.
  replace (Z.to_nat (0 + a + 1 + b + 1 - (0 + a)))
    with (String.length (String "{" (body ++ String "}" "")))
    by (cbn [String.length]; rewrite string_length_app;
        cbn [String.length]; lia).
  replace (String "{" (body ++ String "}" post))
    with (String "{" (body ++ String "}" "") ++ post)%string.
  - apply substring_middle.
  - rewrite string_app_cons, string_app_assoc, string_app_cons,
      string_app_nil. reflexivity.
Qed.

Lemma first_object_is_extracted_witness :
  ai.extractJSONFromText
    (replyProse ++ String "{" (replyMembers ++ String "}" replyTail))
  = inl (String "{" (replyMembers ++ String "}" ""))%string.
Proof.
  apply (first_object_is_extracted replyProse replyMembers replyTail).
  - cbn. repeat split; discriminate.
  - apply (members_literal (String "n" (String ai.quote ""))
             (String ":" (String ai.quote
                (String "}" (String ai.quote ""))))).
    + apply literal_char; [discriminate | discriminate | apply literal_close].
    + apply members_char; try discriminate.
      apply (members_literal (String "}" (String ai.quote "")) "").
      * apply literal_char; [discriminate | discriminate | apply literal_close].
      * apply members_nil.
Defined.

(** ** The simulated Nightscout source *)

Lemma nightscout_value (now : Z -> time.Time) (i : Z) :
  0 <= i -> plausible (libre.nightscoutReading now i).
Proof.
  intros Hi. unfold plausible, libre.nightscoutReading. cbv zeta.
  cbn [Value].
  pose proof (Z.mod_pos_bound i 5 ltac:(lia)) as Hm.
  assert (Hcases : i mod 5 = 0 \/ i mod 5 = 1 \/ i mod 5 = 2
                   \/ i mod 5 = 3 \/ i mod 5 = 4) by lia.
  destruct Hcases as [H|[H|[H|[H|H]]]]; rewrite H; split; reflexivity.
Qed.

(** X22.  The simulated Nightscout source fails for an empty URL only.
    Otherwise it yields as many readings as asked for, ten when the
    count is zero or negative, and every value lies between 5.5 and
    7.1. *)
Theorem nightscout_readings_are_plausible (now : Z -> time.Time)
    (nightscoutURL apiSecret : string) (count : Z) :
  if String.eqb nightscoutURL "" then
    libre.GetReadingsFromNightscout now nightscoutURL apiSecret count
    = inr "Nightscout URL is required"
  else
    exists readings,
      libre.GetReadingsFromNightscout now nightscoutURL apiSecret count
      = inl readings
      /\ length readings = yielded count
      /\ Forall plausible readings.
Proof.
  unfold libre.GetReadingsFromNightscout.
  destruct (String.eqb nightscoutURL ""); [reflexivity|].
  eexists. split; [reflexivity|]. split.
  - rewrite length_map, length_seq. reflexivity.
  - apply Forall_map. apply Forall_forall. intros i _.
    apply nightscout_value. lia.
Qed.

(** ** The direction of an adjustment *)

Lemma quotient_valid (a b : float) :
  valid_binary (SF64div (Prim2SF a) (Prim2SF b)) = true.
Proof. rewrite <- FloatAxioms.div_spec. apply Prim2SF_valid. Qed.

Lemma digits_order (m1 m2 : positive) (k1 k2 : Z) :
  0 <= k1 -> 0 <= k2 ->
  Zpos m1 * 2 ^ k1 <= Zpos m2 * 2 ^ k2 ->
  Zpos (digits2_pos m1) + k1 <= Zpos (digits2_pos m2) + k2.
Proof.
  intros H1 H2 Hle.
  pose proof (digits2_pos_le m1) as Hl. pose proof (digits2_pos_gt m2) as Hg.
  assert (Hp1 : 0 < 2 ^ k1) by (apply pow2_pos; lia).
  assert (Hp2 : 0 < 2 ^ k2) by (apply pow2_pos; lia).
  assert (Hlt : 2 ^ (Zpos (digits2_pos m1) - 1 + k1)
                < 2 ^ (Zpos (digits2_pos m2) + k2)).
  { rewrite !Z.pow_add_r by lia. nia. }
  apply Z.pow_lt_mono_r_iff in Hlt; lia.
Qed.

(** A positive finite value divided by one that is not smaller is at
    most 1.0; divided by one that is not larger, at least 1.0. *)
Lemma div_vs_one (a b : float) (ma mb : positive) (ea eb : Z) :
  Prim2SF a = S754_finite false ma ea ->
  Prim2SF b = S754_finite false mb eb ->
  ((a <=? b)%float = true -> (a / b <=? 1)%float = true)
  /\ ((b <=? a)%float = true -> (1 <=? a / b)%float = true).
Proof.
  intros Ha Hb.
  pose proof (Prim2SF_finite_valid a _ _ _ Ha) as Va.
  pose proof (Prim2SF_finite_valid b _ _ _ Hb) as Vb.
  pose proof (valid_finite_bounds _ _ _ Va) as [Hca Hba].
  pose proof (valid_finite_bounds _ _ _ Vb) as [Hcb Hbb].
  pose proof (SFdiv_rounds ma mb ea eb Va Vb) as H. cbv zeta in H.
  set (dx := Zpos (digits2_pos ma)) in *.
  set (dy := Zpos (digits2_pos mb)) in *.
  set (e' := Z.min (fexp64 (dx + ea - (dy + eb))) (ea - eb)) in *.
  set (s := ea - eb - e') in *.
  set (q := Zpos ma * 2 ^ s / Zpos mb) in *.
  set (r := (Zpos ma * 2 ^ s) mod Zpos mb) in *.
  set (c := if r =? 0 then 0
            else match 2 * r ?= Zpos mb with Lt => 1 | Eq => 2 | Gt => 3 end)
    in *.
  destruct H as (Hbig & Hq0 & Hpos & R).
  assert (Hs : 0 <= s) by (unfold s, e'; lia).
  assert (Hps : 0 < 2 ^ s) by (apply pow2_pos; lia).
  pose proof (Z.div_mod (Zpos ma * 2 ^ s) (Zpos mb) ltac:(lia)) as Hdm.
  pose proof (Z.mod_pos_bound (Zpos ma * 2 ^ s) (Zpos mb) ltac:(lia)) as Hr.
  fold q r in Hdm, Hr.
  assert (Hq : 0 <= q) by (apply Z.div_pos; lia).
  assert (Hc : 0 <= c <= 3 /\ (r = 0 -> c = 0)).
  { unfold c. destruct (Z.eqb_spec r 0); [lia|].
    destruct (2 * r ?= Zpos mb); lia. }
  set (A := ea + 1074). set (B := eb + 1074).
  assert (HA : 0 <= A) by (unfold A; lia).
  assert (HB : 0 <= B) by (unfold B; lia).
  assert (HpA : 0 < 2 ^ A) by (apply pow2_pos; lia).
  assert (HpB : 0 < 2 ^ B) by (apply pow2_pos; lia).
  assert (Hone : (e' <= 0 /\ 2 ^ scale
                              = 4 * 2 ^ (- e') * 2 ^ (e' - 2 + scale))
                 \/ 0 < e').
  { destruct (Z.le_gt_cases e' 0) as [Hle|Hgt]; [left | right; lia].
    split; [exact Hle|].
    change 4 with (2 ^ 2).
    rewrite <- !Z.pow_add_r by (unfold scale, e', fexp64 in *; lia).
    f_equal. lia. }
  assert (Hgrid : 0 < 2 ^ (e' - 2 + scale))
    by (apply pow2_pos; unfold scale, e', fexp64; lia).
  rewrite !FloatAxioms.leb_spec, FloatAxioms.div_spec, Ha, Hb.
  split; intros Hab.
  - assert (Hh : hval ma ea <= hval mb eb).
    { unfold SFleb in Hab. rewrite SFcompare_hval in Hab by assumption.
      destruct (Z.compare_spec (hval ma ea) (hval mb eb));
        (lia || discriminate). }
    unfold hval in Hh. fold A B in Hh.
    pose proof (digits_order ma mb A B HA HB Hh) as HD. fold dx dy in HD.
    assert (He' : e' <= -53) by (unfold e', fexp64, A, B in *; lia).
    destruct Hone as [[_ Hone]|]; [|lia].
    assert (HpN : 0 < 2 ^ (- e')) by (apply pow2_pos; lia).
    assert (Hsplit : 2 ^ s * 2 ^ B = 2 ^ A * 2 ^ (- e')).
    { rewrite <- !Z.pow_add_r by lia. f_equal. unfold s, A, B. lia. }
    assert (Hle : Zpos ma * 2 ^ s <= Zpos mb * 2 ^ (- e')).
    { apply (Z.mul_le_mono_pos_r _ _ (2 ^ B) HpB).
      replace (Zpos ma * 2 ^ s * 2 ^ B) with (Zpos ma * 2 ^ A * 2 ^ (- e'))
        by (rewrite <- !Z.mul_assoc, Hsplit; reflexivity).
      replace (Zpos mb * 2 ^ (- e') * 2 ^ B)
        with (Zpos mb * 2 ^ B * 2 ^ (- e')) by ring.
      apply Z.mul_le_mono_nonneg_r; lia. }
    assert (Hq4 : 4 * q + c <= 4 * 2 ^ (- e')).
    { assert (q <= 2 ^ (- e')) by nia.
      destruct (Z.eq_dec q (2 ^ (- e'))) as [E|E]; [|lia].
      assert (r = 0) by nia. lia. }
    apply (rounds_to_leb _ _ ((4 * q + c) * 2 ^ (e' - 2 + scale)) (2 ^ scale)).
    + exact R.
    + exact one_rounds_self.
    + rewrite <- Ha, <- Hb. apply quotient_valid.
    + apply Prim2SF_valid.
    + nia.
    + rewrite Hone. apply Z.mul_le_mono_nonneg_r; lia.
  - assert (Hh : hval mb eb <= hval ma ea).
    { unfold SFleb in Hab. rewrite SFcompare_hval in Hab by assumption.
      destruct (Z.compare_spec (hval mb eb) (hval ma ea));
        (lia || discriminate). }
    assert (Hexp : eb <= ea).
    { destruct (Z.le_gt_cases eb ea) as [|Hlt]; [assumption|].
      pose proof (hval_lt_of_exp _ _ _ _ _ _ Va Vb ltac:(lia)). lia. }
    unfold hval in Hh. fold A B in Hh.
    pose proof (digits_order mb ma B A HB HA Hh) as HD. fold dx dy in HD.
    assert (He' : -53 <= e') by (unfold e', fexp64, A, B in *; lia).
    assert (Hqpos : 0 < q).
    { destruct (Z.eq_dec q 0) as [E|E]; [|lia]. specialize (Hq0 E). lia. }
    assert (Hone' : 2 ^ scale <= (4 * q + c) * 2 ^ (e' - 2 + scale)).
    { destruct Hone as [[Hle0 Hone]|Hgt].
      - assert (HpN : 0 < 2 ^ (- e')) by (apply pow2_pos; lia).
        assert (Hsplit : 2 ^ s * 2 ^ B = 2 ^ A * 2 ^ (- e')).
        { rewrite <- !Z.pow_add_r by lia. f_equal. unfold s, A, B. lia. }
        assert (Hle : Zpos mb * 2 ^ (- e') <= Zpos ma * 2 ^ s).
        { apply (Z.mul_le_mono_pos_r _ _ (2 ^ B) HpB).
          replace (Zpos ma * 2 ^ s * 2 ^ B)
            with (Zpos ma * 2 ^ A * 2 ^ (- e'))
            by (rewrite <- !Z.mul_assoc, Hsplit; reflexivity).
          replace (Zpos mb * 2 ^ (- e') * 2 ^ B)
            with (Zpos mb * 2 ^ B * 2 ^ (- e')) by ring.
          apply Z.mul_le_mono_nonneg_r; lia. }
        assert (2 ^ (- e') <= q) by nia.
        rewrite Hone. apply Z.mul_le_mono_nonneg_r; lia.
      - assert (Hup : 2 ^ scale <= 2 ^ (e' + scale))
          by (apply Z.pow_le_mono_r; unfold scale; lia).
        assert (Hsp : 2 ^ (e' + scale) = 4 * 2 ^ (e' - 2 + scale)).
        { change 4 with (2 ^ 2). rewrite <- Z.pow_add_r by (unfold scale; lia).
          f_equal. lia. }
        nia. }
    apply (rounds_to_leb _ _ (2 ^ scale) ((4 * q + c) * 2 ^ (e' - 2 + scale))).
    + exact one_rounds_self.
    + exact R.
    + apply Prim2SF_valid.
    + rewrite <- Ha, <- Hb. apply quotient_valid.
    + apply pow2_pos. unfold scale. lia.
    + exact Hone'.
Qed.

Lemma hval_below_top (s : bool) (m : positive) (e : Z) :
  valid_binary (S754_finite s m e) = true -> 0 < hval m e < top.
Proof.
  intros V. pose proof (valid_mantissa_lt _ _ _ V) as Hm.
  apply valid_finite_bounds in V as [Hc He].
  assert (Hp : 0 < 2 ^ (e + 1074)) by (apply pow2_pos; lia).
  unfold hval, top. split; [apply Z.mul_pos_pos; lia|].
  apply Z.lt_le_trans with (2 ^ 53 * 2 ^ (e + 1074)).
  - apply Z.mul_lt_mono_pos_r; lia.
  - rewrite <- Z.pow_add_r by lia. apply Z.pow_le_mono_r; lia.
Qed.

(** Decides a comparison of two ranks from the bounds in the context. *)
Ltac rank_compare :=
  cbn [cond_Zopp]; apply f_equal; symmetry;
  match goal with
  | |- (?a ?= ?b) = Eq => apply Z.compare_eq_iff; lia
  | |- (?a ?= ?b) = Lt => change (a < b); lia
  | |- (?a ?= ?b) = Gt => change (a > b); lia
  end.

(** Away from NaN the comparison of the specification is the comparison
    of the ranks. *)
Lemma SFcompare_rank (x y : spec_float) :
  valid_binary x = true -> valid_binary y = true ->
  x <> S754_nan -> y <> S754_nan ->
  SFcompare x y = Some (rank x ?= rank y).
Proof.
  intros Vx Vy Nx Ny.
  assert (Htop : 0 < top) by (apply pow2_pos; lia).
  destruct x as [sx|sx| |sx mx ex]; [| |congruence|];
    destruct y as [sy|sy| |sy my ey]; try congruence;
    try (pose proof (hval_below_top _ _ _ Vx) as Hx);
    try (pose proof (hval_below_top _ _ _ Vy) as Hy);
    cbn [rank SFcompare].
  - reflexivity.
  - destruct sy; rank_compare.
  - destruct sy; rank_compare.
  - destruct sx; rank_compare.
  - destruct sx, sy; rank_compare.
  - destruct sx, sy; rank_compare.
  - destruct sx; rank_compare.
  - destruct sx, sy; rank_compare.
  - destruct sx, sy; cbn [cond_Zopp].
    + assert (Hneg : SFcompare (S754_finite true mx ex) (S754_finite true my ey)
                     = SFcompare (S754_finite false my ey)
                         (S754_finite false mx ex)).
      { exact (SFcompare_opp (S754_finite false mx ex)
                 (S754_finite false my ey)). }
      cbn [SFcompare] in Hneg. rewrite Hneg.
      change (Some (match ey ?= ex with
                    | Eq => Pos.compare_cont Eq my mx
                    | Lt => Lt
                    | Gt => Gt
                    end))
        with (SFcompare (S754_finite false my ey) (S754_finite false mx ex)).
      rewrite SFcompare_hval by assumption. f_equal.
      rewrite Z.compare_opp. reflexivity.
    + rank_compare.
    + rank_compare.
    + change (Some (match ex ?= ey with
                    | Eq => Pos.compare_cont Eq mx my
                    | Lt => Lt
                    | Gt => Gt
                    end))
        with (SFcompare (S754_finite false mx ex) (S754_finite false my ey)).
      apply SFcompare_hval; assumption.
Qed.

Lemma number_not_nan (a : float) : is_number a -> Prim2SF a <> S754_nan.
Proof.
  unfold is_number. rewrite FloatAxioms.eqb_spec. intros H E.
  rewrite E in H. discriminate.
Qed.

Lemma leb_rank (a b : float) :
  is_number a -> is_number b ->
  (a <=? b)%float = (rank (Prim2SF a) <=? rank (Prim2SF b)).
Proof.
  intros Ha Hb. rewrite FloatAxioms.leb_spec. unfold SFleb, Z.leb.
  rewrite SFcompare_rank
    by (try apply Prim2SF_valid; apply number_not_nan; assumption).
  destruct (rank (Prim2SF a) ?= rank (Prim2SF b)); reflexivity.
Qed.

Lemma ltb_rank (a b : float) :
  is_number a -> is_number b ->
  (a <? b)%float = (rank (Prim2SF a) <? rank (Prim2SF b)).
Proof.
  intros Ha Hb. rewrite FloatAxioms.ltb_spec. unfold SFltb, Z.ltb.
  rewrite SFcompare_rank
    by (try apply Prim2SF_valid; apply number_not_nan; assumption).
  destruct (rank (Prim2SF a) ?= rank (Prim2SF b)); reflexivity.
Qed.

(** The limited adjustment factor with the comparison that selects it. *)
Lemma clamp_selects (f : float) :
  is_number f ->
  let c := Go.Max 0.8 (Go.Min 1.2 f) in
  (c = 0.8%float /\ (f <? 0.8)%float = true)
  \/ (c = 1.2%float /\ (1.2 <? f)%float = true)
  \/ (c = f /\ (f <? 0.8)%float = false /\ (1.2 <? f)%float = false).
Proof.
  intros Hf c. subst c. unfold is_number in Hf.
  assert (Hnan : Go.IsNaN f = false) by (unfold Go.IsNaN; rewrite Hf; reflexivity).
  unfold Go.Min. rewrite (IsInf_neg f).
  replace (Go.IsInf 1.2 (-1)) with false by reflexivity. rewrite orb_false_l.
  destruct (f <? - Go.MaxFloat64)%float eqn:Hninf.
  { left. apply below_neg_MaxFloat64 in Hninf. subst f. split; reflexivity. }
  replace (Go.IsNaN 1.2) with false by reflexivity.
  rewrite Hnan, orb_false_l.
  replace (1.2 =? 0)%float with false by reflexivity. rewrite andb_false_l.
  destruct (1.2 <? f)%float eqn:Hhi.
  { right. left. split; reflexivity. }
  unfold Go.Max. rewrite (IsInf_pos f).
  replace (Go.IsInf 0.8 1) with false by reflexivity. rewrite orb_false_l.
  destruct (Go.MaxFloat64 <? f)%float eqn:Hinf.
  { apply above_MaxFloat64 in Hinf. subst f. discriminate Hhi. }
  replace (Go.IsNaN 0.8) with false by reflexivity.
  rewrite Hnan, orb_false_l.
  replace (0.8 =? 0)%float with false by reflexivity. rewrite andb_false_l.
  destruct (f <? 0.8)%float eqn:Hlo.
  - left. split; reflexivity.
  - right. right. auto.
Qed.

(** The limited factor stays on the side of 1.0 the factor is on. *)
Lemma clamp_side (f : float) :
  is_number f ->
  let c := Go.Max 0.8 (Go.Min 1.2 f) in
  ((f <=? 1)%float = true -> (c <=? 1)%float = true)
  /\ ((1 <=? f)%float = true -> (1 <=? c)%float = true).
Proof.
  intros Hf c.
  assert (N1 : is_number 1) by reflexivity.
  assert (N8 : is_number 0.8) by reflexivity.
  assert (N12 : is_number 1.2) by reflexivity.
  assert (H8 : rank (Prim2SF 0.8) < rank (Prim2SF 1)) by reflexivity.
  assert (H12 : rank (Prim2SF 1) < rank (Prim2SF 1.2)) by reflexivity.
  destruct (clamp_selects f Hf) as [[Hc Hlo]|[[Hc Hhi]|(Hc & Hlo & Hhi)]];
    fold c in Hc; rewrite Hc;
    rewrite ?(ltb_rank f 0.8 Hf N8) in *; rewrite ?(ltb_rank 1.2 f N12 Hf) in *;
    rewrite ?(leb_rank f 1 Hf N1), ?(leb_rank 1 f N1 Hf),
      ?(leb_rank 0.8 1 N8 N1), ?(leb_rank 1 0.8 N1 N8),
      ?(leb_rank 1.2 1 N12 N1), ?(leb_rank 1 1.2 N1 N12);
    set (r8 := rank (Prim2SF 0.8)) in *; set (r1 := rank (Prim2SF 1)) in *;
    set (r12 := rank (Prim2SF 1.2)) in *; set (rf := rank (Prim2SF f)) in *;
    clearbody r8 r1 r12 rf;
    rewrite ?Z.ltb_lt, ?Z.ltb_ge, ?Z.leb_le in *;
    split; intros; rewrite ?Z.leb_le in *; lia.
Qed.

Lemma positive_finite (x : float) :
  (0 <? x)%float = true -> (x <? infinity)%float = true ->
  exists m e, Prim2SF x = S754_finite false m e.
Proof.
  rewrite !FloatAxioms.ltb_spec.
  change (Prim2SF 0) with (S754_zero false).
  change (Prim2SF infinity) with (S754_infinity false).
  destruct (Prim2SF x) as [s|[]| |[] m e]; try discriminate; eauto.
Qed.

Lemma nonneg_number (x : float) : (0 <=? x)%float = true -> is_number x.
Proof.
  unfold is_number. rewrite FloatAxioms.leb_spec, FloatAxioms.eqb_spec.
  change (Prim2SF 0) with (S754_zero false).
  intros H. apply SFeqb_refl. intros E. rewrite E in H. discriminate.
Qed.

Lemma leb_refl (x : float) : is_number x -> (x <=? x)%float = true.
Proof. intros H. rewrite (leb_rank x x H H). apply Z.leb_refl. Qed.

(** X23.  The direction of an adjustment.  For a positive mean, a
    positive finite target and a coefficient that is not negative, a
    mean at or above the target never raises the coefficient and a mean
    at or below the target never lowers it: the coefficient moves
    against the deviation of the readings, so that readings that run
    high leave less insulin per gram, not more. *)
Theorem adjustment_moves_against_deviation (avgBG targetBG current : float) :
  (0 <? targetBG)%float = true -> (targetBG <? infinity)%float = true ->
  (0 <? avgBG)%float = true -> (0 <=? current)%float = true ->
  let adjusted := insulin.adjustCoefficient avgBG targetBG current in
  ((targetBG <=? avgBG)%float = true -> (adjusted <=? current)%float = true)
  /\ ((avgBG <=? targetBG)%float = true ->
      (current <=? adjusted)%float = true).
Proof.
  intros Hpos Hfin Havg Hcur adjusted. subst adjusted.
  pose proof (nonneg_number _ Hcur) as Ncur.
  unfold insulin.adjustCoefficient.
  destruct (Go.Abs (avgBG - targetBG) <? 1)%float;
    [split; intros _; apply leb_refl; exact Ncur|].
  cbv zeta.
  destruct (positive_finite _ Hpos Hfin) as (mt & et & Ht).
  set (f := (targetBG / avgBG)%float).
  assert (Nf : is_number f).
  { unfold is_number, f.
    rewrite FloatAxioms.eqb_spec, FloatAxioms.div_spec, Ht.
    apply SFeqb_refl, SFdiv_defined, ltb_zero_nonneg, Havg. }
  destruct (clamp_bounds f Nf) as [Hlo Hhi].
  destruct (clamp_side f Nf) as [Hdown Hup].
  set (c := Go.Max 0.8 (Go.Min 1.2 f)) in *.
  assert (H8 : Prim2SF 0.8 = S754_finite false 7205759403792794 (-53))
    by reflexivity.
  assert (H12 : Prim2SF 1.2 = S754_finite false 5404319552844595 (-52))
    by reflexivity.
  destruct (between_finite _ _ c _ _ _ _ H8 H12 Hlo Hhi) as (mc & ec & Hc).
  split; intros Hdev.
  - assert (Hf1 : (f <=? 1)%float = true).
    { rewrite FloatAxioms.ltb_spec in Havg.
      change (Prim2SF 0) with (S754_zero false) in Havg.
      destruct (Prim2SF avgBG) as [sa|[]| |[] ma ea] eqn:Ha;
        try discriminate.
      - unfold f. rewrite FloatAxioms.leb_spec, FloatAxioms.div_spec, Ht, Ha.
        reflexivity.
      - exact (proj1 (div_vs_one targetBG avgBG _ _ _ _ Ht Ha) Hdev). }
    rewrite <- (mul_one_r current) at 2.
    exact (mul_le_mono_nonneg current c 1 _ _ _ _ Hcur Hc Prim2SF_one
             (Hdown Hf1)).
  - assert (Hf1 : (1 <=? f)%float = true).
    { rewrite FloatAxioms.ltb_spec in Havg.
      change (Prim2SF 0) with (S754_zero false) in Havg.
      destruct (Prim2SF avgBG) as [sa|[]| |[] ma ea] eqn:Ha;
        try discriminate.
      - rewrite FloatAxioms.leb_spec, Ha, Ht in Hdev. discriminate.
      - exact (proj2 (div_vs_one targetBG avgBG _ _ _ _ Ht Ha) Hdev). }
    rewrite <- (mul_one_r current) at 1.
    exact (mul_le_mono_nonneg current 1 c _ _ _ _ Hcur Prim2SF_one Hc
             (Hup Hf1)).
Qed.

Lemma adjustment_moves_against_deviation_witness :
  (insulin.adjustCoefficient 9.5 6.0 1.0 <=? 1.0)%float = true.
Proof.
  apply (adjustment_moves_against_deviation 9.5 6.0 1.0); reflexivity.
Defined.


